(** * npy_utils: a shallow embedding of the NPY reader and writer

    The development follows [src/npy_utils.cpp] and [src/npy_utils.hpp].
    Platform assumptions (LP64, little endian): [size_t] is 64 bits wide,
    [int] is 32 bits wide, [char] is one byte.

    - bytes and [std::string] contents are [list ascii] (a [std::string] may
      hold NUL bytes, a list may too);
    - [size_t] values are [Z] with the wrap-around modulo [2^64] written out;
    - a C++ call ends in one of: a value, a thrown exception, undefined
      behaviour (a read outside an array, of an indeterminate byte, ...);
    - file names and diagnostics are [string]. *)

From Stdlib Require Import List ZArith Ascii String Bool Lia.
Import ListNotations.

Local Open Scope Z_scope.
Local Open Scope list_scope.

(** ** Outcomes of a C++ computation

    A call ends in a value, in an exception, or at an operation the
    language leaves undefined.  [Undefined] marks that operation and is
    final: the model says that it is reached, and nothing about what a
    compiled program does after it (a scan that leaves [char buffer[256]]
    goes on through the stack up to the next newline; [header[npos]] on an
    empty string reads the byte before its storage).  A statement with
    outcome [Undefined u] is a statement about the access itself. *)

Inductive exn : Type :=
| runtime_error (what : string)
| out_of_range (what : string)
| invalid_argument (what : string)
| length_error (what : string).

Inductive ub : Type :=
| OutOfBounds        (* read or write outside an object *)
| Indeterminate      (* read of an uninitialised byte *)
| IntOverflow.       (* value not representable in [int] *)

Inductive result (A : Type) : Type :=
| Ok (a : A)
| Throw (e : exn)
| Undefined (u : ub)
| OutOfFuel.
Arguments Ok {A} a.
Arguments Throw {A} e.
Arguments Undefined {A} u.
Arguments OutOfFuel {A}.

Definition rbind {A B} (r : result A) (k : A -> result B) : result B :=
  match r with
  | Ok a => k a
  | Throw e => Throw e
  | Undefined u => Undefined u
  | OutOfFuel => OutOfFuel
  end.

Declare Scope res_scope.
Delimit Scope res_scope with res.
Notation "x <- r ;; k" := (rbind r (fun x => k))
  (at level 61, r at next level, right associativity) : res_scope.
Notation "' p <- r ;; k" := (rbind r (fun x => let p := x in k))
  (at level 61, p pattern, r at next level, right associativity) : res_scope.
Local Open Scope res_scope.

(** ** Machine integers *)

Definition SIZE_BITS : Z := 64.
Definition SIZE_MOD : Z := 2 ^ SIZE_BITS.
Definition npos : Z := SIZE_MOD - 1.            (* std::string::npos *)
Definition INT_MAX : Z := 2147483647.
Definition INT_MIN : Z := -2147483648.

(** Arithmetic on [size_t] wraps. *)
Definition wrap (z : Z) : Z := z mod SIZE_MOD.

(** ** Characters and strings *)

Definition str (s : string) : list ascii := list_ascii_of_string s.

Definition NUL : ascii := "000"%char.
Definition LF : ascii := "010"%char.
Definition SPACE : ascii := " "%char.

Definition size (s : list ascii) : Z := Z.of_nat (List.length s).

Definition is_digit (c : ascii) : bool :=
  let n := nat_of_ascii c in (48 <=? n)%nat && (n <=? 57)%nat.

Definition digit_val (c : ascii) : Z := Z.of_nat (nat_of_ascii c) - 48.

Definition digit_char (d : Z) : ascii := ascii_of_nat (Z.to_nat (d + 48)).

(** [isspace] in the C locale. *)
Definition is_space (c : ascii) : bool :=
  let n := nat_of_ascii c in
  (n =? 32)%nat || ((9 <=? n)%nat && (n <=? 13)%nat).

Fixpoint list_eqb (a b : list ascii) : bool :=
  match a, b with
  | [], [] => true
  | x :: a', y :: b' => Ascii.eqb x y && list_eqb a' b'
  | _, _ => false
  end.

Fixpoint take_while (p : ascii -> bool) (s : list ascii) : list ascii :=
  match s with
  | [] => []
  | c :: s' => if p c then c :: take_while p s' else []
  end.

Fixpoint drop_while (p : ascii -> bool) (s : list ascii) : list ascii :=
  match s with
  | [] => []
  | c :: s' => if p c then drop_while p s' else s
  end.

(** [std::to_string] on an unsigned value: decimal, no leading zero.
    Twenty digits are enough for a 64-bit value. *)
Fixpoint to_digits (fuel : nat) (n : Z) (acc : list ascii) : list ascii :=
  match fuel with
  | O => acc
  | S f =>
      let acc' := digit_char (n mod 10) :: acc in
      if n <? 10 then acc' else to_digits f (n / 10) acc'
  end.

Definition to_string (n : Z) : list ascii :=
  if n <? 0 then "-"%char :: to_digits 20 (- n) [] else to_digits 20 n [].

(** Value of a run of decimal digits, most significant first. *)
Definition digits_value (s : list ascii) : Z :=
  fold_left (fun a c => 10 * a + digit_val c) s 0.

(** *** [std::string] members *)

Fixpoint starts_with (pat s : list ascii) : bool :=
  match pat, s with
  | [], _ => true
  | _ :: _, [] => false
  | p :: pat', c :: s' => Ascii.eqb p c && starts_with pat' s'
  end.

Fixpoint index_of (pat s : list ascii) : option nat :=
  if starts_with pat s then Some O
  else match s with
       | [] => None
       | _ :: s' => option_map S (index_of pat s')
       end.

(** [s.find(pat)]: position of the first occurrence, or [npos]. *)
Definition find (s pat : list ascii) : Z :=
  match index_of pat s with
  | Some i => Z.of_nat i
  | None => npos
  end.

(** [s.find(c)] for a single character. *)
Definition find_char (s : list ascii) (c : ascii) : Z := find s [c].

(** [s.substr(pos, count)]: throws [std::out_of_range] when [pos > size()],
    otherwise the characters of [[pos, min(pos + count, size()))].  The
    text of the exception is the library's and carries the two numbers;
    the model keeps the name of the throwing function only. *)
Definition substr (s : list ascii) (pos count : Z) : result (list ascii) :=
  if size s <? pos then Throw (out_of_range "basic_string::substr")
  else
    let rlen := Z.min count (size s - pos) in
    Ok (firstn (Z.to_nat rlen) (skipn (Z.to_nat pos) s)).

(** [s[pos]]: the character at [pos]; NUL at [pos == size()]; undefined
    beyond, and the model is faithful up to [size()] only: past it the
    outcome is the access, not the byte a compiled program finds there. *)
Definition at_index (s : list ascii) (pos : Z) : result ascii :=
  if size s <? pos then Undefined OutOfBounds
  else Ok (nth (Z.to_nat pos) s NUL).

(** *** [atoi] and [std::stoi] *)

(** The text a [const char*] denotes: up to the first NUL. *)
Definition c_str (s : list ascii) : list ascii :=
  take_while (fun c => negb (Ascii.eqb c NUL)) s.

(** The common scan of [strtol] in base 10: white space, an optional sign,
    then digits.  [None] when there is no digit. *)
Definition strtol_scan (s : list ascii) : option Z :=
  let s1 := drop_while is_space s in
  let '(neg, s2) :=
    match s1 with
    | c :: t =>
        if Ascii.eqb c "-"%char then (true, t)
        else if Ascii.eqb c "+"%char then (false, t)
        else (false, s1)
    | [] => (false, s1)
    end in
  match take_while is_digit s2 with
  | [] => None
  | ds => Some (if neg then - digits_value ds else digits_value ds)
  end.

Definition in_int_range (v : Z) : bool := (INT_MIN <=? v) && (v <=? INT_MAX).

(** [atoi(p)]: 0 when nothing converts; undefined when the value does not
    fit an [int]. *)
Definition atoi (s : list ascii) : result Z :=
  match strtol_scan (c_str s) with
  | None => Ok 0
  | Some v => if in_int_range v then Ok v else Undefined IntOverflow
  end.

(** [std::stoi(s)]: throws [std::invalid_argument] when nothing converts and
    [std::out_of_range] when the value does not fit an [int]. *)
Definition stoi (s : list ascii) : result Z :=
  match strtol_scan (c_str s) with
  | None => Throw (invalid_argument "stoi")
  | Some v => if in_int_range v then Ok v else Throw (out_of_range "stoi")
  end.

(** ** [find_header_substring] (npy_utils.cpp, lines 4-38)

    The argument points into [char buffer[256]]; a cell of that array is
    [None] while it is indeterminate.  A pointer into the array is the list
    of cells from the pointed one to the end of the array.  The null test
    of line 10 cannot fire on the address of a local array and is left
    out. *)

Definition cell : Type := option ascii.

(** First loop: the first non-NUL character before the newline. *)
Fixpoint find_start (mem : list cell) : result (option (list cell)) :=
  match mem with
  | [] => Undefined OutOfBounds
  | None :: _ => Undefined Indeterminate
  | Some c :: rest =>
      if Ascii.eqb c LF then Ok None
      else if negb (Ascii.eqb c NUL) then Ok (Some mem)
      else find_start rest
  end.

(** Second loop: the characters from [start] to [end], [end] being the last
    one before the newline.  Neither loop has a bound: with no newline in
    the array the scan leaves it, which is where the model stops. *)
Fixpoint scan_to_newline (mem : list cell) : result (list ascii) :=
  match mem with
  | [] => Undefined OutOfBounds
  | None :: _ => Undefined Indeterminate
  | Some c :: rest =>
      if Ascii.eqb c LF then Ok []
      else cs <- scan_to_newline rest ;; Ok (c :: cs)
  end.

Definition find_header_substring (buffer : list cell) : result (list ascii) :=
  start <- find_start buffer ;;
  match start with
  | None => Ok []
  | Some p =>
      run <- scan_to_newline p ;;
      match run with
      | [] => Ok []                       (* [end] still null *)
      | _ => Ok (run ++ [LF])             (* string(start, end - start + 2) *)
      end
  end.

(** ** [parse_npy_header] (npy_utils.cpp, lines 40-92) *)

(** A [FILE*] opened for reading is the list of bytes not yet consumed. *)
Definition stream : Type := list ascii.

Definition BUFFER_SIZE : nat := 256.

(** Writing [data] at the start of the buffer. *)
Definition store (data : list ascii) (buffer : list cell) : list cell :=
  map Some data ++ skipn (List.length data) buffer.

(** The characters [fgets] takes: up to and including the first newline, at
    most [n]. *)
Fixpoint fgets_line (n : nat) (fp : stream) : list ascii :=
  match n, fp with
  | O, _ => []
  | _, [] => []
  | S n', c :: fp' => if Ascii.eqb c LF then [c] else c :: fgets_line n' fp'
  end.

(** [fgets(buffer, 256, fp)]: nothing is stored at end of file, otherwise
    the line and a terminating NUL. *)
Definition fgets (buffer : list cell) (fp : stream) : list cell * stream :=
  let line := fgets_line (BUFFER_SIZE - 1) fp in
  match line with
  | [] => (buffer, fp)
  | _ => (store (line ++ [NUL]) buffer, skipn (List.length line) fp)
  end.

(** The [regex_search] of ["[0-9][0-9]*"]: the leftmost longest run of
    digits and the suffix after it. *)
Definition regex_search_num (s : list ascii) : option (list ascii * list ascii) :=
  match drop_while (fun c => negb (is_digit c)) s with
  | [] => None
  | s' => Some (take_while is_digit s', drop_while is_digit s')
  end.

(** The [while (std::regex_search(...))] loop of lines 74-77. *)
Fixpoint shape_loop (fuel : nat) (str_shape : list ascii) (shape : list Z)
  : result (list Z) :=
  match fuel with
  | O => OutOfFuel
  | S f =>
      match regex_search_num str_shape with
      | None => Ok shape
      | Some (m, suffix) =>
          v <- stoi m ;;
          shape_loop f suffix (shape ++ [wrap v])
      end
  end.

Record header_info : Type := mk_header_info {
  hi_word_size : Z;
  hi_shape : list Z;
  hi_fortran_order : bool
}.

(** Lines 51-91: the work on the [header] string. *)
Definition parse_header_fields (header : list ascii) : result header_info :=
  last <- at_index header (wrap (size header - 1)) ;;
  if negb (Ascii.eqb last LF) then
    Throw (runtime_error "parse_npy_header: failed to read header")
  else
  (* fortran order *)
  let loc1 := find header (str "fortran_order") in
  if loc1 =? npos then
    Throw (runtime_error
      "parse_npy_header: failed to find header keyword: 'fortran_order'")
  else
  let loc1 := wrap (loc1 + 16) in
  word <- substr header loc1 4 ;;
  let fortran_order := list_eqb word (str "True") in
  (* shape *)
  let loc1 := find_char header "("%char in
  let loc2 := find_char header ")"%char in
  if (loc1 =? npos) || (loc2 =? npos) then
    Throw (runtime_error
      "parse_npy_header: failed to find header keyword: '(' or ')'")
  else
  str_shape <- substr header (wrap (loc1 + 1)) (wrap (loc2 - loc1 - 1)) ;;
  shape <- shape_loop (S (List.length str_shape)) str_shape [] ;;
  (* descr *)
  let loc1 := find header (str "descr") in
  if loc1 =? npos then
    Throw (runtime_error
      "parse_npy_header: failed to find header keyword: 'descr'")
  else
  let loc1 := wrap (loc1 + 9) in
  e <- at_index header loc1 ;;
  let littleEndian := Ascii.eqb e "<"%char || Ascii.eqb e "|"%char in
  if negb littleEndian then
    Throw (runtime_error
      "parse_npy_header: only little endian data is supported")
  else
  str_ws <- substr header (wrap (loc1 + 2)) npos ;;
  let loc2 := find_char str_ws "'"%char in
  tok <- substr str_ws 0 loc2 ;;
  ws <- atoi tok ;;
  Ok (mk_header_info (wrap ws) shape fortran_order).

(** The whole function: on success the descriptor and the stream positioned
    after the header line. *)
Definition parse_npy_header (fp : stream) : result (header_info * stream) :=
  let buffer : list cell := repeat None BUFFER_SIZE in
  let got := firstn 11 fp in
  let buffer := store got buffer in
  let fp := skipn 11 fp in
  if negb (Nat.eqb (List.length got) 11) then
    Throw (runtime_error "parse_npy_header: failed in fread")
  else
  let '(buffer, fp) := fgets buffer fp in
  header <- find_header_substring buffer ;;
  info <- parse_header_fields header ;;
  Ok (info, fp).

(** ** The environment: files, handles, diagnostics *)

Record world : Type := mk_world {
  w_files : list (string * list ascii);  (* the files on disk *)
  w_locked : list string;                (* paths that cannot be opened for writing *)
  w_open : list string;                  (* FILE* obtained from fopen, not yet closed *)
  w_cout : list string;                  (* lines sent to std::cout *)
  w_cerr : list string                   (* lines sent to std::cerr *)
}.

(** A computation with effects: the outcome and the world it leaves.  A
    thrown exception leaves the world as it was at the [throw]. *)
Definition io (A : Type) : Type := world -> result A * world.

Definition ret {A} (a : A) : io A := fun w => (Ok a, w).

Definition lift {A} (r : result A) : io A := fun w => (r, w).

Definition throw {A} (e : exn) : io A := fun w => (Throw e, w).

Definition bind {A B} (m : io A) (k : A -> io B) : io B :=
  fun w =>
    match m w with
    | (Ok a, w') => k a w'
    | (Throw e, w') => (Throw e, w')
    | (Undefined u, w') => (Undefined u, w')
    | (OutOfFuel, w') => (OutOfFuel, w')
    end.

Declare Scope io_scope.
Delimit Scope io_scope with io.
Notation "x <- m ;; k" := (bind m (fun x => k))
  (at level 61, m at next level, right associativity) : io_scope.
Notation "m ;;; k" := (bind m (fun _ => k))
  (at level 61, right associativity) : io_scope.

Fixpoint fs_lookup (name : string) (fs : list (string * list ascii))
  : option (list ascii) :=
  match fs with
  | [] => None
  | (n, d) :: fs' => if String.eqb n name then Some d else fs_lookup name fs'
  end.

Definition fs_set (name : string) (d : list ascii)
  (fs : list (string * list ascii)) : list (string * list ascii) :=
  (name, d) :: filter (fun p => negb (String.eqb (fst p) name)) fs.

Fixpoint remove_one (name : string) (l : list string) : list string :=
  match l with
  | [] => []
  | n :: l' => if String.eqb n name then l' else n :: remove_one name l'
  end.

(** A [FILE*] opened for reading: the name it was opened under and the bytes
    still to read. *)
Record FILE : Type := mk_FILE { f_name : string; f_rest : stream }.

(** [fopen(name, "rb")]: null when the file does not exist. *)
Definition fopen_rb (name : string) : io (option FILE) :=
  fun w =>
    match fs_lookup name (w_files w) with
    | None => (Ok None, w)
    | Some d =>
        (Ok (Some (mk_FILE name d)),
         mk_world (w_files w) (w_locked w) (name :: w_open w) (w_cout w) (w_cerr w))
    end.

Definition fclose (fp : FILE) : io unit :=
  fun w =>
    (Ok tt,
     mk_world (w_files w) (w_locked w) (remove_one (f_name fp) (w_open w))
       (w_cout w) (w_cerr w)).

Definition cout (line : string) : io unit :=
  fun w =>
    (Ok tt, mk_world (w_files w) (w_locked w) (w_open w) (w_cout w ++ [line]) (w_cerr w)).

Definition cerr (line : string) : io unit :=
  fun w =>
    (Ok tt, mk_world (w_files w) (w_locked w) (w_open w) (w_cout w) (w_cerr w ++ [line])).

(** [std::ofstream outfile(filename, std::ios::binary)]: the file is created
    or truncated; [is_open()] is false for a locked path.  The stream is
    closed by [close()] or by its destructor on every path, so only its
    name is kept. *)
Definition ofstream_open (name : string) : io bool :=
  fun w =>
    if existsb (String.eqb name) (w_locked w) then (Ok false, w)
    else
      (Ok true,
       mk_world (fs_set name [] (w_files w)) (w_locked w) (w_open w)
         (w_cout w) (w_cerr w)).

(** [outfile.write(p, n)] *)
Definition ofstream_write (name : string) (bytes : list ascii) : io unit :=
  fun w =>
    let old := match fs_lookup name (w_files w) with Some d => d | None => [] end in
    (Ok tt,
     mk_world (fs_set name (old ++ bytes) (w_files w)) (w_locked w) (w_open w)
       (w_cout w) (w_cerr w)).

(** ** The array container (npy_utils.hpp, lines 15-53) *)

Record NpyArray : Type := mk_NpyArray {
  data_holder : list ascii;
  shape : list Z;
  word_size : Z;
  fortran_order : bool;
  num_vals : Z
}.

(** [std::vector<char>::max_size()] *)
Definition VECTOR_MAX_SIZE : Z := 2 ^ 63 - 1.

Definition product (dims : list Z) : Z :=
  fold_left (fun acc i => wrap (acc * i)) dims 1.

(** The constructor: a zeroed buffer of [num_vals * word_size] bytes. *)
Definition NpyArray_new (_shape : list Z) (_word_size : Z) (_fortran_order : bool)
  : result NpyArray :=
  let num_vals := product _shape in
  let n := wrap (num_vals * _word_size) in
  if VECTOR_MAX_SIZE <? n then
    Throw (length_error "cannot create std::vector larger than max_size()")
  else
    Ok (mk_NpyArray (repeat NUL (Z.to_nat n)) _shape _word_size _fortran_order num_vals).

Definition num_bytes (arr : NpyArray) : Z := size (data_holder arr).

(** [fread(dst, 1, n, fp)] into a buffer of initialised bytes that starts at
    [dst]: the bytes read replace the first ones. *)
Definition fread_into (dst : list ascii) (n : Z) (fp : stream)
  : list ascii * Z * stream :=
  let got := firstn (Z.to_nat n) fp in
  (got ++ skipn (List.length got) dst, size got, skipn (List.length got) fp).

(** [load_the_npy_file] (npy_utils.cpp, lines 94-106).  [arr.data<char>()]
    takes the address of element 0 of the vector; it is taken as the start
    of the buffer, also when the buffer is empty. *)
Definition load_the_npy_file (fp : stream) : result NpyArray :=
  '(info, fp) <- parse_npy_header fp ;;
  arr <- NpyArray_new (hi_shape info) (hi_word_size info) (hi_fortran_order info) ;;
  let '(data, nread, _) := fread_into (data_holder arr) (num_bytes arr) fp in
  if negb (nread =? num_bytes arr) then
    Throw (runtime_error "load_the_npy_file: failed fread")
  else
    Ok (mk_NpyArray data (shape arr) (word_size arr) (fortran_order arr) (num_vals arr)).

Local Open Scope io_scope.

(** [npy::npy_load] (npy_utils.cpp, lines 108-119) *)
Definition npy_load (fname : string) : io NpyArray :=
  fp <- fopen_rb fname ;;
  match fp with
  | None => throw (runtime_error ("npy_load: Unable to open file " ++ fname))
  | Some fp =>
      arr <- lift (load_the_npy_file (f_rest fp)) ;;
      fclose fp ;;;
      ret arr
  end.

(** ** Element types and the dense matrix *)

(** The element type [T] of the templates. *)
Inductive elem_type : Type :=
| T_float | T_double
| T_int8 | T_int16 | T_int32 | T_int64
| T_uint8 | T_uint16 | T_uint32 | T_uint64
| T_other (size_of : Z).                 (* any other type, with its size *)

Definition sizeof (T : elem_type) : Z :=
  match T with
  | T_float => 4 | T_double => 8
  | T_int8 => 1 | T_int16 => 2 | T_int32 => 4 | T_int64 => 8
  | T_uint8 => 1 | T_uint16 => 2 | T_uint32 => 4 | T_uint64 => 8
  | T_other n => n
  end.

(** The [std::is_same] chain of the writers: the dtype string of [T]. *)
Definition descr_of (T : elem_type) : option (list ascii) :=
  match T with
  | T_float => Some (str "<f4")
  | T_double => Some (str "<f8")
  | T_int8 => Some (str "|i1")
  | T_int16 => Some (str "<i2")
  | T_int32 => Some (str "<i4")
  | T_int64 => Some (str "<i8")
  | T_uint8 => Some (str "|u1")
  | T_uint16 => Some (str "<u2")
  | T_uint32 => Some (str "<u4")
  | T_uint64 => Some (str "<u8")
  | T_other _ => None
  end.

(** [Eigen::Matrix<T, -1, -1, Options>]: Eigen is not part of the
    repository; the model keeps what the code uses of it: the dimensions,
    the storage-order bit of [Options] ([Eigen::RowMajor] is 1,
    [Eigen::ColMajor] is 0) and the storage behind [data()]. *)
Record Matrix (C : Type) : Type := mk_Matrix {
  m_rows : Z;
  m_cols : Z;
  m_options : Z;
  m_storage : list C
}.
Arguments mk_Matrix {C}.
Arguments m_rows {C}.
Arguments m_cols {C}.
Arguments m_options {C}.
Arguments m_storage {C}.

Definition RowMajor : Z := 1.
Definition ColMajor : Z := 0.

Definition IsRowMajor {C} (m : Matrix C) : bool := Z.testbit (m_options m) 0.

(** ** [load_npy_mat] (npy_utils.hpp, lines 61-89) *)

(** [v[k]] on a [std::vector<size_t>] *)
Definition vec_at (v : list Z) (k : nat) : result Z :=
  match nth_error v k with
  | Some x => Ok x
  | None => Undefined OutOfBounds
  end.

(** [raw_data[k]] for [T* raw_data] over the bytes [data]: the object
    representation of the [k]-th element, [sz] bytes. *)
Definition read_elem (sz : Z) (data : list ascii) (k : Z) : result (list ascii) :=
  if (k + 1) * sz <=? size data then
    Ok (firstn (Z.to_nat sz) (skipn (Z.to_nat (k * sz)) data))
  else Undefined OutOfBounds.

(** A counted loop [for (size_t i = 0; i < n; ++i)] collecting the values of
    its body in order. *)
Fixpoint for_range (i : Z) (n : nat) {A} (body : Z -> result A) : result (list A) :=
  match n with
  | O => Ok []
  | S n' =>
      (x <- body i ;;
       xs <- for_range (i + 1) n' body ;;
       Ok (x :: xs))%res
  end.

(** The two nested loops: the coefficients are assigned in the order of the
    row-major storage, so the storage is the list of the values read. *)
Definition fill_matrix (sz : Z) (arr : NpyArray) (r c : Z)
  : result (list (list ascii)) :=
  (rows <- for_range 0 (Z.to_nat r) (fun i =>
     for_range 0 (Z.to_nat c) (fun j =>
       if fortran_order arr
       then read_elem sz (data_holder arr) (wrap (wrap (j * r) + i))
       else read_elem sz (data_holder arr) (wrap (wrap (i * c) + j)))) ;;
   Ok (List.concat rows))%res.

Definition load_npy_mat (T : elem_type) (npy_file : string)
  : io (Matrix (list ascii)) :=
  npy_data <- npy_load npy_file ;;
  let shape := shape npy_data in
  if negb (Nat.eqb (List.length shape) 2) then
    throw (runtime_error "Only 2D arrays can be converted to Eigen matrices.")
  else
    lift (r <- vec_at shape 0 ;;
          c <- vec_at shape 1 ;;
          coeffs <- fill_matrix (sizeof T) npy_data r c ;;
          Ok (mk_Matrix r c RowMajor coeffs))%res.

(** ** The writers (npy_utils.hpp, lines 91-237) *)

Definition magic_string : list ascii := "147"%char :: str "NUMPY".

Definition major_version : ascii := "002"%char.
Definition minor_version : ascii := "000"%char.

(** The four bytes of a [uint32_t], least significant first. *)
Definition le32 (n : Z) : list ascii :=
  map (fun k => ascii_of_nat (Z.to_nat ((n / 2 ^ (8 * k)) mod 256))) [0; 1; 2; 3].

(** Lines 148-151 and 219-222: padding and the final newline. *)
Definition pad_header (header : list ascii) : list ascii :=
  let padding := wrap (16 - (wrap (10 + size header)) mod 16) in
  header ++ repeat SPACE (Z.to_nat padding) ++ [LF].

(** [reinterpret_cast<const char*>(p)] read for [n] bytes. *)
Definition read_bytes (mem : list ascii) (n : Z) : result (list ascii) :=
  if n <=? size mem then Ok (firstn (Z.to_nat n) mem) else Undefined OutOfBounds.

Definition filename_msg (m : string) (filename : string) : string :=
  (m ++ filename)%string.

(** [save_mat<T, Options>(filename, matrix)] *)
Definition save_mat (T : elem_type) (filename : string) (matrix : Matrix ascii)
  : io unit :=
  cout "START" ;;;
  is_open <- ofstream_open filename ;;
  if negb is_open then
    cerr (filename_msg "Failed to open file for writing: " filename) ;;;
    ret tt
  else
    ofstream_write filename magic_string ;;;
    ofstream_write filename [major_version] ;;;
    ofstream_write filename [minor_version] ;;;
    let header := str "{'descr': '" in
    match descr_of T with
    | None =>
        cerr "Unsupported data type" ;;;
        ret tt
    | Some d =>
        let header := header ++ d in
        let is_fortran_order := negb (IsRowMajor matrix) in
        let header := header ++ str "', 'fortran_order': " in
        let header := header ++ (if is_fortran_order then str "True" else str "False") in
        let header := header ++ (str ", 'shape': (" ++ to_string (m_rows matrix)
                                  ++ str ", " ++ to_string (m_cols matrix) ++ str "), }") in
        let header := pad_header header in
        let header_len := size header mod 2 ^ 32 in
        ofstream_write filename (le32 header_len) ;;;
        ofstream_write filename header ;;;
        payload <- lift (read_bytes (m_storage matrix)
                           (wrap (wrap (m_rows matrix * m_cols matrix) * sizeof T))) ;;
        ofstream_write filename payload ;;;
        cout (filename_msg "Saved matrix to: " filename) ;;;
        ret tt
    end.

(** [save_arr<T>(filename, data, size_v)] *)
Definition save_arr (T : elem_type) (filename : string) (data : list ascii)
  (size_v : Z) : io unit :=
  is_open <- ofstream_open filename ;;
  if negb is_open then
    cerr (filename_msg "Failed to open file for writing: " filename) ;;;
    ret tt
  else
    ofstream_write filename magic_string ;;;
    ofstream_write filename [major_version] ;;;
    ofstream_write filename [minor_version] ;;;
    let header := str "{'descr': '" in
    match descr_of T with
    | None =>
        cerr "Unsupported data type" ;;;
        ret tt
    | Some d =>
        let header := header ++ d in
        let header := header ++ (str "', 'fortran_order': False, 'shape': ("
                                  ++ to_string size_v ++ str ",), }") in
        let header := pad_header header in
        let header_len := size header mod 2 ^ 32 in
        ofstream_write filename (le32 header_len) ;;;
        ofstream_write filename header ;;;
        payload <- lift (read_bytes data (wrap (size_v * sizeof T))) ;;
        ofstream_write filename payload ;;;
        ret tt
    end.

(** ** Folder stacking (npy_utils.hpp, lines 312-387) *)

(** [fread(dst, 1, n, fp)] into storage that may be uninitialised: the bytes
    read are stored from byte offset [off] on. *)
Definition mem_write (mem : list cell) (off : Z) (data : list ascii)
  : result (list cell) :=
  match data with
  | [] => Ok mem
  | _ =>
      if off + size data <=? Z.of_nat (List.length mem) then
        Ok (firstn (Z.to_nat off) mem ++ map Some data
              ++ skipn (Z.to_nat off + List.length data) mem)
      else Undefined OutOfBounds
  end.

(** [_map_data(fname, dst)], [dst] being byte offset [off] of [mem]. *)
Definition _map_data (fname : string) (mem : list cell) (off : Z)
  : io (list cell) :=
  fp <- fopen_rb fname ;;
  match fp with
  | None => throw (runtime_error ("npy_load_data: Unable to open file " ++ fname))
  | Some fp =>
      r <- lift (parse_npy_header (f_rest fp)) ;;
      let '(info, rest) := r in
      let total_size := product (hi_shape info) in
      let n_bytes := wrap (hi_word_size info * total_size) in
      let got := firstn (Z.to_nat n_bytes) rest in
      mem' <- lift (mem_write mem off got) ;;
      if negb (size got =? n_bytes) then
        throw (runtime_error "npy_load_data: failed fread")
      else
        fclose fp ;;;
        ret mem'
  end.

(** [folder_name + "/" + prefix + std::to_string(i) + suffix] *)
Definition numbered_name (folder_name prefix : string) (i : Z) (suffix : string)
  : string :=
  (folder_name ++ "/" ++ prefix ++ string_of_list_ascii (to_string i) ++ suffix)%string.

(** The probing loop of lines 359-372. *)
Fixpoint count_files (fuel : nat) (folder_name prefix suffix : string)
  (_i : Z) (file_count : Z) : io Z :=
  match fuel with
  | O => lift OutOfFuel
  | S f =>
      test_fp <- fopen_rb (numbered_name folder_name prefix _i suffix) ;;
      match test_fp with
      | None => ret file_count
      | Some test_fp =>
          fclose test_fp ;;;
          count_files f folder_name prefix suffix (_i + 1) (wrap (file_count + 1))
      end
  end.

(** The loading loop of lines 379-384, [n] iterations left. *)
Fixpoint load_files (n : nat) (folder_name prefix suffix : string)
  (sz rows cols : Z) (i : Z) (mem : list cell) : io (list cell) :=
  match n with
  | O => ret mem
  | S n' =>
      mem' <- _map_data (numbered_name folder_name prefix i suffix) mem
                (wrap (wrap (i * rows) * cols) * sz) ;;
      load_files n' folder_name prefix suffix sz rows cols (i + 1) mem'
  end.

(** [npy_folder2mat<T, FORTRAN_ORDER>(folder_name, prefix, start_i, suffix)] *)
Definition npy_folder2mat (T : elem_type) (FORTRAN_ORDER : Z)
  (folder_name prefix : string) (start_i : Z) (suffix : string)
  : io (Matrix cell) :=
  let first_file := numbered_name folder_name prefix start_i suffix in
  fp <- fopen_rb first_file ;;
  match fp with
  | None => throw (runtime_error ("Unable to open file " ++ first_file))
  | Some fp =>
      r <- lift (parse_npy_header (f_rest fp)) ;;
      let info := fst r in
      fclose fp ;;;
      if negb ((if hi_fortran_order info then 0 else 1) =? FORTRAN_ORDER) then
        throw (runtime_error
          "npy_folder2mat: Matrix order mismatch. Expected fortran order does not match file order.")
      else
        rows <- lift (vec_at (hi_shape info) 0) ;;
        cols <- lift (vec_at (hi_shape info) 1) ;;
        w <- (fun w => (Ok w, w)) ;;
        file_count <- count_files (S (List.length (w_files w)))
                        folder_name prefix suffix start_i 0 ;;
        let total_rows := wrap (rows * file_count) in
        let data := repeat (@None ascii) (Z.to_nat (total_rows * cols * sizeof T)) in
        let i0 := wrap start_i in
        data' <- load_files (Z.to_nat (file_count - i0)) folder_name prefix suffix
                   (sizeof T) rows cols i0 data ;;
        ret (mk_Matrix total_rows cols FORTRAN_ORDER data')
  end.

(** ** The on-disk format, as the reader meets it

    The layout of the format table: magic, two version bytes, a length field
    of 2 (version 1) or 4 (version 2) bytes, then the dictionary. *)

Inductive npy_version : Type := V1 | V2.

Definition major_of (v : npy_version) : ascii :=
  match v with V1 => "001"%char | V2 => "002"%char end.

Definition le16 (n : Z) : list ascii :=
  map (fun k => ascii_of_nat (Z.to_nat ((n / 2 ^ (8 * k)) mod 256))) [0; 1].

Definition length_field (v : npy_version) (n : Z) : list ascii :=
  match v with V1 => le16 n | V2 => le32 n end.

Definition npy_file (v : npy_version) (minor : ascii) (dict payload : list ascii)
  : list ascii :=
  magic_string ++ [major_of v; minor] ++ length_field v (size dict) ++ dict ++ payload.

(** Shapes of rank 1 and 2 and their tuple text: [(N,)] and [(N1, N2)]. *)
Inductive dims : Type :=
| Rank1 (n : Z)
| Rank2 (r c : Z).

Definition dims_list (d : dims) : list Z :=
  match d with Rank1 n => [n] | Rank2 r c => [r; c] end.

Definition dims_text (d : dims) : list ascii :=
  match d with
  | Rank1 n => to_string n ++ str ","
  | Rank2 r c => to_string r ++ str ", " ++ to_string c
  end.

Definition dims_in_int_range (d : dims) : Prop :=
  Forall (fun n => 0 <= n <= INT_MAX) (dims_list d).

Definition bool_text (b : bool) : list ascii :=
  if b then str "True" else str "False".

(** The dictionary in the key order the writers (and NumPy) use, before
    padding. *)
Definition dict_body (descr : list ascii) (fo : bool) (d : dims) : list ascii :=
  str "{'descr': '" ++ descr ++ str "', 'fortran_order': " ++ bool_text fo
    ++ str ", 'shape': (" ++ dims_text d ++ str "), }".

Definition dict_text (descr : list ascii) (fo : bool) (d : dims) (pad : nat)
  : list ascii :=
  dict_body descr fo d ++ repeat SPACE pad ++ [LF].

(** What a writer puts in the file before the payload. *)
Definition emit (T : elem_type) (fo : bool) (d : dims) : option (list ascii) :=
  match descr_of T with
  | None => None
  | Some ds =>
      let header := pad_header (dict_body ds fo d) in
      Some (magic_string ++ [major_version] ++ [minor_version]
              ++ le32 (size header mod 2 ^ 32) ++ header)
  end.

(** The descriptor a header stands for. *)
Definition descriptor (T : elem_type) (fo : bool) (d : dims) : header_info :=
  mk_header_info (sizeof T) (dims_list d) fo.

(** The ten element kinds of the registry. *)
Definition supported (T : elem_type) : Prop :=
  match T with T_other _ => False | _ => True end.

(** What [parse_header_fields] draws from the text up to and including the
    opening parenthesis of the shape: the word size and the order flag. *)
Definition prefix_ok (P : list ascii) (ws : Z) (fo : bool) : bool :=
  match index_of (str "fortran_order") P, index_of ["("%char] P,
        index_of [")"%char] P, index_of (str "descr") P with
  | Some k1, Some k2, None, Some k3 =>
      (k1 + 20 <=? List.length P)%nat
      && Bool.eqb (list_eqb (firstn 4 (skipn (k1 + 16) P)) (str "True")) fo
      && (S k2 =? List.length P)%nat
      && (k3 + 11 <=? List.length P)%nat
      && (let e := nth (k3 + 9) P NUL in
          Ascii.eqb e "<"%char || Ascii.eqb e "|"%char)
      && match index_of ["'"%char] (skipn (k3 + 11) P) with
         | Some k4 =>
             match atoi (firstn k4 (skipn (k3 + 11) P)) with
             | Ok v => (0 <=? v) && (v =? ws)
             | _ => false
             end
         | None => false
         end
  | _, _, _, _ => false
  end.

Definition is_letter (c : ascii) : bool :=
  let n := nat_of_ascii c in
  ((65 <=? n)%nat && (n <=? 90)%nat) || ((97 <=? n)%nat && (n <=? 122)%nat).

Definition no_newline (s : list ascii) : bool :=
  forallb (fun c => negb (Ascii.eqb c LF)) s.

(** ** Concrete files and worlds used below *)

Definition bytes (l : list Z) : list ascii :=
  map (fun z => ascii_of_nat (Z.to_nat z)) l.

Definition empty_world : world := mk_world [] [] [] [] [].

Definition world_with (files : list (string * list ascii)) : world :=
  mk_world files [] [] [] [].

(** Eight little-endian [float64] values 0.0 .. 7.0. *)
Definition f64_payload : list ascii :=
  bytes [0;0;0;0;0;0;0;0;    0;0;0;0;0;0;240;63;  0;0;0;0;0;0;0;64;
         0;0;0;0;0;0;8;64;   0;0;0;0;0;0;16;64;   0;0;0;0;0;0;20;64;
         0;0;0;0;0;0;24;64;  0;0;0;0;0;0;28;64].

(** A version 1.0 file of eight [float64], as NumPy lays it out: the prefix
    is 128 bytes long. *)
Definition v1_f64_file : list ascii :=
  npy_file V1 "000"%char (dict_text (str "<f8") false (Rank1 8) 60) f64_payload.

(** The same file with the first magic byte altered. *)
Definition bad_magic_file : list ascii :=
  "X"%char :: skipn 1 v1_f64_file.

(** A 2 x 3 [float64] file, and one whose descr is a half float. *)
Definition f8_2x3_file : list ascii :=
  npy_file V2 "000"%char (dict_text (str "<f8") false (Rank2 2 3) 10)
    (f64_payload ++ f64_payload).

Definition f2_file : list ascii :=
  npy_file V2 "000"%char (dict_text (str "<f2") false (Rank1 4) 12)
    (bytes [0;60; 0;64; 0;66; 0;68]).

(** A file whose header line has no newline within 255 bytes of offset 11. *)
Definition long_header_file : list ascii :=
  npy_file V2 "000"%char (dict_text (str "<f8") false (Rank1 8) 300) f64_payload.

(** A file cut inside the magic, and one whose payload is cut. *)
Definition truncated_file : list ascii := firstn 5 v1_f64_file.

Definition short_payload_file : list ascii :=
  npy_file V2 "000"%char (dict_text (str "|u1") false (Rank2 1 4) 10) (bytes [1; 2]).

(** One-byte matrices stored as [d/a1.npy] and [d/a2.npy]. *)
Definition u1_file (v : Z) : list ascii :=
  npy_file V2 "000"%char (dict_text (str "|u1") false (Rank2 1 1) 10) (bytes [v]).

Definition folder_world : world :=
  world_with [("d/a1.npy"%string, u1_file 11); ("d/a2.npy"%string, u1_file 22)].

Definition locked_world : world :=
  mk_world [] ["/readonly/a.npy"%string] [] [] [].

(** ** Auxiliary definitions for the statements below *)

(** A text that is empty or starts with a non-digit. *)
Definition starts_nondigit (s : list ascii) : bool :=
  match s with [] => true | c :: _ => negb (is_digit c) end.

(** The header a complete line yields: the line from its first non-NUL
    character on; nothing when there is none. *)
Definition line_header (a : list ascii) : list ascii :=
  match drop_while (fun c => Ascii.eqb c NUL) a with
  | [] => []
  | h => h ++ [LF]
  end.

(** The dictionary text between the opening brace and the tuple. *)
Definition dict_open (ds : list ascii) (fo : bool) : list ascii :=
  str "'descr': '" ++ ds ++ str "', 'fortran_order': " ++ bool_text fo
    ++ str ", 'shape': (".

(** The start of the header string the parser builds: in version 1 the
    brace is among the 11 bytes skipped, in version 2 it is not. *)
Definition header_prefix (v : npy_version) (ds : list ascii) (fo : bool)
  : list ascii :=
  match v with
  | V1 => dict_open ds fo
  | V2 => "{"%char :: dict_open ds fo
  end.

Definition dims_nonneg (d : dims) : Prop :=
  Forall (fun n => 0 <= n) (dims_list d).

(** The header string around a descr [e t W]: up to [e], and after [W]. *)
Definition descr_lead (v : npy_version) (e : ascii) : list ascii :=
  match v with
  | V1 => str "'descr': '" ++ [e]
  | V2 => "{"%char :: str "'descr': '" ++ [e]
  end.

Definition descr_tail (fo : bool) : list ascii :=
  str "', 'fortran_order': " ++ bool_text fo ++ str ", 'shape': (".

(** The padding of lines 149 and 220. *)
Definition writer_padding (body : list ascii) : Z :=
  16 - (10 + size body) mod 16.

Definition is_size_t (x : Z) : Prop := 0 <= x < SIZE_MOD.

Definition set_files (w : world) (fs : list (string * list ascii)) : world :=
  mk_world fs (w_locked w) (w_open w) (w_cout w) (w_cerr w).

Definition add_cerr (w : world) (line : string) : world :=
  mk_world (w_files w) (w_locked w) (w_open w) (w_cout w) (w_cerr w ++ [line]).

Definition add_cout (w : world) (line : string) : world :=
  mk_world (w_files w) (w_locked w) (w_open w) (w_cout w ++ [line]) (w_cerr w).

Definition with_open (w : world) (names : list string) : world :=
  mk_world (w_files w) (w_locked w) names (w_cout w) (w_cerr w).

Definition magic_and_version : list ascii :=
  magic_string ++ [major_version] ++ [minor_version].

(** The indices [i, i + 1, ..., i + n - 1] of a counted loop. *)
Fixpoint zrange (i : Z) (n : nat) : list Z :=
  match n with
  | O => []
  | S n' => i :: zrange (i + 1) n'
  end.

(** The [sz] bytes of element [k] when [data] is read as an array of
    [sz]-byte elements. *)
Definition elem_at (sz : Z) (data : list ascii) (k : Z) : list ascii :=
  firstn (Z.to_nat sz) (skipn (Z.to_nat (k * sz)) data).

(** The row-major coefficients [load_npy_mat] produces for element size
    [sz]: coefficient [(i, j)] is element [j * r + i] of a column-major
    payload and element [i * c + j] of a row-major one. *)
Definition reinterpret (sz : Z) (arr : NpyArray) (r c : Z) : list (list ascii) :=
  List.concat
    (map (fun i =>
            map (fun j =>
                   elem_at sz (data_holder arr)
                     (if fortran_order arr then j * r + i else i * c + j))
              (zrange 0 (Z.to_nat c)))
       (zrange 0 (Z.to_nat r))).

(** The header line of [v1_f64_file] after its first 11 bytes. *)
Definition v1_line : list ascii :=
  str "'descr': '<f8', 'fortran_order': False, 'shape': (8,), }" ++ repeat SPACE 60.

Definition s6_world : world := world_with [("s6.npy"%string, v1_f64_file)].

Definition f8_2x3_world : world := world_with [("m.npy"%string, f8_2x3_file)].

Definition truncated_world : world := world_with [("t.npy"%string, truncated_file)].

Definition short_payload_world : world :=
  world_with [("s.npy"%string, short_payload_file)].

(** ** The remaining functions of the library *)

(** [NpyArray::as_vec<T>] (npy_utils.hpp, lines 39-44):
    [std::vector<T>(p, p + num_vals)] copies [num_vals] elements of
    [sizeof(T)] bytes from the start of the buffer. *)
Definition as_vec (sz : Z) (arr : NpyArray) : result (list (list ascii)) :=
  for_range 0 (Z.to_nat (num_vals arr)) (read_elem sz (data_holder arr)).

(** [npy::load_npy_arr] (npy_utils.cpp, lines 121-142).  The buffer comes
    from [new char[n_bytes]], so it starts indeterminate; [operator new]
    is taken to succeed.  The function has no [fclose]. *)
Definition load_npy_arr (fname : string) : io (list cell * Z * Z) :=
  fp <- fopen_rb fname ;;
  match fp with
  | None => throw (runtime_error ("npy_load: Unable to open file " ++ fname))
  | Some fp =>
      r <- lift (parse_npy_header (f_rest fp)) ;;
      let '(info, rest) := r in
      let num_vals := product (hi_shape info) in
      let n_bytes := wrap (hi_word_size info * num_vals) in
      let arr := repeat (@None ascii) (Z.to_nat n_bytes) in
      let got := firstn (Z.to_nat n_bytes) rest in
      let arr := store got arr in
      (if negb (size got =? n_bytes)
       then cerr "load_the_npy_file: failed fread"
       else ret tt) ;;;
      ret (arr, n_bytes, hi_word_size info)
  end.

(** [save_arr_as_matrix<T>(filename, data, size_h, size_w)]
    (npy_utils.hpp, lines 239-310) *)
Definition save_arr_as_matrix (T : elem_type) (filename : string)
  (data : list ascii) (size_h size_w : Z) : io unit :=
  is_open <- ofstream_open filename ;;
  if negb is_open then
    cerr (filename_msg "Failed to open file for writing: " filename) ;;;
    ret tt
  else
    ofstream_write filename magic_string ;;;
    ofstream_write filename [major_version] ;;;
    ofstream_write filename [minor_version] ;;;
    let header := str "{'descr': '" in
    match descr_of T with
    | None =>
        cerr "Unsupported data type" ;;;
        ret tt
    | Some d =>
        let header := header ++ d in
        let header := header ++ str "', 'fortran_order': False" in
        let header := header ++ (str ", 'shape': (" ++ to_string size_h
                                  ++ str ", " ++ to_string size_w ++ str "), }") in
        let header := pad_header header in
        let header_len := size header mod 2 ^ 32 in
        ofstream_write filename (le32 header_len) ;;;
        ofstream_write filename header ;;;
        payload <- lift (read_bytes data
                           (wrap (wrap (size_h * size_w) * sizeof T))) ;;
        ofstream_write filename payload ;;;
        cout (filename_msg "Saved matrix to: " filename) ;;;
        ret tt
    end.

(** ** Further definitions for the statements *)

(** The exceptions the model of [parse_npy_header] ends in, as the model
    names them. *)
Definition parser_exceptions : list exn :=
  [ runtime_error "parse_npy_header: failed in fread";
    runtime_error "parse_npy_header: failed to find header keyword: 'fortran_order'";
    runtime_error "parse_npy_header: failed to find header keyword: '(' or ')'";
    runtime_error "parse_npy_header: failed to find header keyword: 'descr'";
    runtime_error "parse_npy_header: only little endian data is supported";
    out_of_range "basic_string::substr";
    out_of_range "stoi" ].

(** The messages of the six [throw std::runtime_error] of
    [parse_npy_header] (lines 45, 53, 59, 67, 81 and 85). *)
Definition parser_messages : list string :=
  [ "parse_npy_header: failed in fread";
    "parse_npy_header: failed to read header";
    "parse_npy_header: failed to find header keyword: 'fortran_order'";
    "parse_npy_header: failed to find header keyword: '(' or ')'";
    "parse_npy_header: failed to find header keyword: 'descr'";
    "parse_npy_header: only little endian data is supported" ]%string.

(** The exceptions of the parser by class: a [std::runtime_error] with one
    of these messages, or a [std::out_of_range] (raised inside [substr] or
    [std::stoi]), whatever its text. *)
Definition parser_exception (e : exn) : Prop :=
  match e with
  | runtime_error m => In m parser_messages
  | out_of_range _ => True
  | invalid_argument _ => False
  | length_error _ => False
  end.

(** The value of a little-endian field. *)
Definition le_value (bs : list ascii) : Z :=
  fold_right (fun b acc => Z.of_nat (nat_of_ascii b) + 256 * acc) 0 bs.

(** [matrix(i, j)] in Eigen: the index of the coefficient in the storage,
    in elements. *)
Definition coeff_index {C} (m : Matrix C) (i j : Z) : Z :=
  if IsRowMajor m then i * m_cols m + j else j * m_rows m + i.

(** The payload a matrix or array of [n] elements puts in a file. *)
Definition payload_bytes (T : elem_type) (n : Z) (data : list ascii) : list ascii :=
  firstn (Z.to_nat (n * sizeof T)) data.

(** A folder that holds exactly the files [prefix0suffix], ...,
    [prefix(n-1)suffix] with the given contents. *)
Definition folder_files (folder_name prefix suffix : string)
  (contents : list (list ascii)) : list (string * list ascii) :=
  map (fun p => (numbered_name folder_name prefix (Z.of_nat (fst p)) suffix, snd p))
    (combine (seq 0 (List.length contents)) contents).

(** What a call inside the parser may end in: a value that satisfies [Q],
    one of the listed exceptions, or undefined behaviour. *)
Definition parser_outcome {A} (Q : A -> Prop) (r : result A) : Prop :=
  match r with
  | Ok a => Q a
  | Throw e => In e parser_exceptions
  | Undefined _ => True
  | OutOfFuel => False
  end.

(** The values an [int] takes once converted to [size_t]. *)
Definition int_as_size_t (x : Z) : Prop :=
  0 <= x <= INT_MAX \/ SIZE_MOD + INT_MIN <= x < SIZE_MOD.

Definition header_in_range (info : header_info) : Prop :=
  int_as_size_t (hi_word_size info)
  /\ Forall (fun n => 0 <= n <= INT_MAX) (hi_shape info).

(** A prefix as for [prefix_ok], but with an endianness character the
    parser rejects. *)
Definition prefix_rejected (P : list ascii) : bool :=
  match index_of (str "fortran_order") P, index_of ["("%char] P,
        index_of [")"%char] P, index_of (str "descr") P with
  | Some k1, Some k2, None, Some k3 =>
      (k1 + 20 <=? List.length P)%nat
      && (S k2 =? List.length P)%nat
      && (k3 + 9 <? List.length P)%nat
      && (let e := nth (k3 + 9) P NUL in
          negb (Ascii.eqb e "<"%char || Ascii.eqb e "|"%char))
  | _, _, _, _ => false
  end.

(** The dtype string of a type with its endianness character replaced. *)
Definition with_endianness (e : ascii) (ds : list ascii) : list ascii :=
  e :: tl ds.

(** The number of elements of a shape of rank 1 or 2. *)
Definition count (d : dims) : Z :=
  match d with Rank1 n => n | Rank2 r c => r * c end.

(** The container [load_the_npy_file] builds from a descriptor and the
    bytes of the payload. *)
Definition container (T : elem_type) (fo : bool) (d : dims) (payload : list ascii)
  : NpyArray :=
  mk_NpyArray payload (dims_list d) (sizeof T) fo (count d).

(** The world [w'] is [w] after file [name] got [content] and [lines] went
    to [std::cout]: nothing else differs. *)
Definition file_written (w w' : world) (name : string) (content : list ascii)
  (lines : list string) : Prop :=
  fs_lookup name (w_files w') = Some content
  /\ (forall other, other <> name ->
        fs_lookup other (w_files w') = fs_lookup other (w_files w))
  /\ w_locked w' = w_locked w
  /\ w_open w' = w_open w
  /\ w_cerr w' = w_cerr w
  /\ w_cout w' = w_cout w ++ lines.

(** A path that can be opened for writing. *)
Definition writable (w : world) (filename : string) : Prop :=
  existsb (String.eqb filename) (w_locked w) = false.

(** The storage of the stacked matrix once the first [i] payloads are in:
    the rest is still uninitialised. *)
Definition stacked (payloads : list (list ascii)) (chunk : Z) (i : nat)
  : list cell :=
  map Some (List.concat (firstn i payloads))
    ++ repeat None (Z.to_nat (Z.of_nat (List.length payloads - i) * chunk)).

(** ** Further concrete files and worlds *)

(** The first 11 bytes of a version 1.0 file. *)
Definition v1_preamble : list ascii := firstn 11 v1_f64_file.

(** Header lines with one key left out. *)
Definition no_order_line : list ascii := str "'descr': '<f8', 'shape': (8,), }".

Definition no_paren_line : list ascii :=
  str "'descr': '<f8', 'fortran_order': False, 'shape': 8, }".

Definition no_descr_line : list ascii :=
  str "'fortran_order': False, 'shape': (8,), }".

Definition no_descr_big_line : list ascii :=
  str "'fortran_order': False, 'shape': (99999999999,), }".

(** Six bytes read as a 1 x 3 matrix of [int16]. *)
Definition i16_data : list ascii := bytes [1; 0; 2; 0; 3; 0].

(** A 2 x 3 column-major matrix of [uint8]. *)
Definition u1_colmajor : Matrix ascii :=
  mk_Matrix 2 3 ColMajor (bytes [11; 21; 12; 22; 13; 23]).

(** What the writers put before the payload of a 1 x 2 [uint8] matrix, and
    a folder of two such files, [d/a0.npy] and [d/a1.npy]. *)
Definition u1_1x2_prefix : list ascii :=
  match emit T_uint8 false (Rank2 1 2) with Some p => p | None => [] end.

Definition stack_world : world :=
  world_with (folder_files "d" "a" ".npy"
                (map (app u1_1x2_prefix) [bytes [11; 12]; bytes [21; 22]])).

(** A folder whose first file is one-dimensional. *)
Definition rank1_folder_world : world :=
  world_with [("d/a0.npy"%string, v1_f64_file)].


(** ** Proof steps used more than once *)

(** One [ofstream_write] on a file whose content is known: [spec] states
    the write, [look] finds the content. *)
Ltac write_step_with spec look :=
  erewrite spec by (cbn [w_files set_files]; apply look);
  cbv beta iota.

(** Case analysis along a chain of binds and tests that ended in [Ok]. *)
Ltac invert_ok H :=
  repeat match type of H with
         | rbind ?r _ = Ok _ =>
             let E := fresh "E" in
             destruct r eqn:E; cbn [rbind] in H; try discriminate H
         | (if ?b then _ else _) = Ok _ =>
             let E := fresh "E" in
             destruct b eqn:E; try discriminate H
         | (let '(_, _) := ?p in _) = Ok _ =>
             let E := fresh "E" in
             destruct p eqn:E
         end.

(** The end of a writer: the world reached is [file_written]; [look] finds
    the file just set and [other] any other file. *)
Ltac finish_write_with look other :=
  eexists; split; [reflexivity|];
  unfold file_written; cbn [w_files w_locked w_open w_cerr w_cout set_files];
  split; [rewrite look|];
  [| split; [intros o Ho; now rewrite !other by assumption|];
     repeat split ].

(** * Properties *)

(** ** Machine integers and searching *)

Lemma SIZE_MOD_val : SIZE_MOD = 18446744073709551616.
Proof. reflexivity. Qed.

Lemma wrap_small z : 0 <= z < SIZE_MOD -> wrap z = z.
Proof. intros H. unfold wrap. now apply Z.mod_small. Qed.

Lemma wrap_range z : 0 <= wrap z < SIZE_MOD.
Proof. unfold wrap. apply Z.mod_pos_bound. rewrite SIZE_MOD_val. lia. Qed.

Lemma size_app a b : size (a ++ b) = size a + size b.
Proof. unfold size. rewrite length_app. lia. Qed.

Lemma size_nonneg a : 0 <= size a.
Proof. unfold size. lia. Qed.

Lemma size_cons c a : size (c :: a) = 1 + size a.
Proof. unfold size. simpl List.length. lia. Qed.

(** *** Searching *)

Lemma starts_with_app_l pat a b :
  starts_with pat a = true -> starts_with pat (a ++ b) = true.
Proof.
  revert a. induction pat as [|p pat IH]; intros a H; [reflexivity|].
  destruct a as [|c a]; [discriminate|]. simpl in *.
  apply andb_true_iff in H as [H1 H2]. rewrite H1. simpl. now apply IH.
Qed.

Lemma starts_with_length pat a :
  starts_with pat a = true -> (List.length pat <= List.length a)%nat.
Proof.
  revert a. induction pat as [|p pat IH]; intros a H; simpl; [lia|].
  destruct a as [|c a]; [discriminate|]. simpl in *.
  apply andb_true_iff in H as [_ H2]. apply IH in H2. lia.
Qed.

Lemma starts_with_app_inside pat a b :
  (List.length pat <= List.length a)%nat ->
  starts_with pat (a ++ b) = starts_with pat a.
Proof.
  revert a. induction pat as [|p pat IH]; intros a H; [reflexivity|].
  destruct a as [|c a]; simpl in H; [lia|]. simpl.
  rewrite IH by lia. reflexivity.
Qed.

Lemma index_of_bound pat a i :
  index_of pat a = Some i -> (i + List.length pat <= List.length a)%nat.
Proof.
  revert i. induction a as [|c a IH]; intros i H.
  - simpl in H. destruct (starts_with pat []) eqn:E; [|discriminate].
    apply starts_with_length in E. injection H as <-. simpl in *. lia.
  - simpl in H. destruct (starts_with pat (c :: a)) eqn:E.
    + injection H as <-. apply starts_with_length in E. simpl in *. lia.
    + destruct (index_of pat a) as [j|] eqn:Ej; [|discriminate].
      injection H as <-. specialize (IH j eq_refl). simpl. lia.
Qed.

Lemma index_of_app_l pat a b i :
  index_of pat a = Some i -> index_of pat (a ++ b) = Some i.
Proof.
  revert i. induction a as [|c a IH]; intros i H.
  - simpl in H. destruct (starts_with pat []) eqn:E; [|discriminate].
    injection H as <-. destruct pat; [|discriminate]. now destruct b.
  - pose proof (index_of_bound _ _ _ H) as Hb.
    simpl in H. simpl app. cbn [index_of].
    destruct (starts_with pat (c :: a)) eqn:E.
    + injection H as <-.
      change (c :: a ++ b) with ((c :: a) ++ b).
      now rewrite (starts_with_app_l _ _ _ E).
    + destruct (index_of pat a) as [j|] eqn:Ej; [|discriminate].
      injection H as <-.
      change (c :: a ++ b) with ((c :: a) ++ b).
      rewrite starts_with_app_inside by (simpl in *; lia).
      rewrite E. now rewrite (IH j eq_refl).
Qed.

Lemma index_of_char_none_app c a b :
  index_of [c] a = None ->
  index_of [c] (a ++ b) = option_map (Nat.add (List.length a)) (index_of [c] b).
Proof.
  induction a as [|x a IH]; intros H.
  - simpl. now destruct (index_of [c] b).
  - simpl in H. simpl app. cbn [index_of starts_with] in *.
    destruct (Ascii.eqb c x); simpl in *; [discriminate|].
    destruct (index_of [c] a) eqn:E; [discriminate|].
    rewrite IH by reflexivity. now destruct (index_of [c] b).
Qed.

Lemma index_of_char_head c s : index_of [c] (c :: s) = Some O.
Proof. simpl. now rewrite Ascii.eqb_refl. Qed.

Lemma index_of_char_absent c a :
  forallb (fun x => negb (Ascii.eqb c x)) a = true -> index_of [c] a = None.
Proof.
  induction a as [|x a IH]; intros H; [reflexivity|].
  simpl in H. apply andb_true_iff in H as [H1 H2].
  cbn [index_of starts_with]. destruct (Ascii.eqb c x); [discriminate|].
  simpl. now rewrite IH.
Qed.

(** *** Decimal digits *)

Lemma digit_char_spec d :
  0 <= d < 10 -> is_digit (digit_char d) = true /\ digit_val (digit_char d) = d.
Proof.
  intros H.
  assert (E : d = 0 \/ d = 1 \/ d = 2 \/ d = 3 \/ d = 4 \/ d = 5 \/ d = 6
              \/ d = 7 \/ d = 8 \/ d = 9) by lia.
  repeat (destruct E as [-> | E]; [split; reflexivity|]). subst. split; reflexivity.
Qed.

Lemma to_digits_acc fuel : forall n acc,
  to_digits fuel n acc = to_digits fuel n [] ++ acc.
Proof.
  induction fuel as [|f IH]; intros n acc; [reflexivity|].
  simpl. destruct (n <? 10); [reflexivity|].
  rewrite (IH (n / 10) (_ :: acc)), (IH (n / 10) [_]).
  now rewrite <- app_assoc.
Qed.

Lemma digits_value_snoc s c :
  digits_value (s ++ [c]) = 10 * digits_value s + digit_val c.
Proof. unfold digits_value. now rewrite fold_left_app. Qed.

Lemma to_digits_value fuel : forall n,
  0 <= n < 10 ^ Z.of_nat fuel -> digits_value (to_digits fuel n []) = n.
Proof.
  induction fuel as [|f IH]; intros n H.
  - change (10 ^ Z.of_nat 0) with 1 in H. unfold digits_value. simpl. lia.
  - simpl. destruct (n <? 10) eqn:E.
    + apply Z.ltb_lt in E. unfold digits_value. simpl.
      rewrite Z.mod_small by lia.
      destruct (digit_char_spec n) as [_ ->]; lia.
    + apply Z.ltb_ge in E. rewrite to_digits_acc, digits_value_snoc.
      rewrite IH.
      * destruct (digit_char_spec (n mod 10)) as [_ ->].
        -- apply Z.mod_pos_bound; lia.
        -- pose proof (Z.div_mod n 10). lia.
      * rewrite Nat2Z.inj_succ, Z.pow_succ_r in H by lia.
        split; [apply Z.div_pos; lia|].
        apply Z.div_lt_upper_bound; lia.
Qed.

Lemma to_digits_all_digits fuel : forall n,
  0 <= n -> forallb is_digit (to_digits fuel n []) = true.
Proof.
  induction fuel as [|f IH]; intros n H; [reflexivity|].
  simpl.
  assert (D : is_digit (digit_char (n mod 10)) = true).
  { apply digit_char_spec. apply Z.mod_pos_bound. lia. }
  destruct (n <? 10).
  - simpl. now rewrite D.
  - rewrite to_digits_acc, forallb_app. rewrite IH by (apply Z.div_pos; lia).
    simpl. now rewrite D.
Qed.

Lemma to_digits_nonempty fuel n : to_digits (S fuel) n [] <> [].
Proof.
  simpl. destruct (n <? 10); [discriminate|].
  rewrite to_digits_acc. intros H. apply app_eq_nil in H as [_ H]. discriminate.
Qed.

Lemma to_digits_length fuel : forall n,
  (List.length (to_digits fuel n []) <= fuel)%nat.
Proof.
  induction fuel as [|f IH]; intros n; [simpl; lia|].
  simpl. destruct (n <? 10); [simpl; lia|].
  rewrite to_digits_acc, length_app. specialize (IH (n / 10)). simpl. lia.
Qed.

Lemma to_string_nonneg n : 0 <= n -> to_string n = to_digits 20 n [].
Proof. intros H. unfold to_string. now rewrite (proj2 (Z.ltb_ge n 0)). Qed.

Lemma to_string_value n :
  0 <= n < SIZE_MOD -> digits_value (to_string n) = n.
Proof.
  intros H. rewrite to_string_nonneg by lia. apply to_digits_value.
  rewrite SIZE_MOD_val in H. change (10 ^ Z.of_nat 20) with 100000000000000000000. lia.
Qed.

Lemma to_string_digits n : 0 <= n -> forallb is_digit (to_string n) = true.
Proof. intros H. rewrite to_string_nonneg by lia. now apply to_digits_all_digits. Qed.

Lemma to_string_nonempty n : 0 <= n -> to_string n <> [].
Proof. intros H. rewrite to_string_nonneg by lia. apply to_digits_nonempty. Qed.

Lemma to_string_length n : 0 <= n -> (List.length (to_string n) <= 20)%nat.
Proof. intros H. rewrite to_string_nonneg by lia. apply to_digits_length. Qed.

(** *** Scanning runs of digits *)

Lemma take_while_app p a b :
  forallb p a = true ->
  take_while p (a ++ b) = a ++ take_while p b.
Proof.
  induction a as [|x a IH]; intros H; [reflexivity|].
  simpl in *. apply andb_true_iff in H as [H1 H2]. rewrite H1. now rewrite IH.
Qed.

Lemma drop_while_app p a b :
  forallb p a = true ->
  drop_while p (a ++ b) = drop_while p b.
Proof.
  induction a as [|x a IH]; intros H; [reflexivity|].
  simpl in *. apply andb_true_iff in H as [H1 H2]. rewrite H1. now apply IH.
Qed.

Lemma take_while_all p a : forallb p a = true -> take_while p a = a.
Proof.
  intros H. rewrite <- (app_nil_r a) at 1. rewrite take_while_app by assumption.
  simpl. apply app_nil_r.
Qed.

Lemma forallb_weaken (p q : ascii -> bool) a :
  (forall c, p c = true -> q c = true) ->
  forallb p a = true -> forallb q a = true.
Proof.
  intros Hpq. induction a as [|x a IH]; simpl; [reflexivity|].
  intros H. apply andb_true_iff in H as [H1 H2].
  rewrite (Hpq _ H1). now apply IH.
Qed.

Lemma is_digit_cases c :
  is_digit c = true ->
  Ascii.eqb c NUL = false /\ is_space c = false /\ Ascii.eqb c "-"%char = false
  /\ Ascii.eqb c "+"%char = false /\ Ascii.eqb c LF = false
  /\ Ascii.eqb ")"%char c = false.
Proof.
  destruct c as [[] [] [] [] [] [] [] []]; intros H; try discriminate H;
    repeat split; reflexivity.
Qed.

Lemma digits_value_nonneg s : forallb is_digit s = true -> 0 <= digits_value s.
Proof.
  induction s as [|c s IH] using rev_ind; intros H; [unfold digits_value; simpl; lia|].
  rewrite forallb_app in H. apply andb_true_iff in H as [H1 H2].
  rewrite digits_value_snoc. specialize (IH H1).
  simpl in H2. apply andb_true_iff in H2 as [H2 _].
  assert (0 <= digit_val c).
  { revert H2. destruct c as [[] [] [] [] [] [] [] []]; intros H2;
      try discriminate H2; unfold digit_val; simpl; lia. }
  lia.
Qed.

(** On a non-empty run of digits, [strtol] reads all of it. *)
Lemma strtol_scan_digits s :
  s <> [] -> forallb is_digit s = true ->
  strtol_scan (c_str s) = Some (digits_value s).
Proof.
  intros Hne Hd.
  assert (Hc : c_str s = s).
  { unfold c_str. apply take_while_all.
    eapply forallb_weaken; [|exact Hd]. intros c Hc.
    now destruct (is_digit_cases c Hc) as (-> & _). }
  rewrite Hc. unfold strtol_scan.
  destruct s as [|c s]; [congruence|].
  simpl in Hd. apply andb_true_iff in Hd as [H1 H2].
  destruct (is_digit_cases c H1) as (_ & Hs & Hm & Hp & _).
  cbn [drop_while]. rewrite Hs, Hm, Hp. cbn [take_while]. rewrite H1.
  now rewrite (take_while_all _ _ H2).
Qed.

Lemma stoi_digits s :
  s <> [] -> forallb is_digit s = true -> digits_value s <= INT_MAX ->
  stoi s = Ok (digits_value s).
Proof.
  intros Hne Hd Hv. unfold stoi. rewrite strtol_scan_digits by assumption.
  pose proof (digits_value_nonneg s Hd).
  unfold in_int_range.
  rewrite (proj2 (Z.leb_le INT_MIN (digits_value s))) by (unfold INT_MIN; lia).
  now rewrite (proj2 (Z.leb_le (digits_value s) INT_MAX)) by assumption.
Qed.

Lemma stoi_digits_overflow s :
  s <> [] -> forallb is_digit s = true -> INT_MAX < digits_value s ->
  stoi s = Throw (out_of_range "stoi").
Proof.
  intros Hne Hd Hv. unfold stoi. rewrite strtol_scan_digits by assumption.
  unfold in_int_range.
  rewrite (proj2 (Z.leb_gt (digits_value s) INT_MAX)) by assumption.
  now rewrite andb_false_r.
Qed.

Lemma stoi_to_string n :
  0 <= n <= INT_MAX -> stoi (to_string n) = Ok n.
Proof.
  intros H. rewrite stoi_digits.
  - rewrite to_string_value; [reflexivity|]. rewrite SIZE_MOD_val. unfold INT_MAX in H. lia.
  - apply to_string_nonempty; lia.
  - apply to_string_digits; lia.
  - rewrite to_string_value; [lia|]. rewrite SIZE_MOD_val. unfold INT_MAX in H. lia.
Qed.

Lemma take_while_stop p s :
  match s with [] => true | c :: _ => negb (p c) end = true -> take_while p s = [].
Proof. destruct s as [|c s]; [reflexivity|]. simpl. now destruct (p c). Qed.

Lemma drop_while_stop p s :
  match s with [] => true | c :: _ => negb (p c) end = true -> drop_while p s = s.
Proof. destruct s as [|c s]; [reflexivity|]. simpl. now destruct (p c). Qed.

Lemma regex_search_num_run sep ds rest :
  forallb (fun c => negb (is_digit c)) sep = true ->
  ds <> [] -> forallb is_digit ds = true -> starts_nondigit rest = true ->
  regex_search_num (sep ++ ds ++ rest) = Some (ds, rest).
Proof.
  intros Hsep Hne Hd Hr. unfold regex_search_num.
  rewrite drop_while_app by assumption.
  assert (E : drop_while (fun c => negb (is_digit c)) (ds ++ rest) = ds ++ rest).
  { destruct ds as [|c ds]; [congruence|]. simpl in *.
    apply andb_true_iff in Hd as [H1 _]. now rewrite H1. }
  rewrite E.
  destruct (ds ++ rest) eqn:E2.
  { apply app_eq_nil in E2 as [E2 _]. congruence. }
  rewrite <- E2.
  rewrite take_while_app, drop_while_app by assumption.
  rewrite (take_while_stop is_digit rest), (drop_while_stop is_digit rest) by exact Hr.
  now rewrite app_nil_r.
Qed.

Lemma regex_search_num_none sep :
  forallb (fun c => negb (is_digit c)) sep = true ->
  regex_search_num sep = None.
Proof.
  intros H. unfold regex_search_num.
  rewrite <- (app_nil_r sep). rewrite drop_while_app by assumption. reflexivity.
Qed.

Lemma shape_loop_step fuel sep n rest acc :
  forallb (fun c => negb (is_digit c)) sep = true ->
  0 <= n <= INT_MAX -> starts_nondigit rest = true ->
  shape_loop (S fuel) (sep ++ to_string n ++ rest) acc
  = shape_loop fuel rest (acc ++ [n]).
Proof.
  intros Hsep Hn Hr. cbn [shape_loop].
  rewrite regex_search_num_run; try assumption;
    [|apply to_string_nonempty; lia|apply to_string_digits; lia].
  rewrite stoi_to_string by assumption. cbn [rbind].
  rewrite wrap_small; [reflexivity|]. rewrite SIZE_MOD_val. unfold INT_MAX in Hn. lia.
Qed.

Lemma shape_loop_end fuel sep acc :
  forallb (fun c => negb (is_digit c)) sep = true ->
  shape_loop (S fuel) sep acc = Ok acc.
Proof. intros H. cbn [shape_loop]. now rewrite regex_search_num_none. Qed.

Lemma shape_loop_dims d :
  dims_in_int_range d ->
  shape_loop (S (List.length (dims_text d))) (dims_text d) [] = Ok (dims_list d).
Proof.
  unfold dims_in_int_range. destruct d as [n | r c]; cbn [dims_list dims_text]; intros H.
  - apply Forall_cons_iff in H as [Hn _].
    rewrite length_app, Nat.add_comm. cbn [List.length str list_ascii_of_string Nat.add].
    rewrite (shape_loop_step _ [] n (str ",")) by (assumption || reflexivity).
    now rewrite shape_loop_end.
  - apply Forall_cons_iff in H as [Hr H]. apply Forall_cons_iff in H as [Hc _].
    rewrite !length_app, Nat.add_comm. cbn [List.length str list_ascii_of_string Nat.add].
    rewrite (shape_loop_step _ [] r (str ", " ++ to_string c)) by (assumption || reflexivity).
    rewrite <- (app_nil_r (to_string c)) at 2.
    rewrite (shape_loop_step _ (str ", ") c []) by (assumption || reflexivity).
    destruct (List.length (to_string c)) eqn:E.
    + exfalso. apply (to_string_nonempty c); [lia|]. now apply length_zero_iff_nil.
    + reflexivity.
Qed.

(** *** [substr], [operator[]] and [find] on a text with a known prefix *)

Lemma substr_inside P R (pos n : nat) :
  (pos + n <= List.length P)%nat ->
  substr (P ++ R) (Z.of_nat pos) (Z.of_nat n) = Ok (firstn n (skipn pos P)).
Proof.
  intros H. unfold substr. rewrite size_app. unfold size.
  rewrite (proj2 (Z.ltb_ge _ _)) by lia.
  rewrite Z.min_l by lia. rewrite !Nat2Z.id.
  rewrite skipn_app, firstn_app, length_skipn.
  replace (n - (List.length P - pos))%nat with O by lia.
  simpl. now rewrite app_nil_r.
Qed.

Lemma substr_middle P D R :
  substr (P ++ D ++ R) (Z.of_nat (List.length P)) (Z.of_nat (List.length D)) = Ok D.
Proof.
  unfold substr. rewrite !size_app. unfold size.
  rewrite (proj2 (Z.ltb_ge _ _)) by lia.
  rewrite Z.min_l by lia. rewrite !Nat2Z.id.
  rewrite skipn_app, skipn_all, Nat.sub_diag. simpl.
  rewrite firstn_app, firstn_all, Nat.sub_diag. simpl. now rewrite app_nil_r.
Qed.

Lemma substr_tail P R (pos : nat) :
  (pos <= List.length P)%nat -> size (P ++ R) < npos ->
  substr (P ++ R) (Z.of_nat pos) npos = Ok (skipn pos P ++ R).
Proof.
  intros H Hs. unfold substr.
  assert (Hp : Z.of_nat pos <= size (P ++ R)) by (rewrite size_app; unfold size; lia).
  rewrite (proj2 (Z.ltb_ge _ _)) by lia.
  rewrite Z.min_r by lia. rewrite Nat2Z.id.
  rewrite firstn_all2.
  - rewrite skipn_app. replace (pos - List.length P)%nat with O by lia. reflexivity.
  - rewrite length_skipn. unfold size in *. lia.
Qed.

Lemma at_index_inside P R (pos : nat) :
  (pos < List.length P)%nat ->
  at_index (P ++ R) (Z.of_nat pos) = Ok (nth pos P NUL).
Proof.
  intros H. unfold at_index. rewrite size_app. unfold size.
  rewrite (proj2 (Z.ltb_ge _ _)) by lia.
  rewrite Nat2Z.id. now rewrite app_nth1.
Qed.

Lemma at_index_last X c :
  at_index (X ++ [c]) (Z.of_nat (List.length X)) = Ok c.
Proof.
  unfold at_index. rewrite size_app. unfold size.
  rewrite (proj2 (Z.ltb_ge _ _)) by lia.
  rewrite Nat2Z.id. now rewrite nth_middle.
Qed.

Lemma find_inside P R pat k :
  index_of pat P = Some k -> find (P ++ R) pat = Z.of_nat k.
Proof. intros H. unfold find. now rewrite (index_of_app_l _ _ R _ H). Qed.

Lemma npos_val : npos = 18446744073709551615.
Proof. reflexivity. Qed.

(** *** The fields of a header with a known prefix

    [P] runs to the opening parenthesis, [D] is the text of the tuple and
    [R] what follows the closing parenthesis. *)
Lemma parse_fields_prefix P D R ws fo :
  prefix_ok P ws fo = true ->
  index_of [")"%char] D = None ->
  (List.length (P ++ D ++ ")"%char :: R ++ [LF]) <= 256)%nat ->
  parse_header_fields (P ++ D ++ ")"%char :: R ++ [LF])
  = rbind (shape_loop (S (List.length D)) D [])
      (fun shape => Ok (mk_header_info ws shape fo)).
Proof.
  intros Hok HD Hlen. unfold prefix_ok in Hok.
  destruct (index_of (str "fortran_order") P) as [k1|] eqn:E1; [|discriminate].
  destruct (index_of ["("%char] P) as [k2|] eqn:E2; [|discriminate].
  destruct (index_of [")"%char] P) eqn:E3; [discriminate|].
  destruct (index_of (str "descr") P) as [k3|] eqn:E4; [|discriminate].
  destruct (index_of ["'"%char] (skipn (k3 + 11) P)) as [k4|] eqn:E5;
    [|rewrite andb_false_r in Hok; discriminate].
  destruct (atoi (firstn k4 (skipn (k3 + 11) P))) as [v| | |] eqn:E6;
    try (rewrite andb_false_r in Hok; discriminate).
  repeat match goal with
         | H : (_ && _)%bool = true |- _ => apply andb_true_iff in H as [? ?]
         end.
  repeat match goal with
         | H : (_ <=? _)%nat = true |- _ => apply Nat.leb_le in H
         | H : (_ =? _)%nat = true |- _ => apply Nat.eqb_eq in H
         | H : (_ <=? _) = true |- _ => apply Z.leb_le in H
         | H : (_ =? _) = true |- _ => apply Z.eqb_eq in H
         | H : Bool.eqb _ _ = true |- _ => apply Bool.eqb_prop in H
         end.
  subst ws.
  set (Rest := D ++ ")"%char :: R ++ [LF]) in *.
  assert (HlenP : (List.length P + List.length Rest <= 256)%nat)
    by (rewrite length_app in Hlen; exact Hlen).
  pose proof (index_of_bound _ _ _ E5) as B5. rewrite length_skipn in B5.
  simpl List.length in B5.
  unfold parse_header_fields.
  (* the last character *)
  assert (Hlast : P ++ Rest = (P ++ D ++ ")"%char :: R) ++ [LF]).
  { unfold Rest. now rewrite <- !app_assoc. }
  assert (Hsz : size (P ++ Rest) - 1 = Z.of_nat (List.length (P ++ D ++ ")"%char :: R))).
  { rewrite Hlast, size_app. unfold size. simpl. lia. }
  rewrite Hsz. rewrite wrap_small by (rewrite SIZE_MOD_val; rewrite Hlast, length_app in Hlen; lia).
  rewrite Hlast at 1. rewrite at_index_last. cbn [rbind].
  change (negb (Ascii.eqb LF LF)) with false. cbv iota.
  (* fortran_order *)
  rewrite (find_inside _ _ _ _ E1).
  rewrite (proj2 (Z.eqb_neq _ _)) by (rewrite npos_val; lia).
  rewrite wrap_small by (rewrite SIZE_MOD_val; lia).
  change (Z.of_nat k1 + 16) with (Z.of_nat k1 + Z.of_nat 16). rewrite <- Nat2Z.inj_add.
  change 4 with (Z.of_nat 4).
  rewrite substr_inside by lia. cbn [rbind].
  (* shape *)
  unfold find_char. rewrite (find_inside _ _ _ _ E2).
  assert (Hclose : find (P ++ Rest) [")"%char]
                   = Z.of_nat (List.length P + List.length D)).
  { unfold find, Rest. rewrite index_of_char_none_app by assumption.
    rewrite index_of_char_none_app by assumption.
    rewrite index_of_char_head. simpl. f_equal. lia. }
  rewrite Hclose.
  rewrite (proj2 (Z.eqb_neq (Z.of_nat k2) npos)) by (rewrite npos_val; lia).
  rewrite (proj2 (Z.eqb_neq (Z.of_nat (List.length P + List.length D)) npos))
    by (rewrite npos_val; unfold Rest in HlenP; rewrite length_app in HlenP; lia).
  cbn [orb].
  replace (wrap (Z.of_nat k2 + 1)) with (Z.of_nat (List.length P))
    by (rewrite wrap_small; [lia | rewrite SIZE_MOD_val; lia]).
  replace (wrap (Z.of_nat (List.length P + List.length D) - Z.of_nat k2 - 1))
    with (Z.of_nat (List.length D))
    by (rewrite wrap_small; [lia | rewrite SIZE_MOD_val; unfold Rest in HlenP;
                                    rewrite length_app in HlenP; lia]).
  unfold Rest at 1. rewrite substr_middle. cbn [rbind].
  destruct (shape_loop (S (List.length D)) D []) as [shape| | |]; cbn [rbind];
    try reflexivity.
  (* descr *)
  rewrite (find_inside _ _ _ _ E4).
  rewrite (proj2 (Z.eqb_neq _ _)) by (rewrite npos_val; lia).
  rewrite wrap_small by (rewrite SIZE_MOD_val; lia).
  change (Z.of_nat k3 + 9) with (Z.of_nat k3 + Z.of_nat 9). rewrite <- Nat2Z.inj_add.
  rewrite at_index_inside by lia. cbn [rbind].
  match goal with H : (_ || _)%bool = true |- _ => rewrite H end.
  cbn [negb].
  rewrite Nat2Z.inj_add.
  rewrite wrap_small by (rewrite SIZE_MOD_val; lia).
  replace (Z.of_nat k3 + Z.of_nat 9 + 2) with (Z.of_nat (k3 + 11)) by lia.
  rewrite substr_tail;
    [| lia | rewrite npos_val; unfold size; rewrite length_app; lia].
  cbn [rbind].
  rewrite (find_inside _ _ _ _ E5).
  change 0 with (Z.of_nat 0).
  rewrite substr_inside by (rewrite length_skipn; simpl; lia).
  cbn [rbind skipn]. rewrite E6. cbn [rbind].
  assert (Hv : v <= INT_MAX).
  { unfold atoi in E6. destruct (strtol_scan _); [|inversion E6; unfold INT_MAX; lia].
    destruct (in_int_range z) eqn:Er; [|discriminate]. inversion E6; subst.
    unfold in_int_range in Er. apply andb_true_iff in Er as [_ Er].
    now apply Z.leb_le in Er. }
  rewrite wrap_small by (rewrite SIZE_MOD_val; unfold INT_MAX in Hv; lia).
  repeat f_equal.
  match goal with H : list_eqb _ _ = fo |- _ => exact H end.
Qed.

(** *** Reading the header line *)

Lemma no_newline_app a b :
  no_newline (a ++ b) = no_newline a && no_newline b.
Proof. unfold no_newline. apply forallb_app. Qed.

Lemma fgets_line_newline n a rest :
  no_newline a = true -> (List.length a < n)%nat ->
  fgets_line n (a ++ LF :: rest) = a ++ [LF].
Proof.
  revert n. induction a as [|c a IH]; intros n Ha Hn.
  - destruct n; [simpl in Hn; lia|]. reflexivity.
  - destruct n; [simpl in Hn; lia|].
    simpl in Ha. apply andb_true_iff in Ha as [Hc Ha].
    apply negb_true_iff in Hc. simpl. rewrite Hc.
    rewrite IH; [reflexivity|assumption|simpl in Hn; lia].
Qed.

Lemma fgets_line_full n a :
  no_newline (firstn n a) = true -> (n <= List.length a)%nat ->
  fgets_line n a = firstn n a.
Proof.
  revert a. induction n as [|n IH]; intros a Ha Hn; [now destruct a|].
  destruct a as [|c a]; [simpl in Hn; lia|].
  simpl in Ha. apply andb_true_iff in Ha as [Hc Ha].
  apply negb_true_iff in Hc. simpl. rewrite Hc.
  rewrite IH; [reflexivity|assumption|simpl in Hn; lia].
Qed.

Lemma scan_to_newline_line a tail :
  no_newline a = true ->
  scan_to_newline (map Some a ++ Some LF :: tail) = Ok a.
Proof.
  induction a as [|c a IH]; intros Ha; [reflexivity|].
  simpl in Ha. apply andb_true_iff in Ha as [Hc Ha].
  apply negb_true_iff in Hc. simpl. rewrite Hc, IH by assumption. reflexivity.
Qed.

Lemma scan_to_newline_overrun a :
  no_newline a = true ->
  scan_to_newline (map Some a) = Undefined OutOfBounds.
Proof.
  induction a as [|c a IH]; intros Ha; [reflexivity|].
  simpl in Ha. apply andb_true_iff in Ha as [Hc Ha].
  apply negb_true_iff in Hc. simpl. rewrite Hc, IH by assumption. reflexivity.
Qed.

Lemma find_header_substring_line a tail :
  no_newline a = true ->
  find_header_substring (map Some a ++ Some LF :: tail) = Ok (line_header a).
Proof.
  unfold find_header_substring, line_header.
  induction a as [|c a IH]; intros Ha; [reflexivity|].
  pose proof Ha as Ha'.
  simpl in Ha. apply andb_true_iff in Ha as [Hc Ha].
  apply negb_true_iff in Hc.
  cbn [map app find_start drop_while]. rewrite Hc.
  destruct (Ascii.eqb c NUL) eqn:E; cbn [negb].
  - now apply IH.
  - cbn [rbind].
    change (Some c :: map Some a ++ Some LF :: tail)
      with (map Some (c :: a) ++ Some LF :: tail).
    now rewrite scan_to_newline_line.
Qed.

Lemma find_header_substring_overrun a :
  no_newline a = true ->
  find_header_substring (map Some a) = Undefined OutOfBounds.
Proof.
  unfold find_header_substring.
  induction a as [|c a IH]; intros Ha; [reflexivity|].
  pose proof Ha as Ha'.
  simpl in Ha. apply andb_true_iff in Ha as [Hc Ha].
  apply negb_true_iff in Hc.
  cbn [map find_start]. rewrite Hc.
  destruct (Ascii.eqb c NUL) eqn:E; cbn [negb].
  - now apply IH.
  - cbn [rbind]. change (Some c :: map Some a) with (map Some (c :: a)).
    now rewrite scan_to_newline_overrun.
Qed.

Lemma store_shape data buffer :
  store data buffer = map Some data ++ skipn (List.length data) buffer.
Proof. reflexivity. Qed.

(** After the first 11 bytes, a line that ends within 255 bytes decides the
    outcome. *)
Lemma parse_npy_header_line pre a rest :
  List.length pre = 11%nat -> no_newline a = true -> (List.length a < 255)%nat ->
  parse_npy_header (pre ++ a ++ LF :: rest)
  = rbind (parse_header_fields (line_header a)) (fun info => Ok (info, rest)).
Proof.
  intros Hpre Ha Hlen. unfold parse_npy_header.
  assert (E1 : firstn 11 (pre ++ a ++ LF :: rest) = pre).
  { rewrite <- Hpre. rewrite firstn_app, Nat.sub_diag, firstn_all. simpl.
    apply app_nil_r. }
  assert (E2 : skipn 11 (pre ++ a ++ LF :: rest) = a ++ LF :: rest).
  { rewrite <- Hpre. rewrite skipn_app, Nat.sub_diag, skipn_all. reflexivity. }
  rewrite E1, E2, Hpre. cbn [Nat.eqb negb].
  unfold fgets. change (BUFFER_SIZE - 1)%nat with 255%nat.
  rewrite fgets_line_newline by assumption.
  destruct (a ++ [LF]) eqn:E3; [destruct a; discriminate|]. rewrite <- E3.
  rewrite store_shape, map_app, <- app_assoc.
  rewrite map_app, <- app_assoc. cbn [map app].
  rewrite find_header_substring_line by assumption. cbn [rbind].
  replace (skipn (List.length (a ++ [LF])) (a ++ LF :: rest)) with rest.
  - reflexivity.
  - change (a ++ LF :: rest) with (a ++ [LF] ++ rest). rewrite app_assoc.
    rewrite skipn_app, Nat.sub_diag, skipn_all. reflexivity.
Qed.

Lemma line_header_nuls k h :
  match h with [] => False | c :: _ => Ascii.eqb c NUL = false end ->
  line_header (repeat NUL k ++ h) = h ++ [LF].
Proof.
  intros Hh. unfold line_header.
  rewrite drop_while_app.
  - destruct h as [|c h]; [contradiction|]. cbn [drop_while]. now rewrite Hh.
  - induction k; [reflexivity|]. simpl. exact IHk.
Qed.

(** *** Files in the canonical layout *)

Lemma dict_text_split ds fo d pad :
  dict_text ds fo d pad
  = "{"%char :: dict_open ds fo ++ dims_text d
      ++ ")"%char :: (str ", }" ++ repeat SPACE pad) ++ [LF].
Proof.
  unfold dict_text, dict_body, dict_open. cbn [str list_ascii_of_string app].
  repeat (rewrite <- ?app_assoc; cbn [app]). reflexivity.
Qed.

Lemma no_newline_digits s : forallb is_digit s = true -> no_newline s = true.
Proof.
  intros H. unfold no_newline. eapply forallb_weaken; [|exact H].
  intros c Hc. destruct (is_digit_cases c Hc) as (_ & _ & _ & _ & -> & _). reflexivity.
Qed.

Lemma no_newline_spaces n : no_newline (repeat SPACE n) = true.
Proof. induction n; [reflexivity|]. simpl. exact IHn. Qed.

Lemma no_paren_digits s :
  forallb is_digit s = true -> index_of [")"%char] s = None.
Proof.
  intros H. apply index_of_char_absent. eapply forallb_weaken; [|exact H].
  intros c Hc. destruct (is_digit_cases c Hc) as (_ & _ & _ & _ & _ & ->). reflexivity.
Qed.

Lemma dims_in_int_range_nonneg d : dims_in_int_range d -> dims_nonneg d.
Proof. apply Forall_impl. intros; lia. Qed.

Lemma dims_text_no_newline d :
  dims_nonneg d -> no_newline (dims_text d) = true.
Proof.
  unfold dims_nonneg. intros H. destruct d as [n|r c]; cbn [dims_list dims_text] in *.
  - apply Forall_cons_iff in H as [Hn _].
    rewrite no_newline_app, no_newline_digits by (now apply to_string_digits). reflexivity.
  - apply Forall_cons_iff in H as [Hr H]. apply Forall_cons_iff in H as [Hc _].
    rewrite !no_newline_app.
    rewrite (no_newline_digits (to_string r)), (no_newline_digits (to_string c))
      by (now apply to_string_digits).
    reflexivity.
Qed.

Lemma dims_text_no_paren d :
  dims_nonneg d -> index_of [")"%char] (dims_text d) = None.
Proof.
  unfold dims_nonneg. intros H. destruct d as [n|r c]; cbn [dims_list dims_text] in *.
  - apply Forall_cons_iff in H as [Hn _].
    rewrite index_of_char_none_app by (apply no_paren_digits; now apply to_string_digits).
    reflexivity.
  - apply Forall_cons_iff in H as [Hr H]. apply Forall_cons_iff in H as [Hc _].
    rewrite index_of_char_none_app by (apply no_paren_digits; now apply to_string_digits).
    change (str ", " ++ to_string c) with (","%char :: " "%char :: to_string c).
    cbn [index_of starts_with Ascii.eqb Bool.eqb andb].
    rewrite no_paren_digits by (now apply to_string_digits). reflexivity.
Qed.

Lemma le32_bytes n :
  0 <= n < 2 ^ 24 ->
  exists b0 b1 b2, le32 n = [b0; b1; b2; NUL].
Proof.
  intros H. unfold le32. cbn [map]. do 3 eexists. repeat f_equal.
  change (8 * 3) with 24. rewrite Z.div_small by lia. reflexivity.
Qed.

Lemma le16_bytes n : exists b0 b1, le16 n = [b0; b1].
Proof. unfold le16. cbn [map]. now do 2 eexists. Qed.

(** The part of a canonical file the parser skips, and the line it reads. *)
Lemma npy_file_split v minor ds fo d pad payload :
  size (dict_text ds fo d pad) <= 254 ->
  exists pre k,
    List.length pre = 11%nat /\ (k <= 1)%nat /\
    npy_file v minor (dict_text ds fo d pad) payload
    = pre ++ (repeat NUL k ++ header_prefix v ds fo ++ dims_text d
                ++ ")"%char :: str ", }" ++ repeat SPACE pad) ++ LF :: payload.
Proof.
  intros Hsz. unfold npy_file.
  destruct v; cbn [length_field major_of header_prefix].
  - destruct (le16_bytes (size (dict_text ds fo d pad))) as (b0 & b1 & ->).
    exists (magic_string ++ ["001"%char; minor] ++ [b0; b1] ++ ["{"%char]), O.
    repeat split; [lia|].
    rewrite dict_text_split. cbn [repeat app magic_string str list_ascii_of_string].
    repeat (rewrite <- ?app_assoc; cbn [app]). reflexivity.
  - destruct (le32_bytes (size (dict_text ds fo d pad))) as (b0 & b1 & b2 & ->).
    { pose proof (size_nonneg (dict_text ds fo d pad)). lia. }
    exists (magic_string ++ ["002"%char; minor] ++ [b0; b1; b2]), 1%nat.
    repeat split; [lia|].
    rewrite dict_text_split. cbn [repeat app magic_string str list_ascii_of_string].
    repeat (rewrite <- ?app_assoc; cbn [app]). reflexivity.
Qed.

Lemma header_prefix_head v ds fo :
  match header_prefix v ds fo ++ [] with
  | [] => False
  | c :: _ => Ascii.eqb c NUL = false
  end.
Proof. destruct v; reflexivity. Qed.

Lemma header_prefix_no_newline v ds fo :
  no_newline ds = true -> no_newline (header_prefix v ds fo) = true.
Proof.
  intros H.
  assert (E : no_newline (dict_open ds fo) = true).
  { unfold dict_open. rewrite !no_newline_app, H. now destruct fo. }
  destruct v; cbn [header_prefix]; [exact E|].
  change (no_newline ("{"%char :: dict_open ds fo))
    with (true && no_newline (dict_open ds fo))%bool. now rewrite E.
Qed.

(** The reader on a file in the canonical layout, version 1 or 2: all that
    is left to decide is the scan of the tuple text. *)
Lemma parse_npy_header_layout v minor ds fo d pad payload ws :
  prefix_ok (header_prefix v ds fo) ws fo = true ->
  no_newline ds = true ->
  dims_nonneg d ->
  size (dict_text ds fo d pad) <= 254 ->
  parse_npy_header (npy_file v minor (dict_text ds fo d pad) payload)
  = rbind (shape_loop (S (List.length (dims_text d))) (dims_text d) [])
      (fun shape => Ok (mk_header_info ws shape fo, payload)).
Proof.
  intros Hok Hds Hd Hsz.
  destruct (npy_file_split v minor ds fo d pad payload Hsz) as (pre & k & Hpre & Hk & ->).
  assert (Hlen : (List.length (header_prefix v ds fo ++ dims_text d
                     ++ ")"%char :: (str ", }" ++ repeat SPACE pad) ++ [LF]) <= 254)%nat).
  { rewrite dict_text_split in Hsz. unfold size in Hsz.
    destruct v; cbn [header_prefix]; cbn [List.length app] in *; lia. }
  rewrite parse_npy_header_line; try assumption.
  - rewrite line_header_nuls.
    + replace ((header_prefix v ds fo ++ dims_text d
                  ++ ")"%char :: str ", }" ++ repeat SPACE pad) ++ [LF])
        with (header_prefix v ds fo ++ dims_text d
                ++ ")"%char :: (str ", }" ++ repeat SPACE pad) ++ [LF])
        by (repeat (rewrite <- ?app_assoc; cbn [app]); reflexivity).
      rewrite (parse_fields_prefix _ _ _ ws fo); try assumption.
      * now destruct (shape_loop _ (dims_text d) []).
      * now apply dims_text_no_paren.
      * lia.
    + pose proof (header_prefix_head v ds fo) as Hh.
      destruct v; cbn [header_prefix] in *; cbn [app] in *; exact Hh.
  - rewrite !no_newline_app.
    rewrite header_prefix_no_newline, dims_text_no_newline by assumption.
    assert (E : no_newline (repeat NUL k) = true).
    { destruct k as [|[|k]]; [reflexivity|reflexivity|lia]. }
    rewrite E. cbn [andb].
    change (no_newline (")"%char :: str ", }" ++ repeat SPACE pad))
      with (no_newline (repeat SPACE pad)).
    apply no_newline_spaces.
  - rewrite !length_app in *. rewrite repeat_length. cbn [List.length] in *.
    rewrite !length_app in *. cbn [List.length] in *. lia.
Qed.

Lemma parse_npy_header_canonical v minor ds fo d pad payload ws :
  prefix_ok (header_prefix v ds fo) ws fo = true ->
  no_newline ds = true ->
  dims_in_int_range d ->
  size (dict_text ds fo d pad) <= 254 ->
  parse_npy_header (npy_file v minor (dict_text ds fo d pad) payload)
  = Ok (mk_header_info ws (dims_list d) fo, payload).
Proof.
  intros Hok Hds Hd Hsz.
  rewrite (parse_npy_header_layout _ _ _ _ _ _ _ ws); try assumption.
  - now rewrite shape_loop_dims.
  - now apply dims_in_int_range_nonneg.
Qed.

(** A length beyond [INT_MAX] makes [std::stoi] throw. *)
Lemma shape_loop_rank1_overflow n :
  INT_MAX < n < SIZE_MOD ->
  shape_loop (S (List.length (dims_text (Rank1 n)))) (dims_text (Rank1 n)) []
  = Throw (out_of_range "stoi").
Proof.
  intros Hn. assert (H0 : 0 <= n) by (unfold INT_MAX in Hn; lia).
  unfold dims_text. cbn [shape_loop].
  change (to_string n ++ str ",") with ([] ++ to_string n ++ str ",").
  rewrite (regex_search_num_run [] (to_string n) (str ","));
    [| reflexivity | now apply to_string_nonempty | now apply to_string_digits
     | reflexivity].
  rewrite stoi_digits_overflow;
    [reflexivity | now apply to_string_nonempty | now apply to_string_digits |].
  rewrite to_string_value by lia. lia.
Qed.

Lemma parse_npy_header_rank1_overflow v minor T ds n pad payload :
  descr_of T = Some ds ->
  INT_MAX < n < SIZE_MOD ->
  size (dict_text ds false (Rank1 n) pad) <= 254 ->
  parse_npy_header (npy_file v minor (dict_text ds false (Rank1 n) pad) payload)
  = Throw (out_of_range "stoi").
Proof.
  intros HT Hn Hsz.
  rewrite (parse_npy_header_layout _ _ _ _ _ _ _ (sizeof T)).
  - now rewrite shape_loop_rank1_overflow.
  - destruct T; try discriminate HT; injection HT as <-; destruct v;
      vm_compute; reflexivity.
  - destruct T; try discriminate HT; injection HT as <-; reflexivity.
  - repeat constructor. unfold INT_MAX in Hn. lia.
  - assumption.
Qed.

Lemma index_of_cons_skip pat c s :
  starts_with pat (c :: s) = false ->
  index_of pat (c :: s) = option_map S (index_of pat s).
Proof. intros H. cbn [index_of]. now rewrite H. Qed.

(** No occurrence starts inside a text that lacks the first character of the
    pattern. *)
Lemma index_of_skip_free p pat A B :
  forallb (fun c => negb (Ascii.eqb p c)) A = true ->
  index_of (p :: pat) (A ++ B)
  = option_map (Nat.add (List.length A)) (index_of (p :: pat) B).
Proof.
  induction A as [|c A IH]; intros H.
  - simpl. now destruct (index_of (p :: pat) B).
  - simpl in H. apply andb_true_iff in H as [Hc HA]. apply negb_true_iff in Hc.
    cbn [app]. rewrite index_of_cons_skip by (cbn [starts_with]; now rewrite Hc).
    rewrite IH by assumption. now destruct (index_of (p :: pat) B).
Qed.

Lemma digits_free p W :
  is_digit p = false -> forallb is_digit W = true ->
  forallb (fun c => negb (Ascii.eqb p c)) W = true.
Proof.
  intros Hp. apply forallb_weaken. intros c Hc.
  destruct (Ascii.eqb p c) eqn:E; [|reflexivity].
  apply Ascii.eqb_eq in E. subst. congruence.
Qed.

Lemma letter_cases t :
  is_letter t = true ->
  Ascii.eqb "("%char t = false /\ Ascii.eqb ")"%char t = false
  /\ Ascii.eqb "'"%char t = false /\ Ascii.eqb t LF = false.
Proof.
  destruct t as [[] [] [] [] [] [] [] []]; intros H; try discriminate H;
    repeat split; reflexivity.
Qed.

(** The letter before the width starts no occurrence of the keyword: the
    width follows it. *)
Lemma keyword_not_at_letter t W rest :
  W <> [] -> forallb is_digit W = true ->
  starts_with (str "fortran_order") (t :: W ++ rest) = false.
Proof.
  intros Hne Hd. destruct W as [|d W]; [congruence|].
  simpl in Hd. apply andb_true_iff in Hd as [Hd _].
  change (str "fortran_order") with ("f"%char :: "o"%char :: str "rtran_order").
  cbn [starts_with app].
  assert (E : Ascii.eqb "o"%char d = false).
  { destruct (Ascii.eqb "o"%char d) eqn:E; [|reflexivity].
    apply Ascii.eqb_eq in E. subst. discriminate Hd. }
  rewrite E. cbn [andb]. apply andb_false_r.
Qed.

Lemma atoi_to_string w :
  0 <= w <= INT_MAX -> atoi (to_string w) = Ok w.
Proof.
  intros Hw. unfold atoi.
  rewrite strtol_scan_digits;
    [| apply to_string_nonempty; lia | apply to_string_digits; lia].
  rewrite to_string_value by (rewrite SIZE_MOD_val; unfold INT_MAX in Hw; lia).
  unfold in_int_range.
  rewrite (proj2 (Z.leb_le INT_MIN w)) by (unfold INT_MIN; lia).
  now rewrite (proj2 (Z.leb_le w INT_MAX)) by lia.
Qed.

Section AnyDescr.
Variables (t : ascii) (w : Z).
Hypothesis Ht : is_letter t = true.
Hypothesis Hw : 0 <= w <= INT_MAX.

Let W := to_string w.

Lemma width_digits : forallb is_digit W = true.
Proof. apply to_string_digits. lia. Qed.

Lemma width_nonempty : W <> [].
Proof. apply to_string_nonempty. lia. Qed.

(** [C] is the text before the letter, [T] the text after the width; the
    conditions on them are decided by evaluation for each layout. *)
Variables (C T : list ascii) (fo : bool) (k3 : nat).
Hypothesis HC_f : forallb (fun c => negb (Ascii.eqb "f"%char c)) C = true.
Hypothesis HC_open : forallb (fun c => negb (Ascii.eqb "("%char c)) C = true.
Hypothesis HC_close : forallb (fun c => negb (Ascii.eqb ")"%char c)) C = true.
Hypothesis HC_descr : index_of (str "descr") C = Some k3.
Hypothesis HC_len : List.length C = (k3 + 10)%nat.
Hypothesis HC_endian :
  (let e := nth (k3 + 9) C NUL in
   Ascii.eqb e "<"%char || Ascii.eqb e "|"%char)%bool = true.
Hypothesis HT_f : index_of (str "fortran_order") T = Some 4%nat.
Hypothesis HT_order : list_eqb (firstn 4 (skipn 20 T)) (str "True") = fo.
Hypothesis HT_len : (24 <= List.length T)%nat.
Hypothesis HT_open : index_of ["("%char] T = Some (List.length T - 1)%nat.
Hypothesis HT_close : index_of [")"%char] T = None.
Hypothesis HT_quote : index_of ["'"%char] T = Some O.

Lemma any_descr_prefix_ok : prefix_ok (C ++ t :: W ++ T) w fo = true.
Proof.
  destruct (letter_cases t Ht) as (Lo & Lc & Lq & _).
  pose proof width_digits as HWd. pose proof width_nonempty as HWn.
  assert (E1 : index_of (str "fortran_order") (C ++ t :: W ++ T)
               = Some (List.length C + S (List.length W + 4))%nat).
  { change (str "fortran_order") with ("f"%char :: str "ortran_order").
    rewrite index_of_skip_free by assumption.
    rewrite index_of_cons_skip by (now apply keyword_not_at_letter).
    rewrite index_of_skip_free by (now apply digits_free).
    change ("f"%char :: str "ortran_order") with (str "fortran_order").
    rewrite HT_f. reflexivity. }
  assert (E2 : index_of ["("%char] (C ++ t :: W ++ T)
               = Some (List.length C + S (List.length W + (List.length T - 1)))%nat).
  { rewrite index_of_skip_free by assumption.
    rewrite index_of_cons_skip by (cbn [starts_with]; now rewrite Lo).
    rewrite index_of_skip_free by (now apply digits_free).
    rewrite HT_open. reflexivity. }
  assert (E3 : index_of [")"%char] (C ++ t :: W ++ T) = None).
  { rewrite index_of_skip_free by assumption.
    rewrite index_of_cons_skip by (cbn [starts_with]; now rewrite Lc).
    rewrite index_of_skip_free by (now apply digits_free).
    rewrite HT_close. reflexivity. }
  assert (E4 : index_of (str "descr") (C ++ t :: W ++ T) = Some k3)
    by (now apply index_of_app_l).
  assert (E5 : skipn (k3 + 11) (C ++ t :: W ++ T) = W ++ T).
  { replace (k3 + 11)%nat with (List.length (C ++ [t])) by (rewrite length_app, HC_len; simpl; lia).
    change (C ++ t :: W ++ T) with (C ++ [t] ++ W ++ T). rewrite app_assoc.
    rewrite skipn_app, Nat.sub_diag, skipn_all. reflexivity. }
  assert (E6 : index_of ["'"%char] (W ++ T) = Some (List.length W)).
  { rewrite index_of_skip_free by (now apply digits_free).
    rewrite HT_quote. cbn [option_map]. f_equal. lia. }
  assert (E7 : firstn (List.length W) (W ++ T) = W).
  { rewrite firstn_app, Nat.sub_diag, firstn_all. simpl. apply app_nil_r. }
  assert (E8 : firstn 4 (skipn (List.length C + S (List.length W + 4) + 16)
                           (C ++ t :: W ++ T))
               = firstn 4 (skipn 20 T)).
  { replace (List.length C + S (List.length W + 4) + 16)%nat
      with (List.length (C ++ [t] ++ W) + 20)%nat
      by (rewrite !length_app; simpl; lia).
    change (C ++ t :: W ++ T) with (C ++ [t] ++ W ++ T).
    replace (C ++ [t] ++ W ++ T) with ((C ++ [t] ++ W) ++ T)
      by (now rewrite <- !app_assoc).
    rewrite skipn_app, skipn_all2 by lia.
    replace (List.length (C ++ [t] ++ W) + 20 - List.length (C ++ [t] ++ W))%nat
      with 20%nat by lia.
    reflexivity. }
  assert (E9 : nth (k3 + 9) (C ++ t :: W ++ T) NUL = nth (k3 + 9) C NUL)
    by (apply app_nth1; lia).
  assert (Hlen : List.length (C ++ t :: W ++ T)
                 = (List.length C + S (List.length W + List.length T))%nat)
    by (rewrite length_app; cbn [List.length]; rewrite length_app; lia).
  unfold prefix_ok. rewrite E1, E2, E3, E4, E5, E6, E7, E8, E9, Hlen.
  replace (atoi W) with (Ok w) by (symmetry; now apply atoi_to_string).
  rewrite HT_order, Bool.eqb_reflx.
  cbv zeta in HC_endian. rewrite HC_endian.
  rewrite (proj2 (Nat.leb_le _ _)) by lia.
  rewrite (proj2 (Nat.eqb_eq _ _)) by lia.
  rewrite (proj2 (Nat.leb_le _ _)) by lia.
  rewrite (proj2 (Z.leb_le 0 w)) by lia.
  rewrite Z.eqb_refl. reflexivity.
Qed.
End AnyDescr.

(** ** The reader on version 1 and version 2 files *)

Lemma descr_of_prefix_ok v T ds fo :
  descr_of T = Some ds ->
  prefix_ok (header_prefix v ds fo) (sizeof T) fo = true /\ no_newline ds = true.
Proof.
  intros H.
  destruct T; try discriminate H; injection H as <-;
    destruct v, fo; split; vm_compute; reflexivity.
Qed.

Lemma parse_npy_header_supported v minor T ds fo d pad payload :
  descr_of T = Some ds ->
  dims_in_int_range d ->
  size (dict_text ds fo d pad) <= 254 ->
  parse_npy_header (npy_file v minor (dict_text ds fo d pad) payload)
  = Ok (descriptor T fo d, payload).
Proof.
  intros HT Hd Hsz.
  destruct (descr_of_prefix_ok v T ds fo HT) as [Hok Hnl].
  now apply parse_npy_header_canonical.
Qed.

(** Claim C4 (version acceptance): a file in the version 1 layout (2-byte
    length field, dictionary at offset 10) or the version 2 layout (4-byte
    length field, dictionary at offset 12), with any minor version, a dtype
    of the registry, dimensions that fit an [int] and a dictionary of at
    most 254 bytes, parses to its word size, shape and order flag, the
    stream left at the payload; and the version 1.0 file of eight [float64]
    loads with word size 8, shape [8], C order, its 64 payload bytes, and
    the file closed again. *)
Theorem reader_accepts_v1_and_v2 :
  (forall v minor T ds fo d pad payload,
     descr_of T = Some ds ->
     dims_in_int_range d ->
     size (dict_text ds fo d pad) <= 254 ->
     parse_npy_header (npy_file v minor (dict_text ds fo d pad) payload)
     = Ok (descriptor T fo d, payload))
  /\ npy_load "s6.npy" s6_world
     = (Ok (mk_NpyArray f64_payload [8] 8 false 8), s6_world).
Proof.
  split.
  - intros v minor T ds fo d pad payload. apply parse_npy_header_supported.
  - vm_compute. reflexivity.
Qed.

(** The header of the version 1.0 file of eight [float64]. *)
Lemma reader_accepts_v1_and_v2_witness :
  parse_npy_header v1_f64_file
  = Ok (mk_header_info 8 [8] false, f64_payload).
Proof.
  apply (proj1 reader_accepts_v1_and_v2 V1 "000"%char T_double (str "<f8") false
           (Rank1 8) 60%nat f64_payload).
  - reflexivity.
  - repeat constructor; vm_compute; discriminate.
  - vm_compute. discriminate.
Defined.

(** *** What the writers emit *)

Lemma to_string_length_any n : (List.length (to_string n) <= 21)%nat.
Proof.
  unfold to_string. destruct (n <? 0).
  - pose proof (to_digits_length 20 (- n)). cbn [List.length]. lia.
  - pose proof (to_digits_length 20 n). lia.
Qed.

Lemma descr_of_length T ds : descr_of T = Some ds -> List.length ds = 3%nat.
Proof. destruct T; intros H; try discriminate H; injection H as <-; reflexivity. Qed.

Lemma dims_text_length d : (List.length (dims_text d) <= 44)%nat.
Proof.
  destruct d as [n|r c]; cbn [dims_text]; rewrite !length_app.
  - pose proof (to_string_length_any n).
    cbn [List.length str list_ascii_of_string]. lia.
  - pose proof (to_string_length_any r). pose proof (to_string_length_any c).
    cbn [List.length str list_ascii_of_string]. lia.
Qed.

Lemma dict_body_size T ds fo d :
  descr_of T = Some ds -> 51 <= size (dict_body ds fo d) <= 100.
Proof.
  intros H. apply descr_of_length in H. unfold size, dict_body.
  rewrite !length_app, H. pose proof (dims_text_length d).
  destruct fo; cbn [bool_text List.length str list_ascii_of_string]; lia.
Qed.

Lemma pad_header_text ds fo d :
  size (dict_body ds fo d) <= 100 ->
  pad_header (dict_body ds fo d)
  = dict_text ds fo d (Z.to_nat (writer_padding (dict_body ds fo d)))
  /\ 1 <= writer_padding (dict_body ds fo d) <= 16.
Proof.
  intros H. pose proof (size_nonneg (dict_body ds fo d)) as H0.
  unfold pad_header, dict_text, writer_padding.
  rewrite (wrap_small (10 + _)) by (rewrite SIZE_MOD_val; lia).
  pose proof (Z.mod_pos_bound (10 + size (dict_body ds fo d)) 16 ltac:(lia)).
  rewrite wrap_small by (rewrite SIZE_MOD_val; lia).
  split; [reflexivity | lia].
Qed.

Lemma size_repeat c n : size (repeat c n) = Z.of_nat n.
Proof. unfold size. now rewrite repeat_length. Qed.

Lemma dict_text_size ds fo d pad :
  size (dict_text ds fo d pad) = size (dict_body ds fo d) + Z.of_nat pad + 1.
Proof.
  unfold dict_text. rewrite !size_app, size_repeat. unfold size.
  cbn [List.length]. lia.
Qed.

(** A writer's output is a version 2.0 file in the canonical layout. *)
Lemma emit_npy_file T fo d pre :
  emit T fo d = Some pre ->
  exists ds pad,
    descr_of T = Some ds
    /\ size (dict_text ds fo d pad) <= 254
    /\ size (dict_text ds fo d pad)
       = size (dict_body ds fo d) + writer_padding (dict_body ds fo d) + 1
    /\ forall payload,
         pre ++ payload = npy_file V2 "000"%char (dict_text ds fo d pad) payload.
Proof.
  unfold emit. destruct (descr_of T) as [ds|] eqn:E; [|discriminate].
  intros H. injection H as <-.
  pose proof (dict_body_size T ds fo d E) as Hb.
  destruct (pad_header_text ds fo d) as [-> Hp]; [lia|].
  exists ds, (Z.to_nat (writer_padding (dict_body ds fo d))).
  assert (Hsz : size (dict_text ds fo d (Z.to_nat (writer_padding (dict_body ds fo d))))
                = size (dict_body ds fo d) + writer_padding (dict_body ds fo d) + 1).
  { rewrite dict_text_size. lia. }
  repeat split; [lia | exact Hsz |].
  intros payload. unfold npy_file, major_of, length_field.
  rewrite (Z.mod_small (size (dict_text ds fo d _)) (2 ^ 32))
    by (change (2 ^ 32) with 4294967296; lia).
  unfold major_version, minor_version.
  repeat (rewrite <- ?app_assoc; cbn [app]). reflexivity.
Qed.

(** The reader recovers the descriptor of every header a writer emits for
    dimensions that fit an [int]. *)
Lemma header_round_trip_int_range T fo d pre payload :
  emit T fo d = Some pre ->
  dims_in_int_range d ->
  parse_npy_header (pre ++ payload) = Ok (descriptor T fo d, payload).
Proof.
  intros He Hd.
  destruct (emit_npy_file T fo d pre He) as (ds & pad & HT & Hsz & _ & ->).
  now apply parse_npy_header_supported.
Qed.

(** For a length beyond [INT_MAX] the reader throws on the writer's own
    header. *)
Lemma header_round_trip_overflow T n pre payload :
  emit T false (Rank1 n) = Some pre ->
  INT_MAX < n < SIZE_MOD ->
  parse_npy_header (pre ++ payload) = Throw (out_of_range "stoi").
Proof.
  intros He Hn.
  destruct (emit_npy_file T false (Rank1 n) pre He) as (ds & pad & HT & Hsz & _ & ->).
  now apply (parse_npy_header_rank1_overflow V2 "000"%char T).
Qed.

Lemma le32_length n : List.length (le32 n) = 4%nat.
Proof. reflexivity. Qed.

Lemma emit_size T fo d pre :
  emit T fo d = Some pre -> size pre mod 16 = 3.
Proof.
  intros He.
  destruct (emit_npy_file T fo d pre He) as (ds & pad & HT & Hsz & Hsz2 & Hfile).
  specialize (Hfile []). rewrite app_nil_r in Hfile. rewrite Hfile.
  unfold npy_file. rewrite !size_app. cbn [length_field].
  unfold size at 1 2 3 4. rewrite le32_length.
  cbn [List.length magic_string str list_ascii_of_string].
  rewrite Hsz2. unfold writer_padding.
  pose proof (size_nonneg (dict_body ds fo d)).
  remember (size (dict_body ds fo d)) as s.
  pose proof (Z.div_mod (10 + s) 16 ltac:(lia)) as Hdm.
  change (size []) with 0.
  match goal with
  | |- ?t mod 16 = 3 => replace t with (3 + (1 + (10 + s) / 16) * 16) by lia
  end.
  rewrite Z.mod_add by lia. reflexivity.
Qed.

(** ** The writers against the reader *)

(** Claim C1 (header round trip), at the input where the code departs from
    it: for a one-dimensional [uint8] array of 2147483648 elements the
    writer emits a header, and the reader, given that header followed by any
    payload, throws [std::out_of_range] from [std::stoi] instead of
    returning the descriptor.  [header_round_trip_int_range] above is the
    round trip for dimensions up to [INT_MAX], and
    [header_round_trip_overflow] the failure for every larger length. *)
Theorem round_trip_fails_beyond_int_max :
  exists pre,
    emit T_uint8 false (Rank1 2147483648) = Some pre
    /\ forall payload,
         parse_npy_header (pre ++ payload) = Throw (out_of_range "stoi").
Proof.
  eexists. split.
  - vm_compute. reflexivity.
  - intros payload. vm_compute. reflexivity.
Qed.

(** Claim C2 (header alignment), as the code behaves: for every element
    type with a dtype string, every order flag and every shape of rank 1 or
    2, the bytes a writer puts before the payload (magic, version, length
    field, dictionary, padding, newline) number 3 modulo 16, so never a
    multiple of 16; for a [float] array of 3 elements they are 83. *)
Theorem emitted_prefix_misaligned :
  (forall T fo d,
     match emit T fo d with
     | Some pre => size pre mod 16 = 3
     | None => True
     end)
  /\ (exists pre, emit T_float false (Rank1 3) = Some pre /\ size pre = 83).
Proof.
  split.
  - intros T fo d. destruct (emit T fo d) as [pre|] eqn:E; [|exact I].
    now apply (emit_size T fo d).
  - eexists. split; vm_compute; reflexivity.
Qed.

(** *** The writers and the file system *)

Lemma fs_lookup_set name d fs : fs_lookup name (fs_set name d fs) = Some d.
Proof. unfold fs_set. cbn [fs_lookup]. now rewrite String.eqb_refl. Qed.

Lemma ofstream_write_spec name b w d :
  fs_lookup name (w_files w) = Some d ->
  ofstream_write name b w = (Ok tt, set_files w (fs_set name (d ++ b) (w_files w))).
Proof. intros H. unfold ofstream_write. now rewrite H. Qed.

Lemma save_arr_emits T filename data size_v w pre payload :
  existsb (String.eqb filename) (w_locked w) = false ->
  emit T false (Rank1 size_v) = Some pre ->
  read_bytes data (wrap (size_v * sizeof T)) = Ok payload ->
  exists w',
    save_arr T filename data size_v w = (Ok tt, w')
    /\ fs_lookup filename (w_files w') = Some (pre ++ payload)
    /\ w_open w' = w_open w /\ w_cerr w' = w_cerr w.
Proof.
  intros Hl He Hp. unfold emit in He.
  destruct (descr_of T) as [ds|] eqn:E; [|discriminate]. injection He as <-.
  unfold save_arr, bind, ret, lift. unfold ofstream_open at 1. rewrite Hl.
  cbn [negb]. do 3 (write_step_with ofstream_write_spec fs_lookup_set).
  rewrite E. do 2 (write_step_with ofstream_write_spec fs_lookup_set).
  rewrite Hp. write_step_with ofstream_write_spec fs_lookup_set.
  eexists. split; [reflexivity|]. cbn [w_files w_open w_cerr set_files].
  rewrite fs_lookup_set. repeat split. f_equal.
  unfold dict_body, dims_text, bool_text.
  repeat (rewrite <- ?app_assoc; cbn [app]). reflexivity.
Qed.

Lemma save_mat_emits T filename (matrix : Matrix ascii) w pre payload :
  existsb (String.eqb filename) (w_locked w) = false ->
  emit T (negb (IsRowMajor matrix)) (Rank2 (m_rows matrix) (m_cols matrix)) = Some pre ->
  read_bytes (m_storage matrix)
    (wrap (wrap (m_rows matrix * m_cols matrix) * sizeof T)) = Ok payload ->
  exists w',
    save_mat T filename matrix w = (Ok tt, w')
    /\ fs_lookup filename (w_files w') = Some (pre ++ payload)
    /\ w_open w' = w_open w /\ w_cerr w' = w_cerr w.
Proof.
  intros Hl He Hp. unfold emit in He.
  destruct (descr_of T) as [ds|] eqn:E; [|discriminate]. injection He as <-.
  unfold save_mat, bind, ret, lift. unfold cout at 1. cbv beta iota.
  unfold ofstream_open at 1. cbn [w_locked]. rewrite Hl.
  cbn [negb]. do 3 (write_step_with ofstream_write_spec fs_lookup_set).
  rewrite E. do 2 (write_step_with ofstream_write_spec fs_lookup_set).
  cbn [m_storage m_rows m_cols]. rewrite Hp. write_step_with ofstream_write_spec fs_lookup_set.
  unfold cout. cbv beta iota.
  eexists. split; [reflexivity|]. cbn [w_files w_open w_cerr set_files].
  rewrite fs_lookup_set. repeat split. f_equal.
  unfold dict_body, dims_text, bool_text.
  repeat (rewrite <- ?app_assoc; cbn [app]). reflexivity.
Qed.

(** ** What the header parser does not check *)

(** Claim C3 (magic rejection), amended: the parser has no test on the
    magic.  When a line that ends within 255 bytes follows the first 11
    bytes, [fgets] overwrites them in the buffer: the outcome is the same
    whatever the 11 bytes are, and a successful parse leaves the stream
    exactly after that line, no payload byte is consumed.  Streams without
    such a line are left out of the statement: there the 11 bytes stay in
    the buffer ([first_bytes_stay_without_line] below). *)
Theorem magic_not_checked pre pre' a rest :
  List.length pre = 11%nat -> List.length pre' = 11%nat ->
  no_newline a = true -> (List.length a < 255)%nat ->
  parse_npy_header (pre ++ a ++ LF :: rest)
  = parse_npy_header (pre' ++ a ++ LF :: rest)
  /\ forall info fp,
       parse_npy_header (pre ++ a ++ LF :: rest) = Ok (info, fp) -> fp = rest.
Proof.
  intros Hpre Hpre' Ha Hlen. split.
  - now rewrite !parse_npy_header_line.
  - intros info fp. rewrite parse_npy_header_line by assumption.
    destruct (parse_header_fields (line_header a)); cbn [rbind]; intros H;
      inversion H. reflexivity.
Qed.

(** The file with an altered magic byte parses like the original one. *)
Lemma magic_not_checked_witness :
  parse_npy_header bad_magic_file = parse_npy_header v1_f64_file
  /\ forall info fp, parse_npy_header bad_magic_file = Ok (info, fp) -> fp = f64_payload.
Proof.
  exact (magic_not_checked (firstn 11 bad_magic_file) (firstn 11 v1_f64_file)
           v1_line f64_payload eq_refl eq_refl eq_refl
           ltac:(vm_compute; lia)).
Defined.

(** Against C3 as stated: the first six bytes differ from the magic and the
    parse succeeds. *)
Lemma wrong_magic_is_accepted :
  firstn 6 bad_magic_file <> magic_string
  /\ parse_npy_header bad_magic_file
     = Ok (mk_header_info 8 [8] false, f64_payload).
Proof. split; [vm_compute; discriminate | vm_compute; reflexivity]. Qed.

(** Where the statement of C3 stops: when nothing follows the 11 bytes,
    [fgets] stores nothing and the scans of [find_header_substring] read
    the 11 bytes themselves.  Two streams of 11 bytes that differ in the
    last one end differently. *)
Lemma first_bytes_stay_without_line :
  parse_npy_header (firstn 10 v1_f64_file ++ [LF])
  = Throw (runtime_error
      "parse_npy_header: failed to find header keyword: 'fortran_order'")
  /\ parse_npy_header (firstn 11 v1_f64_file) = Undefined Indeterminate.
Proof. split; vm_compute; reflexivity. Qed.

Lemma store_length data buffer :
  (List.length data <= List.length buffer)%nat ->
  List.length (store data buffer) = List.length buffer.
Proof.
  intros H. unfold store. rewrite length_app, length_map, length_skipn. lia.
Qed.

(** Claim C10 (implicit header-size limit), at the inputs where the code
    departs from it: when no newline occurs among the 255 bytes that follow
    file offset 11, [fgets] fills the buffer without a newline, and the
    scan for the newline in [find_header_substring], which has no bound,
    runs past the end of the 256-byte buffer.  The call does not end in the
    error the function has for a header without newline (the empty string
    of line 37, the [throw] of line 53): it reads outside the array, and
    the language says nothing about what follows. *)
Theorem header_line_limit fp :
  (266 <= List.length fp)%nat ->
  no_newline (firstn 255 (skipn 11 fp)) = true ->
  parse_npy_header fp = Undefined OutOfBounds.
Proof.
  intros Hlen Hnl. unfold parse_npy_header.
  rewrite length_firstn, Nat.min_l by lia. cbn [Nat.eqb negb].
  unfold fgets. change (BUFFER_SIZE - 1)%nat with 255%nat.
  rewrite fgets_line_full by (try assumption; rewrite length_skipn; lia).
  set (line := firstn 255 (skipn 11 fp)) in *.
  assert (Hl : List.length line = 255%nat).
  { unfold line. rewrite length_firstn, length_skipn. lia. }
  destruct line as [|c line'] eqn:E; [discriminate Hl|]. rewrite <- E in *.
  assert (Hbuf : store (line ++ [NUL]) (store (firstn 11 fp) (repeat None BUFFER_SIZE))
                 = map Some (line ++ [NUL])).
  { unfold store at 1. rewrite skipn_all2; [apply app_nil_r|].
    assert (H11 : List.length (firstn 11 fp) = 11%nat)
      by (rewrite length_firstn; lia).
    rewrite store_length; rewrite repeat_length; unfold BUFFER_SIZE.
    - rewrite length_app, Hl. cbn [List.length]. lia.
    - lia. }
  rewrite Hbuf.
  rewrite find_header_substring_overrun; [reflexivity|].
  rewrite no_newline_app, Hnl. reflexivity.
Qed.

(** A well-formed version 2 header padded with 300 spaces. *)
Lemma header_line_limit_witness :
  parse_npy_header long_header_file = Undefined OutOfBounds.
Proof.
  apply header_line_limit.
  - vm_compute. lia.
  - vm_compute. reflexivity.
Defined.

Lemma header_prefix_any_descr v e t W fo :
  header_prefix v (e :: t :: W) fo = descr_lead v e ++ t :: W ++ descr_tail fo.
Proof. destruct v; reflexivity. Qed.

Lemma any_descr_layout_ok v e t w fo :
  (Ascii.eqb e "<"%char || Ascii.eqb e "|"%char)%bool = true ->
  is_letter t = true -> 0 <= w <= INT_MAX ->
  prefix_ok (header_prefix v (e :: t :: to_string w) fo) w fo = true
  /\ no_newline (e :: t :: to_string w) = true.
Proof.
  intros He Ht Hw.
  assert (E : e = "<"%char \/ e = "|"%char).
  { apply orb_true_iff in He as [He|He]; apply Ascii.eqb_eq in He; auto. }
  split.
  - rewrite header_prefix_any_descr.
    apply any_descr_prefix_ok
      with (k3 := match v with V1 => 1%nat | V2 => 2%nat end);
      try assumption;
      destruct E as [-> | ->]; destruct v, fo;
      first [vm_compute; reflexivity | vm_compute; lia].
  - destruct (letter_cases t Ht) as (_ & _ & _ & Lt).
    change (no_newline (e :: t :: to_string w))
      with (negb (Ascii.eqb e LF) && (negb (Ascii.eqb t LF) && no_newline (to_string w)))%bool.
    rewrite Lt, no_newline_digits by (apply to_string_digits; lia).
    destruct E as [-> | ->]; reflexivity.
Qed.

(** Claim C7 (dtype rejection), amended: the parser skips the type letter
    and takes the digits after it as the word size.  For a version 1 or 2
    file in the canonical layout whose descr is ['<'] or ['|'], any letter
    and any decimal width up to [INT_MAX], with dimensions that fit an
    [int] and a dictionary of at most 254 bytes, parsing succeeds with that
    width as word size, whether or not the pair is in the registry. *)
Theorem dtype_not_checked v minor e t w fo d pad payload :
  (Ascii.eqb e "<"%char || Ascii.eqb e "|"%char)%bool = true ->
  is_letter t = true ->
  0 <= w <= INT_MAX ->
  dims_in_int_range d ->
  size (dict_text (e :: t :: to_string w) fo d pad) <= 254 ->
  parse_npy_header
    (npy_file v minor (dict_text (e :: t :: to_string w) fo d pad) payload)
  = Ok (mk_header_info w (dims_list d) fo, payload).
Proof.
  intros He Ht Hw Hd Hsz.
  destruct (any_descr_layout_ok v e t w fo He Ht Hw) as [Hok Hnl].
  now apply parse_npy_header_canonical.
Qed.

(** The half-float file: descr ['<f2']. *)
Lemma dtype_not_checked_witness :
  parse_npy_header f2_file
  = Ok (mk_header_info 2 [4] false, bytes [0;60; 0;64; 0;66; 0;68]).
Proof.
  apply (dtype_not_checked V2 "000"%char "<"%char "f"%char 2 false
           (Rank1 4) 12%nat).
  - reflexivity.
  - reflexivity.
  - vm_compute. split; discriminate.
  - repeat constructor; vm_compute; discriminate.
  - vm_compute. discriminate.
Defined.

(** Against C7 as stated: ['<f2'] is outside the registry and the parse
    returns word size 2. *)
Lemma half_float_is_accepted :
  parse_npy_header f2_file
  = Ok (mk_header_info 2 [4] false, bytes [0;60; 0;64; 0;66; 0;68]).
Proof. vm_compute. reflexivity. Qed.

(** ** Failures of the writers, file handles, folder stacking *)

(** Claim C8 (writer error reporting), amended: the writers report their
    failures on [std::cerr] only and return normally.  When the path cannot
    be opened for writing, [save_arr] and [save_mat] return with one
    diagnostic line added and the files untouched; for an element type
    without a dtype string they return with the line ["Unsupported data
    type"] added and leave a file that holds the magic and the two version
    bytes. *)
Theorem writer_failures_return_normally :
  (forall T filename data size_v w,
     existsb (String.eqb filename) (w_locked w) = true ->
     save_arr T filename data size_v w
     = (Ok tt, add_cerr w ("Failed to open file for writing: " ++ filename)))
  /\ (forall T filename matrix w,
     existsb (String.eqb filename) (w_locked w) = true ->
     save_mat T filename matrix w
     = (Ok tt, add_cerr (add_cout w "START")
                 ("Failed to open file for writing: " ++ filename)))
  /\ (forall n filename data size_v w,
     existsb (String.eqb filename) (w_locked w) = false ->
     exists w',
       save_arr (T_other n) filename data size_v w = (Ok tt, w')
       /\ w_cerr w' = w_cerr w ++ ["Unsupported data type"%string]
       /\ fs_lookup filename (w_files w') = Some magic_and_version)
  /\ (forall n filename matrix w,
     existsb (String.eqb filename) (w_locked w) = false ->
     exists w',
       save_mat (T_other n) filename matrix w = (Ok tt, w')
       /\ w_cerr w' = w_cerr w ++ ["Unsupported data type"%string]
       /\ fs_lookup filename (w_files w') = Some magic_and_version).
Proof.
  repeat split.
  - intros T filename data size_v w Hl.
    unfold save_arr, bind. unfold ofstream_open. rewrite Hl. reflexivity.
  - intros T filename matrix w Hl.
    unfold save_mat, bind. unfold cout at 1. cbv beta iota.
    unfold ofstream_open. cbn [w_locked]. rewrite Hl. reflexivity.
  - intros n filename data size_v w Hl.
    unfold save_arr, bind, ret. unfold ofstream_open at 1. rewrite Hl.
    cbn [negb]. do 3 (write_step_with ofstream_write_spec fs_lookup_set).
    cbn [descr_of]. unfold cerr. cbv beta iota.
    eexists. split; [reflexivity|]. cbn [w_cerr w_files set_files].
    split; [reflexivity|]. rewrite fs_lookup_set. reflexivity.
  - intros n filename matrix w Hl.
    unfold save_mat, bind, ret. unfold cout at 1. cbv beta iota.
    unfold ofstream_open at 1. cbn [w_locked]. rewrite Hl.
    cbn [negb]. do 3 (write_step_with ofstream_write_spec fs_lookup_set).
    cbn [descr_of]. unfold cerr. cbv beta iota.
    eexists. split; [reflexivity|]. cbn [w_cerr w_files set_files].
    split; [reflexivity|]. rewrite fs_lookup_set. reflexivity.
Qed.

(** A locked path for [save_arr], a 16-byte element type for [save_mat]. *)
Lemma writer_failures_return_normally_witness :
  save_arr T_float "/readonly/a.npy" [] 3 locked_world
  = (Ok tt, add_cerr locked_world "Failed to open file for writing: /readonly/a.npy")
  /\ exists w',
       save_mat (T_other 16) "c.npy" (mk_Matrix 0 0 RowMajor []) empty_world = (Ok tt, w')
       /\ w_cerr w' = w_cerr empty_world ++ ["Unsupported data type"%string]
       /\ fs_lookup "c.npy" (w_files w') = Some magic_and_version.
Proof.
  split.
  - apply (proj1 writer_failures_return_normally). reflexivity.
  - apply (proj2 (proj2 (proj2 writer_failures_return_normally))). reflexivity.
Defined.

(** Against C8 as stated: the file cannot be opened and the call returns
    as a successful one does; nothing is written but the diagnostic. *)
Lemma open_failure_is_not_reported :
  fst (save_arr T_float "/readonly/a.npy" [] 3 locked_world) = Ok tt
  /\ w_files (snd (save_arr T_float "/readonly/a.npy" [] 3 locked_world)) = []
  /\ w_cerr (snd (save_arr T_float "/readonly/a.npy" [] 3 locked_world))
     = ["Failed to open file for writing: /readonly/a.npy"%string].
Proof. repeat split; vm_compute; reflexivity. Qed.

(** Claim C9 (file handles are always released), at inputs where the code
    departs from it: on a file cut inside its first 11 bytes and on a file
    whose payload is short, [npy_load] and [_map_data] end by an exception
    and the handle they opened is still open. *)
Theorem handle_leaks_on_failure :
  npy_load "t.npy" truncated_world
  = (Throw (runtime_error "parse_npy_header: failed in fread"),
     with_open truncated_world ["t.npy"%string])
  /\ npy_load "s.npy" short_payload_world
     = (Throw (runtime_error "load_the_npy_file: failed fread"),
        with_open short_payload_world ["s.npy"%string])
  /\ _map_data "t.npy" (repeat None 4) 0 truncated_world
     = (Throw (runtime_error "parse_npy_header: failed in fread"),
        with_open truncated_world ["t.npy"%string])
  /\ _map_data "s.npy" (repeat None 4) 0 short_payload_world
     = (Throw (runtime_error "npy_load_data: failed fread"),
        with_open short_payload_world ["s.npy"%string]).
Proof. repeat split; vm_compute; reflexivity. Qed.

(** Whatever [load_the_npy_file] throws, [npy_load] passes on with the file
    still open. *)
Lemma npy_load_throw_keeps_handle fname w d e :
  fs_lookup fname (w_files w) = Some d ->
  load_the_npy_file d = Throw e ->
  npy_load fname w = (Throw e, with_open w (fname :: w_open w)).
Proof.
  intros Hf Hl. unfold npy_load, bind, fopen_rb. rewrite Hf.
  unfold lift. cbn [f_rest]. rewrite Hl. reflexivity.
Qed.

Lemma _map_data_throw_keeps_handle fname mem off w d e :
  fs_lookup fname (w_files w) = Some d ->
  parse_npy_header d = Throw e ->
  _map_data fname mem off w = (Throw e, with_open w (fname :: w_open w)).
Proof.
  intros Hf Hp. unfold _map_data, bind, fopen_rb. rewrite Hf.
  unfold lift. cbn [f_rest]. rewrite Hp. reflexivity.
Qed.

(** Claim C5 (folder stacking fill), at the input where the code departs
    from it: a folder holding [d/a1.npy] and [d/a2.npy], one [uint8] each
    (11 and 22), stacked from [start = 1].  Two files are counted and the
    matrix has two slots; the loading loop runs for [i = 1] only, so slot 0
    stays uninitialised, slot 1 receives the payload of file 1, and file 2,
    which exists and parses, is never read. *)
Theorem stacking_skips_last_files :
  npy_folder2mat T_uint8 RowMajor "d" "a" 1 ".npy" folder_world
  = (Ok (mk_Matrix 2 1 RowMajor [None; Some "011"%char]), folder_world)
  /\ fs_lookup "d/a2.npy" (w_files folder_world) = Some (u1_file 22)
  /\ parse_npy_header (u1_file 22)
     = Ok (mk_header_info 1 [1; 1] false, ["022"%char]).
Proof. repeat split; vm_compute; reflexivity. Qed.

(** ** The matrix loader *)

Lemma shape_loop_range fuel : forall s acc sh,
  shape_loop fuel s acc = Ok sh -> Forall is_size_t acc -> Forall is_size_t sh.
Proof.
  induction fuel as [|f IH]; intros s acc sh H Hacc; [discriminate|].
  cbn [shape_loop] in H.
  destruct (regex_search_num s) as [[m suffix]|].
  - destruct (stoi m) as [v| | |]; cbn [rbind] in H; try discriminate H.
    apply (IH _ _ _ H). apply Forall_app. split; [assumption|].
    constructor; [apply wrap_range | constructor].
  - now injection H as <-.
Qed.

Lemma parse_header_fields_range header info :
  parse_header_fields header = Ok info ->
  is_size_t (hi_word_size info) /\ Forall is_size_t (hi_shape info).
Proof.
  unfold parse_header_fields. intros H. invert_ok H.
  injection H as <-. cbn [hi_word_size hi_shape]. split; [apply wrap_range|].
  match goal with
  | E : shape_loop _ _ _ = Ok _ |- _ => apply (shape_loop_range _ _ _ _ E)
  end.
  constructor.
Qed.

Lemma parse_npy_header_range fp info fp' :
  parse_npy_header fp = Ok (info, fp') ->
  is_size_t (hi_word_size info) /\ Forall is_size_t (hi_shape info).
Proof.
  unfold parse_npy_header. intros H.
  destruct (negb _); [discriminate|].
  destruct (fgets _ _) as [buffer rest].
  invert_ok H. injection H as <- <-.
  eapply parse_header_fields_range; eassumption.
Qed.

Lemma load_the_npy_file_size fp arr :
  load_the_npy_file fp = Ok arr ->
  size (data_holder arr) = wrap (product (shape arr) * word_size arr)
  /\ Forall is_size_t (shape arr).
Proof.
  unfold load_the_npy_file. intros H.
  destruct (parse_npy_header fp) as [[info fp']| | |] eqn:E; cbn [rbind] in H;
    try discriminate H.
  unfold NpyArray_new in H.
  destruct (VECTOR_MAX_SIZE <? _) eqn:Ev; cbn [rbind] in H; [discriminate|].
  unfold fread_into, num_bytes in H.
  cbn [data_holder shape word_size fortran_order num_vals] in H.
  set (n := wrap (product (hi_shape info) * hi_word_size info)) in *.
  assert (Hn : 0 <= n) by apply wrap_range.
  assert (Hz : size (repeat NUL (Z.to_nat n)) = n).
  { rewrite size_repeat. lia. }
  rewrite Hz in H.
  destruct (negb _) eqn:Eb; [discriminate|]. injection H as <-.
  apply negb_false_iff, Z.eqb_eq in Eb.
  cbn [data_holder shape word_size].
  rewrite size_app, Eb.
  assert (Hs : skipn (List.length (firstn (Z.to_nat n) fp')) (repeat NUL (Z.to_nat n)) = []).
  { apply skipn_all2. rewrite repeat_length. unfold size in Eb. lia. }
  rewrite Hs. split; [unfold size; simpl; lia|].
  now apply (parse_npy_header_range _ _ _ E).
Qed.

Lemma npy_load_inv fname w arr w' :
  npy_load fname w = (Ok arr, w') ->
  exists d, load_the_npy_file d = Ok arr.
Proof.
  unfold npy_load, bind, fopen_rb. intros H.
  destruct (fs_lookup fname (w_files w)) as [d|]; [|discriminate].
  unfold lift in H. cbn [f_rest] in H.
  destruct (load_the_npy_file d) eqn:E; try discriminate H.
  exists d. unfold fclose, ret in H. cbv beta iota in H.
  injection H as <- _. exact E.
Qed.

(** *** The counted loops *)

Lemma zrange_In i n k : In k (zrange i n) <-> i <= k < i + Z.of_nat n.
Proof.
  revert i. induction n as [|n IH]; intros i.
  - simpl. lia.
  - cbn [zrange In]. rewrite IH. lia.
Qed.

Lemma for_range_ok {A} (f : Z -> A) body n : forall i,
  (forall k, i <= k < i + Z.of_nat n -> body k = Ok (f k)) ->
  for_range i n body = Ok (map f (zrange i n)).
Proof.
  induction n as [|n IH]; intros i H; [reflexivity|].
  cbn [for_range zrange map]. rewrite H by lia. cbn [rbind].
  rewrite IH by (intros k Hk; apply H; lia). reflexivity.
Qed.

Lemma read_elem_ok sz data k :
  0 <= k -> 0 <= sz -> (k + 1) * sz <= size data ->
  read_elem sz data k = Ok (elem_at sz data k).
Proof.
  intros Hk Hsz Hb. unfold read_elem.
  now rewrite (proj2 (Z.leb_le _ _)) by assumption.
Qed.

Lemma index_in_bounds i j r c sz ws :
  0 <= i < r -> 0 <= j < c -> 0 < sz <= ws -> r * c * ws < SIZE_MOD ->
  0 <= i * c + j < SIZE_MOD /\ 0 <= i * c < SIZE_MOD
  /\ (i * c + j + 1) * sz <= r * c * ws.
Proof.
  intros Hi Hj Hs Hb.
  assert (H1 : i * c + j + 1 <= r * c) by nia.
  assert (H2 : 0 <= i * c) by nia.
  assert (H3 : r * c <= r * c * ws) by nia.
  assert (H4 : (i * c + j + 1) * sz <= (r * c) * ws) by nia.
  lia.
Qed.

(** The rank test of lines 67-69: a file that loads and is not
    two-dimensional is refused, the file closed by then. *)
Lemma load_npy_mat_rank T fname w arr w' :
  npy_load fname w = (Ok arr, w') ->
  List.length (shape arr) <> 2%nat ->
  load_npy_mat T fname w
  = (Throw (runtime_error "Only 2D arrays can be converted to Eigen matrices."), w').
Proof.
  intros Hload Hrank. unfold load_npy_mat, bind. rewrite Hload.
  rewrite (proj2 (Nat.eqb_neq _ _) Hrank). reflexivity.
Qed.

(** The two loops of lines 75-87 on a two-dimensional file. *)
Lemma load_npy_mat_2d T fname w arr w' r c :
  npy_load fname w = (Ok arr, w') ->
  shape arr = [r; c] ->
  0 < sizeof T <= word_size arr ->
  r * c * word_size arr < SIZE_MOD ->
  load_npy_mat T fname w
  = (Ok (mk_Matrix r c RowMajor (reinterpret (sizeof T) arr r c)), w').
Proof.
  intros Hload Hshape Hsz Hb.
  destruct (npy_load_inv _ _ _ _ Hload) as (d & Hd).
  destruct (load_the_npy_file_size _ _ Hd) as [Hsize Hdims].
  rewrite Hshape in Hsize, Hdims.
  apply Forall_cons_iff in Hdims as [Hr Hdims].
  apply Forall_cons_iff in Hdims as [Hc _]. unfold is_size_t in Hr, Hc.
  unfold product in Hsize. cbn [fold_left] in Hsize.
  assert (Hrc : 0 <= r * c <= r * c * word_size arr) by nia.
  rewrite Z.mul_1_l, (wrap_small r) in Hsize by lia.
  rewrite (wrap_small (r * c)), wrap_small in Hsize by lia.
  unfold load_npy_mat, bind. rewrite Hload, Hshape. cbn [List.length Nat.eqb negb].
  unfold lift, vec_at. cbn [nth_error rbind].
  unfold fill_matrix, reinterpret.
  rewrite (for_range_ok
             (fun i => map (fun j => elem_at (sizeof T) (data_holder arr)
                                      (if fortran_order arr then j * r + i else i * c + j))
                         (zrange 0 (Z.to_nat c)))).
  - reflexivity.
  - intros i Hi. apply for_range_ok. intros j Hj.
    rewrite Z2Nat.id in Hi, Hj by lia.
    destruct (fortran_order arr).
    + destruct (index_in_bounds j i c r (sizeof T) (word_size arr)) as (B1 & B2 & B3);
        try lia.
      rewrite (wrap_small (j * r)), wrap_small by lia.
      apply read_elem_ok; lia.
    + destruct (index_in_bounds i j r c (sizeof T) (word_size arr)) as (B1 & B2 & B3);
        try lia.
      rewrite (wrap_small (i * c)), wrap_small by lia.
      apply read_elem_ok; lia.
Qed.

(** Claim C6 (element-kind check on matrix load), amended: the only test
    of [load_npy_mat] is on the rank, and it compares nothing with
    [sizeof(T)].  For every file that [npy_load] accepts: when the shape
    does not have two dimensions the rank error is thrown; when it has,
    with [rows * cols * word_size] below [2^64] and
    [0 < sizeof(T) <= word_size], the result is the [rows x cols] row-major
    matrix whose coefficient [(i, j)] is the [sizeof(T)]-byte element
    [i * cols + j] of the payload ([j * rows + i] for a column-major file),
    also when [word_size] differs from [sizeof(T)]. *)
Theorem load_npy_mat_ignores_word_size T fname w arr w' :
  npy_load fname w = (Ok arr, w') ->
  (List.length (shape arr) <> 2%nat ->
   load_npy_mat T fname w
   = (Throw (runtime_error "Only 2D arrays can be converted to Eigen matrices."),
      w'))
  /\ (forall r c,
        shape arr = [r; c] ->
        0 < sizeof T <= word_size arr ->
        r * c * word_size arr < SIZE_MOD ->
        load_npy_mat T fname w
        = (Ok (mk_Matrix r c RowMajor (reinterpret (sizeof T) arr r c)), w')).
Proof.
  intros Hload. split.
  - intros Hrank. now apply (load_npy_mat_rank T fname w arr w').
  - intros r c Hshape Hsz Hb. now apply (load_npy_mat_2d T fname w arr w' r c).
Qed.

(** A one-dimensional [float64] file refused, and a 2 x 3 [float64] file
    loaded as a matrix of [float]. *)
Lemma load_npy_mat_ignores_word_size_witness :
  load_npy_mat T_float "s6.npy" s6_world
  = (Throw (runtime_error "Only 2D arrays can be converted to Eigen matrices."),
     s6_world)
  /\ exists arr,
       npy_load "m.npy" f8_2x3_world = (Ok arr, f8_2x3_world)
       /\ word_size arr = 8
       /\ load_npy_mat T_float "m.npy" f8_2x3_world
          = (Ok (mk_Matrix 2 3 RowMajor (reinterpret 4 arr 2 3)), f8_2x3_world).
Proof.
  split.
  - apply (proj1 (load_npy_mat_ignores_word_size T_float "s6.npy" s6_world
                    (mk_NpyArray f64_payload [8] 8 false 8) s6_world
                    ltac:(vm_compute; reflexivity))).
    vm_compute. lia.
  - eexists. split; [vm_compute; reflexivity|]. split; [reflexivity|].
    apply (proj2 (load_npy_mat_ignores_word_size T_float "m.npy" f8_2x3_world _
                    f8_2x3_world ltac:(vm_compute; reflexivity)) 2 3).
    + reflexivity.
    + cbn. lia.
    + vm_compute. reflexivity.
Defined.

(** Against C6 as stated: the file declares word size 8, [sizeof(float)]
    is 4, and a 2 x 3 matrix is produced. *)
Lemma word_size_mismatch_is_accepted :
  parse_npy_header f8_2x3_file
  = Ok (mk_header_info 8 [2; 3] false, f64_payload ++ f64_payload)
  /\ sizeof T_float = 4
  /\ match fst (load_npy_mat T_float "m.npy" f8_2x3_world) with
     | Ok m => m_rows m = 2 /\ m_cols m = 3 /\ List.length (m_storage m) = 6%nat
     | _ => False
     end.
Proof.
  split; [vm_compute; reflexivity|]. split; [reflexivity|].
  vm_compute. repeat split; reflexivity.
Qed.

(** * Further properties *)

(** ** [find_header_substring] on any buffer *)

Lemma scan_to_newline_ok mem : forall run,
  scan_to_newline mem = Ok run ->
  no_newline run = true /\ (List.length run < List.length mem)%nat.
Proof.
  induction mem as [|[c|] mem IH]; intros run H; try discriminate H.
  cbn [scan_to_newline] in H. destruct (Ascii.eqb c LF) eqn:E.
  - injection H as <-. split; [reflexivity | simpl; lia].
  - destruct (scan_to_newline mem) as [cs| | |]; cbn [rbind] in H;
      try discriminate H.
    injection H as <-. destruct (IH cs eq_refl) as [H1 H2].
    split; [|simpl; lia].
    unfold no_newline in *. cbn [forallb]. now rewrite E, H1.
Qed.

Lemma find_start_ok mem : forall p,
  find_start mem = Ok (Some p) ->
  (List.length p <= List.length mem)%nat
  /\ exists c rest, p = Some c :: rest /\ Ascii.eqb c NUL = false
                    /\ Ascii.eqb c LF = false.
Proof.
  induction mem as [|[c|] mem IH]; intros p H; try discriminate H.
  cbn [find_start] in H. destruct (Ascii.eqb c LF) eqn:E; [discriminate|].
  destruct (Ascii.eqb c NUL) eqn:E0; cbn [negb] in H.
  - destruct (IH p H) as [H1 H2]. split; [simpl; lia | exact H2].
  - injection H as <-. split; [lia|]. now exists c, mem.
Qed.

Lemma find_start_no_throw mem e : find_start mem <> Throw e.
Proof.
  induction mem as [|[c|] mem IH]; cbn [find_start]; try discriminate.
  destruct (Ascii.eqb c LF); [discriminate|].
  destruct (negb (Ascii.eqb c NUL)); [discriminate | exact IH].
Qed.

Lemma scan_to_newline_no_throw mem e : scan_to_newline mem <> Throw e.
Proof.
  induction mem as [|[c|] mem IH]; cbn [scan_to_newline]; try discriminate.
  destruct (Ascii.eqb c LF); [discriminate|].
  destruct (scan_to_newline mem); cbn [rbind]; congruence.
Qed.

Lemma find_start_fuel mem : find_start mem <> OutOfFuel.
Proof.
  induction mem as [|[c|] mem IH]; cbn [find_start]; try discriminate.
  destruct (Ascii.eqb c LF); [discriminate|].
  destruct (negb (Ascii.eqb c NUL)); [discriminate | exact IH].
Qed.

Lemma scan_to_newline_fuel mem : scan_to_newline mem <> OutOfFuel.
Proof.
  induction mem as [|[c|] mem IH]; cbn [scan_to_newline]; try discriminate.
  destruct (Ascii.eqb c LF); [discriminate|].
  destruct (scan_to_newline mem); cbn [rbind]; congruence.
Qed.

Lemma find_header_substring_no_throw buffer e :
  find_header_substring buffer <> Throw e.
Proof.
  unfold find_header_substring.
  destruct (find_start buffer) as [[p|]| | |] eqn:E; cbn [rbind];
    try discriminate; [|now apply find_start_no_throw in E].
  destruct (scan_to_newline p) as [[|c run]| | |] eqn:E2; cbn [rbind];
    try discriminate. now apply scan_to_newline_no_throw in E2.
Qed.

Lemma find_header_substring_fuel buffer :
  find_header_substring buffer <> OutOfFuel.
Proof.
  unfold find_header_substring.
  destruct (find_start buffer) as [[p|]| | |] eqn:E; cbn [rbind];
    try discriminate; [|now apply find_start_fuel in E].
  destruct (scan_to_newline p) as [[|c run]| | |] eqn:E2; cbn [rbind];
    try discriminate. now apply scan_to_newline_fuel in E2.
Qed.

Lemma find_header_substring_shape buffer header :
  find_header_substring buffer = Ok header ->
  header = []
  \/ exists c run,
       header = (c :: run) ++ [LF]
       /\ Ascii.eqb c NUL = false
       /\ no_newline (c :: run) = true
       /\ (List.length header <= List.length buffer)%nat.
Proof.
  unfold find_header_substring. intros H.
  destruct (find_start buffer) as [[p|]| | |] eqn:E; cbn [rbind] in H;
    try discriminate H; [|left; now injection H as <-].
  destruct (find_start_ok _ _ E) as (Hlen & c & rest & -> & Hc & Hlf).
  destruct (scan_to_newline (Some c :: rest)) as [run| | |] eqn:E2;
    cbn [rbind] in H; try discriminate H.
  destruct (scan_to_newline_ok _ _ E2) as [Hnl Hl].
  cbn [scan_to_newline] in E2. rewrite Hlf in E2.
  destruct (scan_to_newline rest) as [cs| | |]; cbn [rbind] in E2;
    try discriminate E2.
  injection E2 as <-. injection H as <-. right. exists c, cs.
  repeat split; try assumption.
  cbn [app List.length] in *. rewrite ?length_app in *.
  cbn [List.length] in *. lia.
Qed.

(** ** Every outcome of the header parser *)

Lemma parser_outcome_bind {A B} (Q1 : A -> Prop) (Q2 : B -> Prop) r k :
  parser_outcome Q1 r ->
  (forall a, Q1 a -> parser_outcome Q2 (k a)) ->
  parser_outcome Q2 (rbind r k).
Proof. destruct r; cbn [rbind parser_outcome]; auto. Qed.

Lemma substr_outcome s pos count :
  parser_outcome (fun _ => True) (substr s pos count).
Proof.
  unfold substr. destruct (size s <? pos); cbn [parser_outcome]; [|exact I].
  unfold parser_exceptions. cbn [In]. tauto.
Qed.

Lemma at_index_outcome s pos : parser_outcome (fun _ => True) (at_index s pos).
Proof. unfold at_index. destruct (size s <? pos); exact I. Qed.

Lemma atoi_outcome s :
  parser_outcome (fun v => INT_MIN <= v <= INT_MAX) (atoi s).
Proof.
  unfold atoi. destruct (strtol_scan (c_str s)) as [v|]; cbn [parser_outcome].
  - unfold in_int_range. destruct (INT_MIN <=? v) eqn:E1; cbn [andb parser_outcome];
      [|exact I].
    destruct (v <=? INT_MAX) eqn:E2; cbn [parser_outcome]; [|exact I].
    apply Z.leb_le in E1, E2. lia.
  - unfold INT_MIN, INT_MAX. lia.
Qed.

(** *** The regex loop *)

Lemma drop_while_length p s : (List.length (drop_while p s) <= List.length s)%nat.
Proof.
  induction s as [|c s IH]; [simpl; lia|]. cbn [drop_while].
  destruct (p c); simpl; lia.
Qed.

Lemma take_while_forall p s : forallb p (take_while p s) = true.
Proof.
  induction s as [|c s IH]; [reflexivity|]. cbn [take_while].
  destruct (p c) eqn:E; [|reflexivity]. cbn [forallb]. now rewrite E.
Qed.

Lemma drop_while_head p s c s' : drop_while p s = c :: s' -> p c = false.
Proof.
  induction s as [|x s IH]; [discriminate|]. cbn [drop_while].
  destruct (p x) eqn:E; [exact IH|]. intros H. injection H as <- _. exact E.
Qed.

(** A match is a non-empty run of digits and leaves a shorter text. *)
Lemma regex_search_num_match s m suffix :
  regex_search_num s = Some (m, suffix) ->
  m <> [] /\ forallb is_digit m = true
  /\ (List.length suffix < List.length s)%nat.
Proof.
  unfold regex_search_num.
  destruct (drop_while (fun c => negb (is_digit c)) s) as [|c s'] eqn:E;
    [discriminate|].
  intros H. injection H as <- <-.
  pose proof (drop_while_head _ _ _ _ E) as Hc. apply negb_false_iff in Hc.
  pose proof (drop_while_length (fun c => negb (is_digit c)) s) as Hl.
  rewrite E in Hl.
  split; [cbn [take_while]; rewrite Hc; discriminate|].
  split; [exact (take_while_forall is_digit (c :: s'))|].
  cbn [drop_while]. rewrite Hc.
  pose proof (drop_while_length is_digit s'). cbn [List.length] in Hl. lia.
Qed.

Lemma stoi_outcome m :
  m <> [] -> forallb is_digit m = true ->
  parser_outcome (fun v => 0 <= v <= INT_MAX) (stoi m).
Proof.
  intros Hne Hd. destruct (Z_le_gt_dec (digits_value m) INT_MAX) as [H|H].
  - rewrite stoi_digits by assumption. cbn [parser_outcome].
    pose proof (digits_value_nonneg m Hd). lia.
  - rewrite stoi_digits_overflow by (assumption || lia).
    unfold parser_outcome, parser_exceptions. cbn [In]. tauto.
Qed.

(** One unit of fuel per character is enough: the loop ends with the shape
    or with the exception of [std::stoi]. *)
Lemma shape_loop_outcome fuel : forall s acc,
  (List.length s < fuel)%nat ->
  Forall (fun n => 0 <= n <= INT_MAX) acc ->
  parser_outcome (Forall (fun n => 0 <= n <= INT_MAX)) (shape_loop fuel s acc).
Proof.
  induction fuel as [|f IH]; intros s acc Hf Hacc; [lia|].
  cbn [shape_loop].
  destruct (regex_search_num s) as [[m suffix]|] eqn:E; [|exact Hacc].
  destruct (regex_search_num_match _ _ _ E) as (Hne & Hd & Hl).
  apply (parser_outcome_bind (fun v => 0 <= v <= INT_MAX)).
  - now apply stoi_outcome.
  - intros v Hv. apply IH; [lia|].
    apply Forall_app. split; [assumption|]. constructor; [|constructor].
    rewrite wrap_small; [assumption|]. rewrite SIZE_MOD_val. unfold INT_MAX in Hv. lia.
Qed.

Lemma in_parser_exceptions_2 :
  In (runtime_error "parse_npy_header: failed to find header keyword: 'fortran_order'")
    parser_exceptions.
Proof. unfold parser_exceptions. cbn [In]. tauto. Qed.

Lemma in_parser_exceptions_3 :
  In (runtime_error "parse_npy_header: failed to find header keyword: '(' or ')'")
    parser_exceptions.
Proof. unfold parser_exceptions. cbn [In]. tauto. Qed.

Lemma in_parser_exceptions_4 :
  In (runtime_error "parse_npy_header: failed to find header keyword: 'descr'")
    parser_exceptions.
Proof. unfold parser_exceptions. cbn [In]. tauto. Qed.

Lemma in_parser_exceptions_5 :
  In (runtime_error "parse_npy_header: only little endian data is supported")
    parser_exceptions.
Proof. unfold parser_exceptions. cbn [In]. tauto. Qed.

Lemma int_as_size_t_wrap v : INT_MIN <= v <= INT_MAX -> int_as_size_t (wrap v).
Proof.
  intros H. unfold int_as_size_t. destruct (Z_lt_ge_dec v 0) as [Hn|Hn].
  - right. unfold wrap.
    replace v with ((v + SIZE_MOD) + (-1) * SIZE_MOD) by lia.
    rewrite Z.mod_add by (rewrite SIZE_MOD_val; lia).
    rewrite Z.mod_small; rewrite SIZE_MOD_val in *; unfold INT_MIN, INT_MAX in *; lia.
  - left. rewrite wrap_small; [lia|]. rewrite SIZE_MOD_val. unfold INT_MAX in H. lia.
Qed.

(** The work on the header string, when the string is empty or ends in a
    newline, as [find_header_substring] leaves it. *)
Lemma parse_header_fields_outcome header :
  header = [] \/ (exists x, header = x ++ [LF]) ->
  (List.length header <= 256)%nat ->
  parser_outcome header_in_range (parse_header_fields header).
Proof.
  intros [-> | [x ->]] Hlen; [exact I|].
  unfold parse_header_fields.
  replace (wrap (size (x ++ [LF]) - 1)) with (Z.of_nat (List.length x)).
  2:{ rewrite size_app. unfold size. cbn [List.length].
      rewrite wrap_small; [lia|]. rewrite SIZE_MOD_val.
      rewrite length_app in Hlen. cbn [List.length] in Hlen. lia. }
  rewrite at_index_last. cbn [rbind].
  change (negb (Ascii.eqb LF LF)) with false. cbv iota.
  destruct (_ =? npos); [apply in_parser_exceptions_2|].
  apply (parser_outcome_bind (fun _ => True)); [apply substr_outcome|].
  intros word _.
  destruct (_ || _)%bool; [apply in_parser_exceptions_3|].
  apply (parser_outcome_bind (fun _ => True)); [apply substr_outcome|].
  intros str_shape _.
  apply (parser_outcome_bind (Forall (fun n => 0 <= n <= INT_MAX))).
  { apply shape_loop_outcome; [lia | constructor]. }
  intros shape Hshape.
  destruct (_ =? npos); [apply in_parser_exceptions_4|].
  apply (parser_outcome_bind (fun _ => True)); [apply at_index_outcome|].
  intros e _.
  destruct (negb _); [apply in_parser_exceptions_5|].
  apply (parser_outcome_bind (fun _ => True)); [apply substr_outcome|].
  intros str_ws _.
  apply (parser_outcome_bind (fun _ => True)); [apply substr_outcome|].
  intros tok _.
  apply (parser_outcome_bind (fun v => INT_MIN <= v <= INT_MAX));
    [apply atoi_outcome|].
  intros ws Hws. cbn [parser_outcome]. split; cbn [hi_word_size hi_shape].
  - now apply int_as_size_t_wrap.
  - exact Hshape.
Qed.

Lemma fgets_line_length n fp : (List.length (fgets_line n fp) <= n)%nat.
Proof.
  revert fp. induction n as [|n IH]; intros fp; [simpl; lia|].
  destruct fp as [|c fp]; [simpl; lia|]. cbn [fgets_line].
  destruct (Ascii.eqb c LF); [simpl; lia|]. specialize (IH fp). simpl. lia.
Qed.

Lemma fgets_buffer_length buffer fp :
  List.length buffer = BUFFER_SIZE ->
  List.length (fst (fgets buffer fp)) = BUFFER_SIZE.
Proof.
  intros H. unfold fgets.
  pose proof (fgets_line_length (BUFFER_SIZE - 1) fp) as Hl.
  destruct (fgets_line (BUFFER_SIZE - 1) fp) as [|c line]; [exact H|].
  cbn [fst]. rewrite store_length; [exact H|].
  rewrite length_app, H. unfold BUFFER_SIZE in *. cbn [List.length] in *. lia.
Qed.

Lemma parse_npy_header_outcome fp :
  parser_outcome (fun r => header_in_range (fst r)) (parse_npy_header fp).
Proof.
  unfold parse_npy_header.
  destruct (negb _) eqn:E.
  { unfold parser_outcome, parser_exceptions. cbn [In]. tauto. }
  apply negb_false_iff, Nat.eqb_eq in E.
  pose proof (fgets_buffer_length
                (store (firstn 11 fp) (repeat None BUFFER_SIZE)) (skipn 11 fp)) as Hb.
  destruct (fgets _ _) as [buffer rest]. cbn [fst] in Hb.
  assert (Hlen : List.length buffer = BUFFER_SIZE).
  { apply Hb. rewrite store_length; rewrite repeat_length; [reflexivity|].
    rewrite E. unfold BUFFER_SIZE. lia. }
  destruct (find_header_substring buffer) as [header| | |] eqn:Eh; cbn [rbind].
  - apply (parser_outcome_bind header_in_range).
    + destruct (find_header_substring_shape _ _ Eh) as [-> | (c & run & -> & _ & _ & Hl)].
      * exact I.
      * apply parse_header_fields_outcome; [right; now exists (c :: run)|].
        unfold BUFFER_SIZE in Hlen. lia.
    + intros info Hinfo. exact Hinfo.
  - now apply find_header_substring_no_throw in Eh.
  - exact I.
  - now apply find_header_substring_fuel in Eh.
Qed.

(** ** Headers the parser rejects *)

(** The start of [parse_header_fields] on a header that ends in a newline:
    the test of line 51 passes. *)
Lemma parse_header_fields_newline h :
  (List.length h < 256)%nat ->
  at_index (h ++ [LF]) (wrap (size (h ++ [LF]) - 1)) = Ok LF.
Proof.
  intros Hlen.
  replace (wrap (size (h ++ [LF]) - 1)) with (Z.of_nat (List.length h)).
  - apply at_index_last.
  - rewrite size_app. unfold size. cbn [List.length].
    rewrite wrap_small; [lia|]. rewrite SIZE_MOD_val. lia.
Qed.

Lemma find_none s pat : index_of pat s = None -> find s pat = npos.
Proof. intros H. unfold find. now rewrite H. Qed.

Lemma find_some s pat k : index_of pat s = Some k -> find s pat = Z.of_nat k.
Proof. intros H. unfold find. now rewrite H. Qed.

Lemma find_some_not_npos s pat k :
  index_of pat s = Some k -> (List.length s <= 256)%nat ->
  (find s pat =? npos) = false.
Proof.
  intros H Hl. rewrite (find_some _ _ _ H). apply Z.eqb_neq.
  pose proof (index_of_bound _ _ _ H). rewrite npos_val. lia.
Qed.

Lemma shape_loop_cases fuel : forall s acc,
  (List.length s < fuel)%nat ->
  (exists sh, shape_loop fuel s acc = Ok sh)
  \/ shape_loop fuel s acc = Throw (out_of_range "stoi").
Proof.
  induction fuel as [|f IH]; intros s acc Hf; [lia|].
  cbn [shape_loop].
  destruct (regex_search_num s) as [[m suffix]|] eqn:E; [|left; now exists acc].
  destruct (regex_search_num_match _ _ _ E) as (Hne & Hd & Hl).
  destruct (Z_le_gt_dec (digits_value m) INT_MAX) as [H|H].
  - rewrite stoi_digits by assumption. cbn [rbind]. apply IH. lia.
  - rewrite stoi_digits_overflow by (assumption || lia). now right.
Qed.

Section MissingKeys.
Variable header : list ascii.
Variable h : list ascii.
Hypothesis Hh : header = h ++ [LF].
Hypothesis Hlen : (List.length h < 255)%nat.

Lemma header_length : (List.length header <= 256)%nat.
Proof. rewrite Hh, length_app. cbn [List.length]. lia. Qed.

Lemma header_last :
  at_index header (wrap (size header - 1)) = Ok LF.
Proof. rewrite Hh. apply parse_header_fields_newline. lia. Qed.

Lemma fields_missing_fortran_order :
  index_of (str "fortran_order") header = None ->
  parse_header_fields header
  = Throw (runtime_error
      "parse_npy_header: failed to find header keyword: 'fortran_order'").
Proof.
  intros H. unfold parse_header_fields. rewrite Hh at 1 2.
  rewrite parse_header_fields_newline by lia. cbn [rbind].
  change (negb (Ascii.eqb LF LF)) with false. cbv iota.
  now rewrite (find_none _ _ H).
Qed.

Lemma fields_after_fortran_order k :
  index_of (str "fortran_order") header = Some k ->
  (k + 16 <= List.length header)%nat ->
  exists word,
    parse_header_fields header
    = rbind (Ok word) (fun word =>
      let fortran_order := list_eqb word (str "True") in
      let loc1 := find_char header "("%char in
      let loc2 := find_char header ")"%char in
      if (loc1 =? npos) || (loc2 =? npos) then
        Throw (runtime_error
          "parse_npy_header: failed to find header keyword: '(' or ')'")
      else
      rbind (substr header (wrap (loc1 + 1)) (wrap (loc2 - loc1 - 1)))
        (fun str_shape =>
      rbind (shape_loop (S (List.length str_shape)) str_shape [])
        (fun shape =>
      let loc1 := find header (str "descr") in
      if loc1 =? npos then
        Throw (runtime_error
          "parse_npy_header: failed to find header keyword: 'descr'")
      else
      let loc1 := wrap (loc1 + 9) in
      rbind (at_index header loc1) (fun e =>
      let littleEndian := Ascii.eqb e "<"%char || Ascii.eqb e "|"%char in
      if negb littleEndian then
        Throw (runtime_error
          "parse_npy_header: only little endian data is supported")
      else
      rbind (substr header (wrap (loc1 + 2)) npos) (fun str_ws =>
      let loc2 := find_char str_ws "'"%char in
      rbind (substr str_ws 0 loc2) (fun tok =>
      rbind (atoi tok) (fun ws =>
      Ok (mk_header_info (wrap ws) shape fortran_order)))))))).
Proof.
  intros Hk Hb. pose proof header_length as Hl.
  unfold parse_header_fields. rewrite header_last. cbn [rbind].
  change (negb (Ascii.eqb LF LF)) with false. cbv iota.
  rewrite (find_some_not_npos _ _ _ Hk Hl), (find_some _ _ _ Hk).
  rewrite wrap_small by (rewrite SIZE_MOD_val; lia).
  unfold substr at 1. unfold size.
  rewrite (proj2 (Z.ltb_ge _ _)) by lia.
  eexists. reflexivity.
Qed.

Lemma fields_missing_parenthesis k :
  index_of (str "fortran_order") header = Some k ->
  (k + 16 <= List.length header)%nat ->
  index_of ["("%char] header = None \/ index_of [")"%char] header = None ->
  parse_header_fields header
  = Throw (runtime_error
      "parse_npy_header: failed to find header keyword: '(' or ')'").
Proof.
  intros Hk Hb Hp. destruct (fields_after_fortran_order k Hk Hb) as [word ->].
  cbn [rbind]. cbv zeta. unfold find_char.
  destruct Hp as [Hp|Hp]; rewrite (find_none _ _ Hp), Z.eqb_refl.
  - reflexivity.
  - now rewrite orb_true_r.
Qed.

Lemma fields_missing_descr k i j :
  index_of (str "fortran_order") header = Some k ->
  (k + 16 <= List.length header)%nat ->
  index_of ["("%char] header = Some i ->
  index_of [")"%char] header = Some j ->
  index_of (str "descr") header = None ->
  exists str_shape,
    substr header (Z.of_nat i + 1) (wrap (Z.of_nat j - Z.of_nat i - 1)) = Ok str_shape
    /\ parse_header_fields header
       = rbind (shape_loop (S (List.length str_shape)) str_shape [])
           (fun _ => Throw (runtime_error
              "parse_npy_header: failed to find header keyword: 'descr'")).
Proof.
  intros Hk Hb Hi Hj Hd. pose proof header_length as Hl.
  pose proof (index_of_bound _ _ _ Hi) as Bi. cbn [List.length] in Bi.
  assert (Hs : exists str_shape,
             substr header (Z.of_nat i + 1) (wrap (Z.of_nat j - Z.of_nat i - 1))
             = Ok str_shape).
  { unfold substr, size. rewrite (proj2 (Z.ltb_ge _ _)) by lia. eexists. reflexivity. }
  destruct Hs as [str_shape Hs]. exists str_shape. split; [exact Hs|].
  destruct (fields_after_fortran_order k Hk Hb) as [word E]. rewrite E.
  cbn [rbind]. cbv zeta. unfold find_char.
  rewrite (find_some_not_npos _ _ _ Hi Hl), (find_some_not_npos _ _ _ Hj Hl).
  cbn [orb]. rewrite (find_some _ _ _ Hi), (find_some _ _ _ Hj).
  rewrite (wrap_small (Z.of_nat i + 1)) by (rewrite SIZE_MOD_val; lia).
  rewrite Hs. cbn [rbind].
  rewrite (find_none _ _ Hd), Z.eqb_refl. reflexivity.
Qed.
End MissingKeys.

(** A header with a known prefix whose endianness character is rejected:
    the shape is scanned first, then the descr is refused. *)
Lemma parse_fields_prefix_rejected P D R :
  prefix_rejected P = true ->
  index_of [")"%char] D = None ->
  (List.length (P ++ D ++ ")"%char :: R ++ [LF]) <= 255)%nat ->
  parse_header_fields (P ++ D ++ ")"%char :: R ++ [LF])
  = rbind (shape_loop (S (List.length D)) D [])
      (fun _ => Throw (runtime_error
         "parse_npy_header: only little endian data is supported")).
Proof.
  intros Hok HD Hlen. unfold prefix_rejected in Hok.
  destruct (index_of (str "fortran_order") P) as [k1|] eqn:E1; [|discriminate].
  destruct (index_of ["("%char] P) as [k2|] eqn:E2; [|discriminate].
  destruct (index_of [")"%char] P) eqn:E3; [discriminate|].
  destruct (index_of (str "descr") P) as [k3|] eqn:E4; [|discriminate].
  repeat match goal with
         | H : (_ && _)%bool = true |- _ => apply andb_true_iff in H as [? ?]
         end.
  repeat match goal with
         | H : (_ <=? _)%nat = true |- _ => apply Nat.leb_le in H
         | H : (_ <? _)%nat = true |- _ => apply Nat.ltb_lt in H
         | H : (_ =? _)%nat = true |- _ => apply Nat.eqb_eq in H
         end.
  set (Rest := D ++ ")"%char :: R ++ [LF]) in *.
  assert (HlenP : (List.length P + List.length Rest <= 255)%nat)
    by (rewrite length_app in Hlen; exact Hlen).
  assert (HRest : (List.length D + 2 <= List.length Rest)%nat).
  { unfold Rest. rewrite length_app. cbn [List.length]. rewrite length_app.
    cbn [List.length]. lia. }
  assert (Hh : P ++ Rest = (P ++ D ++ ")"%char :: R) ++ [LF]).
  { unfold Rest. now rewrite <- !app_assoc. }
  assert (Hl : (List.length (P ++ D ++ ")"%char :: R) < 255)%nat).
  { apply (f_equal (@List.length ascii)) in Hh. rewrite !length_app in Hh.
    cbn [List.length] in Hh. rewrite !length_app. cbn [List.length]. lia. }
  destruct (fields_after_fortran_order (P ++ Rest) _ Hh Hl k1) as [word ->].
  { now apply index_of_app_l. }
  { rewrite length_app. lia. }
  cbn [rbind]. cbv zeta. unfold find_char.
  rewrite (find_inside _ _ _ _ E2).
  assert (Hclose : find (P ++ Rest) [")"%char]
                   = Z.of_nat (List.length P + List.length D)).
  { unfold find, Rest. rewrite index_of_char_none_app by assumption.
    rewrite index_of_char_none_app by assumption.
    rewrite index_of_char_head. simpl. f_equal. lia. }
  rewrite Hclose.
  rewrite (proj2 (Z.eqb_neq (Z.of_nat k2) npos)) by (rewrite npos_val; lia).
  rewrite (proj2 (Z.eqb_neq (Z.of_nat (List.length P + List.length D)) npos))
    by (rewrite npos_val; lia).
  cbn [orb].
  replace (wrap (Z.of_nat k2 + 1)) with (Z.of_nat (List.length P))
    by (rewrite wrap_small; [lia | rewrite SIZE_MOD_val; lia]).
  replace (wrap (Z.of_nat (List.length P + List.length D) - Z.of_nat k2 - 1))
    with (Z.of_nat (List.length D))
    by (rewrite wrap_small; [lia | rewrite SIZE_MOD_val; lia]).
  unfold Rest at 1. rewrite substr_middle. cbn [rbind].
  destruct (shape_loop (S (List.length D)) D []) as [shape| | |]; cbn [rbind];
    try reflexivity.
  rewrite (find_inside _ _ _ _ E4).
  rewrite (proj2 (Z.eqb_neq _ _)) by (rewrite npos_val; lia).
  rewrite wrap_small by (rewrite SIZE_MOD_val; lia).
  change (Z.of_nat k3 + 9) with (Z.of_nat k3 + Z.of_nat 9). rewrite <- Nat2Z.inj_add.
  rewrite at_index_inside by lia. cbn [rbind].
  match goal with H : negb (_ || _)%bool = true |- _ => cbv zeta in H; rewrite H end.
  reflexivity.
Qed.

(** The buffer stage on a file in the canonical layout: the header string
    the fields are read from. *)
Lemma parse_npy_header_layout_fields v minor ds fo d pad payload :
  no_newline ds = true ->
  dims_nonneg d ->
  size (dict_text ds fo d pad) <= 254 ->
  parse_npy_header (npy_file v minor (dict_text ds fo d pad) payload)
  = rbind (parse_header_fields
             (header_prefix v ds fo ++ dims_text d
                ++ ")"%char :: (str ", }" ++ repeat SPACE pad) ++ [LF]))
      (fun info => Ok (info, payload)).
Proof.
  intros Hds Hd Hsz.
  destruct (npy_file_split v minor ds fo d pad payload Hsz) as (pre & k & Hpre & Hk & ->).
  assert (Hlen : (List.length (header_prefix v ds fo ++ dims_text d
                     ++ ")"%char :: (str ", }" ++ repeat SPACE pad) ++ [LF]) <= 254)%nat).
  { rewrite dict_text_split in Hsz. unfold size in Hsz.
    destruct v; cbn [header_prefix]; cbn [List.length app] in *; lia. }
  rewrite parse_npy_header_line; try assumption.
  - rewrite line_header_nuls.
    + replace ((header_prefix v ds fo ++ dims_text d
                  ++ ")"%char :: str ", }" ++ repeat SPACE pad) ++ [LF])
        with (header_prefix v ds fo ++ dims_text d
                ++ ")"%char :: (str ", }" ++ repeat SPACE pad) ++ [LF])
        by (repeat (rewrite <- ?app_assoc; cbn [app]); reflexivity).
      reflexivity.
    + pose proof (header_prefix_head v ds fo) as Hh.
      destruct v; cbn [header_prefix] in *; cbn [app] in *; exact Hh.
  - rewrite !no_newline_app.
    rewrite header_prefix_no_newline, dims_text_no_newline by assumption.
    assert (E : no_newline (repeat NUL k) = true).
    { destruct k as [|[|k]]; [reflexivity|reflexivity|lia]. }
    rewrite E. cbn [andb].
    change (no_newline (")"%char :: str ", }" ++ repeat SPACE pad))
      with (no_newline (repeat SPACE pad)).
    apply no_newline_spaces.
  - rewrite !length_app in *. rewrite repeat_length. cbn [List.length] in *.
    rewrite !length_app in *. cbn [List.length] in *. lia.
Qed.

Lemma big_endian_prefix_rejected v T ds fo :
  descr_of T = Some ds ->
  prefix_rejected (header_prefix v (with_endianness ">"%char ds) fo) = true
  /\ no_newline (with_endianness ">"%char ds) = true.
Proof.
  intros H.
  destruct T; try discriminate H; injection H as <-;
    destruct v, fo; split; vm_compute; reflexivity.
Qed.

(** ** Loading *)

Lemma size_firstn_le n (s : list ascii) :
  0 <= n -> n <= size s -> size (firstn (Z.to_nat n) s) = n.
Proof. intros H0 H. unfold size in *. rewrite length_firstn. lia. Qed.

Lemma size_firstn_short n (s : list ascii) :
  size s < n -> firstn (Z.to_nat n) s = s.
Proof. intros H. apply firstn_all2. unfold size in H. lia. Qed.

(** [load_the_npy_file] after a successful parse. *)
Lemma load_the_npy_file_parsed fp info rest :
  parse_npy_header fp = Ok (info, rest) ->
  let n := wrap (product (hi_shape info) * hi_word_size info) in
  load_the_npy_file fp
  = if VECTOR_MAX_SIZE <? n then
      Throw (length_error "cannot create std::vector larger than max_size()")
    else if size rest <? n then
      Throw (runtime_error "load_the_npy_file: failed fread")
    else
      Ok (mk_NpyArray (firstn (Z.to_nat n) rest) (hi_shape info)
            (hi_word_size info) (hi_fortran_order info)
            (product (hi_shape info))).
Proof.
  intros Hp n. unfold load_the_npy_file. rewrite Hp. cbn [rbind].
  unfold NpyArray_new. fold n.
  destruct (VECTOR_MAX_SIZE <? n) eqn:Ev; cbn [rbind]; [reflexivity|].
  assert (Hn : 0 <= n) by apply wrap_range.
  unfold fread_into, num_bytes.
  cbn [data_holder shape word_size fortran_order num_vals].
  rewrite size_repeat, Z2Nat.id by lia.
  destruct (size rest <? n) eqn:Er.
  - apply Z.ltb_lt in Er. rewrite size_firstn_short by assumption.
    rewrite (proj2 (Z.eqb_neq _ _)) by lia. reflexivity.
  - apply Z.ltb_ge in Er. rewrite size_firstn_le by assumption.
    rewrite Z.eqb_refl. cbn [negb]. f_equal. f_equal.
    rewrite skipn_all2; [apply app_nil_r|].
    rewrite repeat_length, length_firstn. unfold size in Er. lia.
Qed.

Lemma remove_one_head name l : remove_one name (name :: l) = l.
Proof. cbn [remove_one]. now rewrite String.eqb_refl. Qed.

Lemma world_eta w :
  mk_world (w_files w) (w_locked w) (w_open w) (w_cout w) (w_cerr w) = w.
Proof. now destruct w. Qed.

(** [npy_load] in terms of the file system and [load_the_npy_file]. *)
Lemma npy_load_unfold fname w :
  npy_load fname w
  = match fs_lookup fname (w_files w) with
    | None => (Throw (runtime_error ("npy_load: Unable to open file " ++ fname)), w)
    | Some d =>
        match load_the_npy_file d with
        | Ok arr => (Ok arr, w)
        | Throw e => (Throw e, with_open w (fname :: w_open w))
        | Undefined u => (Undefined u, with_open w (fname :: w_open w))
        | OutOfFuel => (OutOfFuel, with_open w (fname :: w_open w))
        end
    end.
Proof.
  unfold npy_load, bind, fopen_rb.
  destruct (fs_lookup fname (w_files w)) as [d|]; [|reflexivity].
  unfold lift. cbn [f_rest]. destruct (load_the_npy_file d); try reflexivity.
  unfold fclose, ret. cbn [f_name w_files w_locked w_open w_cout w_cerr].
  rewrite remove_one_head, world_eta. reflexivity.
Qed.

Lemma product_dims d :
  dims_in_int_range d -> product (dims_list d) = count d /\ 0 <= count d.
Proof.
  unfold dims_in_int_range, product. destruct d as [n|r c]; cbn [dims_list count fold_left];
    intros H.
  - apply Forall_cons_iff in H as [Hn _]. rewrite Z.mul_1_l.
    rewrite wrap_small; [lia|]. rewrite SIZE_MOD_val. unfold INT_MAX in Hn. lia.
  - apply Forall_cons_iff in H as [Hr H]. apply Forall_cons_iff in H as [Hc _].
    rewrite Z.mul_1_l.
    rewrite (wrap_small r) by (rewrite SIZE_MOD_val; unfold INT_MAX in Hr; lia).
    rewrite wrap_small; [nia|]. rewrite SIZE_MOD_val. unfold INT_MAX in *. nia.
Qed.

Lemma sizeof_supported T ds : descr_of T = Some ds -> 1 <= sizeof T <= 8.
Proof. destruct T; intros H; try discriminate H; cbn; lia. Qed.

(** What [load_the_npy_file] returns on a header of a writer followed by
    any bytes. *)
Lemma load_written T fo d pre bytes ds :
  emit T fo d = Some pre ->
  descr_of T = Some ds ->
  dims_in_int_range d ->
  count d * sizeof T <= VECTOR_MAX_SIZE ->
  load_the_npy_file (pre ++ bytes)
  = if size bytes <? count d * sizeof T then
      Throw (runtime_error "load_the_npy_file: failed fread")
    else
      Ok (container T fo d (firstn (Z.to_nat (count d * sizeof T)) bytes)).
Proof.
  intros He HT Hd Hmax.
  pose proof (header_round_trip_int_range T fo d pre bytes He Hd) as Hp.
  rewrite (load_the_npy_file_parsed _ _ _ Hp).
  cbn [descriptor hi_shape hi_word_size hi_fortran_order].
  destruct (product_dims d Hd) as [-> H0].
  pose proof (sizeof_supported T ds HT) as Hs.
  assert (Hw : wrap (count d * sizeof T) = count d * sizeof T).
  { apply wrap_small. rewrite SIZE_MOD_val. unfold VECTOR_MAX_SIZE in Hmax.
    change (2 ^ 63 - 1) with 9223372036854775807 in Hmax. nia. }
  rewrite Hw. rewrite (proj2 (Z.ltb_ge _ _)) by lia. reflexivity.
Qed.

(** ** Writing *)

Lemma fs_lookup_filter_other other name fs :
  other <> name ->
  fs_lookup other (filter (fun p => negb (String.eqb (fst p) name)) fs)
  = fs_lookup other fs.
Proof.
  intros Hne. induction fs as [|[n d] fs IH]; [reflexivity|].
  cbn [filter fst]. destruct (String.eqb n name) eqn:E; cbn [negb fs_lookup].
  - apply String.eqb_eq in E. subst n.
    destruct (String.eqb name other) eqn:E2; [|exact IH].
    apply String.eqb_eq in E2. congruence.
  - now rewrite IH.
Qed.

Lemma fs_lookup_set_other other name d fs :
  other <> name -> fs_lookup other (fs_set name d fs) = fs_lookup other fs.
Proof.
  intros Hne. unfold fs_set. cbn [fs_lookup].
  destruct (String.eqb name other) eqn:E.
  - apply String.eqb_eq in E. congruence.
  - now apply fs_lookup_filter_other.
Qed.

Lemma read_bytes_ok data n :
  0 <= n <= size data -> read_bytes data n = Ok (firstn (Z.to_nat n) data).
Proof. intros H. unfold read_bytes. now rewrite (proj2 (Z.leb_le _ _)) by lia. Qed.

Lemma payload_size T ds n :
  descr_of T = Some ds -> 0 <= n -> n * sizeof T <= VECTOR_MAX_SIZE ->
  wrap (n * sizeof T) = n * sizeof T /\ 0 <= n * sizeof T.
Proof.
  intros HT Hn Hmax. pose proof (sizeof_supported T ds HT).
  split; [|nia]. apply wrap_small. rewrite SIZE_MOD_val.
  unfold VECTOR_MAX_SIZE in Hmax. change (2 ^ 63 - 1) with 9223372036854775807 in Hmax.
  nia.
Qed.

Lemma save_arr_world T filename data size_v w pre ds :
  writable w filename ->
  emit T false (Rank1 size_v) = Some pre ->
  descr_of T = Some ds ->
  0 <= size_v <= INT_MAX ->
  size_v * sizeof T <= size data ->
  exists w',
    save_arr T filename data size_v w = (Ok tt, w')
    /\ file_written w w' filename (pre ++ payload_bytes T size_v data) [].
Proof.
  intros Hl He HT Hn Hd. unfold emit in He. rewrite HT in He. injection He as <-.
  pose proof (sizeof_supported T ds HT) as Hs.
  destruct (payload_size T ds size_v HT) as [Hw H0];
    [lia | unfold VECTOR_MAX_SIZE; change (2 ^ 63 - 1) with 9223372036854775807;
           unfold INT_MAX in *; nia |].
  unfold save_arr, bind, ret, lift. unfold ofstream_open at 1. rewrite Hl.
  cbn [negb]. do 3 (write_step_with ofstream_write_spec fs_lookup_set).
  rewrite HT. do 2 (write_step_with ofstream_write_spec fs_lookup_set).
  rewrite Hw, read_bytes_ok by lia.
  write_step_with ofstream_write_spec fs_lookup_set.
  finish_write_with fs_lookup_set fs_lookup_set_other.
  - f_equal. unfold dict_body, dims_text, bool_text, payload_bytes.
    repeat (rewrite <- ?app_assoc; cbn [app]). reflexivity.
  - now rewrite app_nil_r.
Qed.

Lemma save_mat_world T filename (matrix : Matrix ascii) w pre ds :
  writable w filename ->
  emit T (negb (IsRowMajor matrix)) (Rank2 (m_rows matrix) (m_cols matrix)) = Some pre ->
  descr_of T = Some ds ->
  0 <= m_rows matrix <= INT_MAX -> 0 <= m_cols matrix <= INT_MAX ->
  m_rows matrix * m_cols matrix * sizeof T <= size (m_storage matrix) ->
  m_rows matrix * m_cols matrix * sizeof T <= VECTOR_MAX_SIZE ->
  exists w',
    save_mat T filename matrix w = (Ok tt, w')
    /\ file_written w w' filename
         (pre ++ payload_bytes T (m_rows matrix * m_cols matrix) (m_storage matrix))
         ["START"%string; filename_msg "Saved matrix to: " filename].
Proof.
  intros Hl He HT Hr Hc Hd Hmax. unfold emit in He. rewrite HT in He. injection He as <-.
  destruct (payload_size T ds (m_rows matrix * m_cols matrix) HT) as [Hw H0];
    [nia | assumption |].
  assert (Hrc : wrap (m_rows matrix * m_cols matrix) = m_rows matrix * m_cols matrix).
  { apply wrap_small. rewrite SIZE_MOD_val. unfold INT_MAX in *. nia. }
  unfold save_mat, bind, ret, lift. unfold cout at 1. cbv beta iota.
  unfold ofstream_open at 1. cbn [w_locked]. unfold writable in Hl. rewrite Hl.
  cbn [negb]. do 3 (write_step_with ofstream_write_spec fs_lookup_set).
  rewrite HT. do 2 (write_step_with ofstream_write_spec fs_lookup_set).
  rewrite Hrc, Hw, read_bytes_ok by lia.
  write_step_with ofstream_write_spec fs_lookup_set.
  unfold cout. cbv beta iota.
  finish_write_with fs_lookup_set fs_lookup_set_other.
  - f_equal. unfold dict_body, dims_text, bool_text, payload_bytes.
    repeat (rewrite <- ?app_assoc; cbn [app]). reflexivity.
  - now rewrite <- app_assoc.
Qed.

Lemma save_arr_as_matrix_world T filename data size_h size_w w pre ds :
  writable w filename ->
  emit T false (Rank2 size_h size_w) = Some pre ->
  descr_of T = Some ds ->
  0 <= size_h <= INT_MAX -> 0 <= size_w <= INT_MAX ->
  size_h * size_w * sizeof T <= size data ->
  size_h * size_w * sizeof T <= VECTOR_MAX_SIZE ->
  exists w',
    save_arr_as_matrix T filename data size_h size_w w = (Ok tt, w')
    /\ file_written w w' filename
         (pre ++ payload_bytes T (size_h * size_w) data)
         [filename_msg "Saved matrix to: " filename].
Proof.
  intros Hl He HT Hr Hc Hd Hmax. unfold emit in He. rewrite HT in He. injection He as <-.
  destruct (payload_size T ds (size_h * size_w) HT) as [Hw H0];
    [nia | assumption |].
  assert (Hrc : wrap (size_h * size_w) = size_h * size_w).
  { apply wrap_small. rewrite SIZE_MOD_val. unfold INT_MAX in *. nia. }
  unfold save_arr_as_matrix, bind, ret, lift.
  unfold ofstream_open at 1. unfold writable in Hl. rewrite Hl.
  cbn [negb]. do 3 (write_step_with ofstream_write_spec fs_lookup_set).
  rewrite HT. do 2 (write_step_with ofstream_write_spec fs_lookup_set).
  rewrite Hrc, Hw, read_bytes_ok by lia.
  write_step_with ofstream_write_spec fs_lookup_set.
  unfold cout. cbv beta iota.
  finish_write_with fs_lookup_set fs_lookup_set_other.
  f_equal. unfold dict_body, dims_text, bool_text, payload_bytes.
  repeat (rewrite <- ?app_assoc; cbn [app]). reflexivity.
Qed.

(** ** Typed views of the buffer *)

Lemma zrange_length i n : List.length (zrange i n) = n.
Proof. revert i. induction n as [|n IH]; intros i; [reflexivity|]. simpl. now rewrite IH. Qed.

Lemma zrange_snoc i n : zrange i (S n) = zrange i n ++ [i + Z.of_nat n].
Proof.
  revert i. induction n as [|n IH]; intros i.
  - cbn [zrange app]. now rewrite Z.add_0_r.
  - change (zrange i (S (S n))) with (i :: zrange (i + 1) (S n)).
    rewrite IH. cbn [zrange app]. f_equal. f_equal. f_equal. lia.
Qed.

Lemma zrange_nth i n k :
  (k < n)%nat -> nth_error (zrange i n) k = Some (i + Z.of_nat k).
Proof.
  revert i k. induction n as [|n IH]; intros i k Hk; [lia|].
  destruct k as [|k]; cbn [zrange nth_error]; [f_equal; lia|].
  rewrite IH by lia. f_equal. lia.
Qed.

Lemma firstn_add {A} (a b : nat) (l : list A) :
  firstn (a + b) l = firstn a l ++ firstn b (skipn a l).
Proof.
  revert l. induction a as [|a IH]; intros l; [reflexivity|].
  destruct l as [|x l]; [now rewrite !firstn_nil|].
  cbn [Nat.add firstn skipn app]. now rewrite IH.
Qed.

(** The elements of a buffer, one after the other, are the buffer. *)
Lemma elements_concat sz data n :
  0 <= sz ->
  List.concat (map (elem_at sz data) (zrange 0 n))
  = firstn (n * Z.to_nat sz) data.
Proof.
  intros Hsz. induction n as [|n IH]; [reflexivity|].
  rewrite zrange_snoc, map_app, concat_app, IH. cbn [map List.concat].
  rewrite app_nil_r. unfold elem_at.
  replace (Z.to_nat ((0 + Z.of_nat n) * sz)) with (n * Z.to_nat sz)%nat by nia.
  replace (S n * Z.to_nat sz)%nat with (n * Z.to_nat sz + Z.to_nat sz)%nat by lia.
  now rewrite firstn_add.
Qed.

Lemma elem_at_firstn sz data k n :
  0 <= k -> 0 <= sz -> (k + 1) * sz <= n ->
  elem_at sz (firstn (Z.to_nat n) data) k = elem_at sz data k.
Proof.
  intros Hk Hsz Hn. unfold elem_at.
  rewrite skipn_firstn_comm, firstn_firstn. f_equal. nia.
Qed.

(** [as_vec] when the elements asked for lie in the buffer. *)
Lemma as_vec_ok sz arr :
  0 < sz -> 0 <= num_vals arr ->
  num_vals arr * sz <= size (data_holder arr) ->
  as_vec sz arr
  = Ok (map (elem_at sz (data_holder arr)) (zrange 0 (Z.to_nat (num_vals arr)))).
Proof.
  intros Hsz Hn Hb. unfold as_vec. apply for_range_ok.
  intros k Hk. apply read_elem_ok; nia.
Qed.

(** ** The matrix loader, continued *)

Lemma fill_matrix_ok sz arr r c :
  0 <= r -> 0 <= c -> 0 < sz ->
  r * c * sz <= size (data_holder arr) -> r * c * sz < SIZE_MOD ->
  fill_matrix sz arr r c = Ok (reinterpret sz arr r c).
Proof.
  intros Hr Hc Hsz Hb Hm. unfold fill_matrix, reinterpret.
  rewrite (for_range_ok
             (fun i => map (fun j => elem_at sz (data_holder arr)
                                      (if fortran_order arr then j * r + i else i * c + j))
                         (zrange 0 (Z.to_nat c)))).
  - reflexivity.
  - intros i Hi. apply for_range_ok. intros j Hj.
    rewrite Z2Nat.id in Hi, Hj by lia.
    destruct (fortran_order arr).
    + destruct (index_in_bounds j i c r sz sz) as (B1 & B2 & B3); try lia.
      rewrite (wrap_small (j * r)), wrap_small by lia.
      apply read_elem_ok; lia.
    + destruct (index_in_bounds i j r c sz sz) as (B1 & B2 & B3); try lia.
      rewrite (wrap_small (i * c)), wrap_small by lia.
      apply read_elem_ok; lia.
Qed.

Lemma load_npy_mat_unfold T fname w arr w' :
  npy_load fname w = (Ok arr, w') ->
  load_npy_mat T fname w
  = match shape arr with
    | [r; c] =>
        (rbind (fill_matrix (sizeof T) arr r c)
           (fun coeffs => Ok (mk_Matrix r c RowMajor coeffs)), w')
    | _ => (Throw (runtime_error
                     "Only 2D arrays can be converted to Eigen matrices."), w')
    end.
Proof.
  intros H. unfold load_npy_mat, bind. rewrite H.
  destruct (shape arr) as [|r [|c [|x l]]]; try reflexivity.
Qed.

(** Coefficient [(i, j)] of the rows laid one after the other. *)
Lemma rows_concat_nth {A} (f : Z -> Z -> A) c n : forall s i j,
  (i < n)%nat -> (j < c)%nat ->
  nth_error (List.concat (map (fun x => map (f x) (zrange 0 c)) (zrange s n)))
    (i * c + j)
  = Some (f (s + Z.of_nat i) (Z.of_nat j)).
Proof.
  induction n as [|n IH]; intros s i j Hi Hj; [lia|].
  cbn [zrange map List.concat].
  destruct i as [|i].
  - cbn [Nat.mul Nat.add]. rewrite nth_error_app1 by (rewrite length_map, zrange_length; lia).
    rewrite nth_error_map, zrange_nth by lia. cbn [option_map].
    f_equal. f_equal; lia.
  - rewrite nth_error_app2 by (rewrite length_map, zrange_length; nia).
    rewrite length_map, zrange_length.
    replace (S i * c + j - c)%nat with (i * c + j)%nat by nia.
    rewrite IH by lia. f_equal. f_equal. lia.
Qed.

Lemma reinterpret_nth sz arr r c i j :
  0 <= i < r -> 0 <= j < c ->
  nth_error (reinterpret sz arr r c) (Z.to_nat (i * c + j))
  = Some (elem_at sz (data_holder arr)
            (if fortran_order arr then j * r + i else i * c + j)).
Proof.
  intros Hi Hj. unfold reinterpret.
  replace (Z.to_nat (i * c + j)) with (Z.to_nat i * Z.to_nat c + Z.to_nat j)%nat by nia.
  rewrite (rows_concat_nth
             (fun i j => elem_at sz (data_holder arr)
                           (if fortran_order arr then j * r + i else i * c + j)))
    by lia.
  rewrite Z.add_0_l, !Z2Nat.id by lia. reflexivity.
Qed.

(** ** Folder stacking *)

(** *** File names *)

Lemma list_of_append (a b : string) :
  list_ascii_of_string (a ++ b)%string
  = list_ascii_of_string a ++ list_ascii_of_string b.
Proof. induction a as [|c a IH]; [reflexivity|]. simpl. now rewrite IH. Qed.

Lemma to_string_inj i j :
  0 <= i < SIZE_MOD -> 0 <= j < SIZE_MOD -> to_string i = to_string j -> i = j.
Proof.
  intros Hi Hj H. rewrite <- (to_string_value i), <- (to_string_value j) by assumption.
  now rewrite H.
Qed.

Lemma numbered_name_inj folder_name prefix suffix i j :
  0 <= i < SIZE_MOD -> 0 <= j < SIZE_MOD ->
  numbered_name folder_name prefix i suffix = numbered_name folder_name prefix j suffix ->
  i = j.
Proof.
  intros Hi Hj H. unfold numbered_name in H.
  apply (f_equal list_ascii_of_string) in H.
  rewrite !list_of_append, !list_ascii_of_string_of_list_ascii in H.
  do 3 apply app_inv_head in H. apply app_inv_tail in H.
  now apply to_string_inj.
Qed.

(** *** The folder as a file system *)

Lemma folder_files_lookup_gen folder_name prefix suffix contents : forall s i,
  Z.of_nat (s + List.length contents) < SIZE_MOD ->
  Z.of_nat i < SIZE_MOD ->
  fs_lookup (numbered_name folder_name prefix (Z.of_nat i) suffix)
    (map (fun p => (numbered_name folder_name prefix (Z.of_nat (fst p)) suffix, snd p))
       (combine (seq s (List.length contents)) contents))
  = if (i <? s)%nat then None else nth_error contents (i - s).
Proof.
  induction contents as [|d contents IH]; intros s i Hs Hi.
  - cbn [List.length seq combine map fs_lookup].
    destruct (i <? s)%nat; [reflexivity|]. now destruct (i - s)%nat.
  - cbn [List.length seq combine map fs_lookup fst snd].
    cbn [List.length] in Hs.
    destruct (String.eqb _ _) eqn:E.
    + apply String.eqb_eq, numbered_name_inj, Nat2Z.inj in E; try lia.
      subst s. rewrite Nat.ltb_irrefl, Nat.sub_diag. reflexivity.
    + assert (Hne : s <> i) by (intros ->; now rewrite String.eqb_refl in E).
      rewrite IH by lia.
      destruct (i <? S s)%nat eqn:E1.
      * apply Nat.ltb_lt in E1. now rewrite (proj2 (Nat.ltb_lt i s)) by lia.
      * apply Nat.ltb_ge in E1. rewrite (proj2 (Nat.ltb_ge i s)) by lia.
        replace (i - s)%nat with (S (i - S s)) by lia. reflexivity.
Qed.

Lemma folder_files_lookup folder_name prefix suffix contents i :
  Z.of_nat (List.length contents) <= INT_MAX -> (i <= List.length contents)%nat ->
  fs_lookup (numbered_name folder_name prefix (Z.of_nat i) suffix)
    (folder_files folder_name prefix suffix contents)
  = nth_error contents i.
Proof.
  intros Hn Hi. unfold folder_files.
  rewrite folder_files_lookup_gen
    by (rewrite SIZE_MOD_val; unfold INT_MAX in Hn; lia).
  cbn [Nat.ltb Nat.leb]. now rewrite Nat.sub_0_r.
Qed.

Lemma folder_files_length folder_name prefix suffix contents :
  List.length (folder_files folder_name prefix suffix contents)
  = List.length contents.
Proof.
  unfold folder_files. rewrite length_map, length_combine, length_seq. lia.
Qed.

(** *** One file into the matrix *)

Lemma open_close_neutral name w :
  mk_world (w_files w) (w_locked w) (remove_one name (name :: w_open w))
    (w_cout w) (w_cerr w) = w.
Proof. rewrite remove_one_head. apply world_eta. Qed.

Lemma mem_write_ok mem off data :
  0 <= off -> off + size data <= Z.of_nat (List.length mem) ->
  mem_write mem off data
  = Ok (firstn (Z.to_nat off) mem ++ map Some data
          ++ skipn (Z.to_nat off + List.length data) mem).
Proof.
  intros H0 Hb. unfold mem_write. destruct data as [|x data].
  - cbn [map app List.length]. rewrite Nat.add_0_r, firstn_skipn. reflexivity.
  - now rewrite (proj2 (Z.leb_le _ _)) by assumption.
Qed.

(** [_map_data] on a file whose header parses and whose payload is whole:
    the payload lands at [off], the rest of the storage is untouched and the
    file is closed again. *)
Lemma _map_data_parsed fname mem off w d info rest :
  fs_lookup fname (w_files w) = Some d ->
  parse_npy_header d = Ok (info, rest) ->
  let n := wrap (hi_word_size info * product (hi_shape info)) in
  n <= size rest ->
  0 <= off -> off + n <= Z.of_nat (List.length mem) ->
  _map_data fname mem off w
  = (Ok (firstn (Z.to_nat off) mem ++ map Some (firstn (Z.to_nat n) rest)
           ++ skipn (Z.to_nat (off + n)) mem), w).
Proof.
  intros Hf Hp n Hn H0 Hb.
  assert (Hn0 : 0 <= n) by apply wrap_range.
  unfold _map_data, bind, fopen_rb. rewrite Hf. unfold lift. cbn [f_rest].
  rewrite Hp. fold n.
  rewrite mem_write_ok by (rewrite ?size_firstn_le; lia).
  rewrite size_firstn_le by lia. rewrite Z.eqb_refl. cbn [negb].
  unfold fclose, ret. cbn [f_name w_files w_locked w_open w_cout w_cerr].
  rewrite open_close_neutral.
  pose proof (size_firstn_le n rest Hn0 Hn) as Hs. unfold size in Hs.
  replace (Z.to_nat off + List.length (firstn (Z.to_nat n) rest))%nat
    with (Z.to_nat (off + n)) by lia.
  reflexivity.
Qed.

(** *** A folder written by one writer, stacked from index 0 *)

Lemma concat_firstn_S {A} (l : list (list A)) i x :
  nth_error l i = Some x ->
  List.concat (firstn (S i) l) = List.concat (firstn i l) ++ x.
Proof.
  revert i. induction l as [|y l IH]; intros i H; [now destruct i|].
  destruct i as [|i].
  - injection H as ->. cbn. now rewrite app_nil_r.
  - cbn [nth_error] in H. change (firstn (S (S i)) (y :: l)) with (y :: firstn (S i) l).
    cbn [List.concat]. rewrite (IH i H).
    change (firstn (S i) (y :: l)) with (y :: firstn i l).
    cbn [List.concat]. now rewrite app_assoc.
Qed.

Lemma concat_uniform_length {A} (l : list (list A)) n :
  Forall (fun p => List.length p = n) l ->
  List.length (List.concat l) = (List.length l * n)%nat.
Proof.
  induction 1 as [|p l Hp _ IH]; [reflexivity|].
  cbn [List.concat List.length]. rewrite length_app, IH, Hp. lia.
Qed.

Lemma Forall_firstn {A} (P : A -> Prop) i l :
  Forall P l -> Forall P (firstn i l).
Proof.
  intros H. revert i. induction H as [|x l Hx _ IH]; intros i.
  - rewrite firstn_nil. constructor.
  - destruct i; [constructor|]. cbn [firstn]. now constructor.
Qed.

Lemma skipn_repeat {A} (x : A) k m : skipn k (repeat x m) = repeat x (m - k).
Proof.
  revert m. induction k as [|k IH]; intros m; [now rewrite Nat.sub_0_r|].
  destruct m; [reflexivity|]. cbn [repeat skipn Nat.sub]. apply IH.
Qed.

Section Stacking.
Variables (T : elem_type) (ds : list ascii) (fo : bool) (r c : Z).
Variables (pre : list ascii) (payloads : list (list ascii)).
Variables (folder_name prefix suffix : string).
Variable w : world.

Hypothesis HT : descr_of T = Some ds.
Hypothesis Hemit : emit T fo (Rank2 r c) = Some pre.
Hypothesis Hr : 0 <= r <= INT_MAX.
Hypothesis Hc : 0 <= c <= INT_MAX.
Hypothesis Hpayloads : Forall (fun p => size p = r * c * sizeof T) payloads.
Hypothesis Hcount : Z.of_nat (List.length payloads) <= INT_MAX.
Hypothesis Htotal :
  Z.of_nat (List.length payloads) * (r * c * sizeof T) <= VECTOR_MAX_SIZE.
Hypothesis Hw :
  w_files w = folder_files folder_name prefix suffix (map (app pre) payloads).

Let n := List.length payloads.
Let chunk := r * c * sizeof T.

Lemma stacking_dims : dims_in_int_range (Rank2 r c).
Proof. unfold dims_in_int_range. cbn [dims_list]. repeat constructor; lia. Qed.

Lemma stacking_chunk : 0 <= chunk.
Proof. pose proof (sizeof_supported T ds HT). unfold chunk. nia. Qed.

Lemma stacking_lookup i p :
  nth_error payloads i = Some p ->
  fs_lookup (numbered_name folder_name prefix (Z.of_nat i) suffix) (w_files w)
  = Some (pre ++ p).
Proof.
  intros H. rewrite Hw.
  assert (Hi : (i < n)%nat) by (apply nth_error_Some; congruence).
  rewrite folder_files_lookup; rewrite ?length_map; fold n; try lia.
  rewrite nth_error_map, H. reflexivity.
Qed.

Lemma stacking_lookup_end :
  fs_lookup (numbered_name folder_name prefix (Z.of_nat n) suffix) (w_files w) = None.
Proof.
  rewrite Hw. rewrite folder_files_lookup; rewrite ?length_map; fold n; try lia.
  rewrite nth_error_map. replace (nth_error payloads n) with (@None (list ascii));
    [reflexivity|]. symmetry. apply nth_error_None. unfold n. lia.
Qed.

Lemma stacking_parse p :
  parse_npy_header (pre ++ p) = Ok (descriptor T fo (Rank2 r c), p).
Proof. apply header_round_trip_int_range; [exact Hemit | exact stacking_dims]. Qed.

(** The probing loop counts the files. *)
Lemma stacking_count k : forall i,
  (i + k = n)%nat ->
  count_files (S k) folder_name prefix suffix (Z.of_nat i) (Z.of_nat i) w
  = (Ok (Z.of_nat n), w).
Proof.
  induction k as [|k IH]; intros i Hi.
  - cbn [count_files]. unfold bind, fopen_rb.
    replace i with n by lia. rewrite stacking_lookup_end. reflexivity.
  - destruct (nth_error payloads i) as [p|] eqn:E.
    2:{ apply nth_error_None in E. fold n in E. lia. }
    change (count_files (S (S k)) folder_name prefix suffix (Z.of_nat i) (Z.of_nat i) w)
      with (bind (fopen_rb (numbered_name folder_name prefix (Z.of_nat i) suffix))
              (fun test_fp =>
                 match test_fp with
                 | None => ret (Z.of_nat i)
                 | Some test_fp =>
                     bind (fclose test_fp) (fun _ =>
                       count_files (S k) folder_name prefix suffix (Z.of_nat i + 1)
                         (wrap (Z.of_nat i + 1)))
                 end) w).
    unfold bind at 1. unfold fopen_rb. rewrite (stacking_lookup i p E).
    unfold bind at 1. unfold fclose. cbn [f_name w_files w_locked w_open w_cout w_cerr].
    rewrite open_close_neutral.
    rewrite wrap_small by (rewrite SIZE_MOD_val; unfold INT_MAX in Hcount; fold n in Hcount; lia).
    replace (Z.of_nat i + 1) with (Z.of_nat (S i)) by lia.
    apply IH. lia.
Qed.

Lemma stacking_payload_length :
  Forall (fun p => List.length p = Z.to_nat chunk) payloads.
Proof.
  eapply Forall_impl; [|exact Hpayloads]. cbv beta. intros p Hp.
  unfold size in Hp. fold chunk in Hp. lia.
Qed.

Lemma stacked_prefix_length i :
  (i <= n)%nat ->
  List.length (map Some (List.concat (firstn i payloads)))
  = Z.to_nat (Z.of_nat i * chunk).
Proof.
  intros Hi. pose proof stacking_chunk as H0.
  rewrite length_map, (concat_uniform_length _ (Z.to_nat chunk)).
  - rewrite length_firstn. fold n. nia.
  - apply Forall_firstn, stacking_payload_length.
Qed.

Lemma stacked_length i :
  (i <= n)%nat ->
  Z.of_nat (List.length (stacked payloads chunk i)) = Z.of_nat n * chunk.
Proof.
  intros Hi. pose proof stacking_chunk as H0. unfold stacked.
  rewrite length_app, stacked_prefix_length, repeat_length by assumption.
  fold n. nia.
Qed.

Lemma stacked_all : stacked payloads chunk n = map Some (List.concat payloads).
Proof.
  unfold stacked. fold n. rewrite Nat.sub_diag. cbn [Z.of_nat Z.mul Z.to_nat repeat].
  rewrite app_nil_r. unfold n. now rewrite firstn_all.
Qed.

Lemma stacked_step i p :
  nth_error payloads i = Some p ->
  firstn (Z.to_nat (Z.of_nat i * chunk)) (stacked payloads chunk i)
    ++ map Some (firstn (Z.to_nat chunk) p)
    ++ skipn (Z.to_nat (Z.of_nat i * chunk + chunk)) (stacked payloads chunk i)
  = stacked payloads chunk (S i).
Proof.
  intros Hp. pose proof stacking_chunk as H0.
  assert (Hi : (i < n)%nat) by (apply nth_error_Some; congruence).
  assert (Hlen : List.length p = Z.to_nat chunk).
  { pose proof stacking_payload_length as Hall.
    rewrite Forall_forall in Hall. apply Hall. eapply nth_error_In; eassumption. }
  pose proof (stacked_prefix_length i ltac:(lia)) as Hpre.
  unfold stacked. fold n.
  rewrite firstn_app, Hpre, Nat.sub_diag, <- Hpre, firstn_all, firstn_O.
  rewrite app_nil_r.
  rewrite skipn_app, Hpre, skipn_all2 by lia. cbn [app].
  rewrite skipn_repeat.
  rewrite <- Hlen, firstn_all.
  rewrite (concat_firstn_S _ _ _ Hp), map_app, <- app_assoc.
  do 3 f_equal. nia.
Qed.

(** The loading loop fills the storage file by file. *)
Lemma stacking_load k : forall i,
  (i + k = n)%nat ->
  load_files k folder_name prefix suffix (sizeof T) r c (Z.of_nat i)
    (stacked payloads chunk i) w
  = (Ok (stacked payloads chunk n), w).
Proof.
  pose proof stacking_chunk as H0. pose proof (sizeof_supported T ds HT) as Hs.
  induction k as [|k IH]; intros i Hi.
  - cbn [load_files]. unfold ret. replace i with n by lia. reflexivity.
  - destruct (nth_error payloads i) as [p|] eqn:E.
    2:{ apply nth_error_None in E. fold n in E. lia. }
    cbn [load_files]. unfold bind at 1.
    assert (Hp : size p = chunk).
    { rewrite Forall_forall in Hpayloads. apply Hpayloads.
      eapply nth_error_In; eassumption. }
    assert (Hoff : wrap (wrap (Z.of_nat i * r) * c) * sizeof T = Z.of_nat i * chunk).
    { unfold chunk. fold n in Htotal, Hcount.
      unfold VECTOR_MAX_SIZE in Htotal.
      change (2 ^ 63 - 1) with 9223372036854775807 in Htotal.
      rewrite (wrap_small (Z.of_nat i * r))
        by (rewrite SIZE_MOD_val; unfold INT_MAX in *; nia).
      rewrite wrap_small; [ring|]. rewrite SIZE_MOD_val. unfold INT_MAX in *. nia. }
    rewrite Hoff.
    destruct (product_dims (Rank2 r c) stacking_dims) as [Hprod _].
    cbn [count] in Hprod.
    assert (Hn : wrap (sizeof T * product (dims_list (Rank2 r c))) = chunk).
    { rewrite Hprod. unfold chunk. fold n in Htotal.
      unfold VECTOR_MAX_SIZE in Htotal.
      change (2 ^ 63 - 1) with 9223372036854775807 in Htotal.
      replace (sizeof T * (r * c)) with (r * c * sizeof T) by ring.
      apply wrap_small. rewrite SIZE_MOD_val. fold chunk in Htotal |- *. nia. }
    rewrite (_map_data_parsed _ _ _ _ (pre ++ p) (descriptor T fo (Rank2 r c)) p);
      cbn [descriptor hi_word_size hi_shape]; rewrite ?Hn;
      [ | now apply stacking_lookup | apply stacking_parse | lia | nia
        | rewrite stacked_length by lia; nia ].
    rewrite (stacked_step i p E).
    replace (Z.of_nat i + 1) with (Z.of_nat (S i)) by lia.
    apply IH. lia.
Qed.

Lemma stacking_result FORTRAN_ORDER :
  payloads <> [] ->
  FORTRAN_ORDER = (if fo then 0 else 1) ->
  npy_folder2mat T FORTRAN_ORDER folder_name prefix 0 suffix w
  = (Ok (mk_Matrix (r * Z.of_nat n) c FORTRAN_ORDER
           (map Some (List.concat payloads))), w).
Proof.
  intros Hne HF. pose proof stacking_chunk as H0.
  pose proof (sizeof_supported T ds HT) as Hs.
  destruct (nth_error payloads 0) as [p0|] eqn:E0.
  2:{ apply nth_error_None in E0. exfalso. apply Hne.
      apply length_zero_iff_nil. lia. }
  pose proof (stacking_lookup 0 p0 E0) as L0. change (Z.of_nat 0) with 0 in L0.
  pose proof (stacking_count n 0%nat eq_refl) as C0. change (Z.of_nat 0) with 0 in C0.
  pose proof (stacking_load n 0%nat eq_refl) as D0. change (Z.of_nat 0) with 0 in D0.
  unfold npy_folder2mat. unfold bind at 1. unfold fopen_rb.
  rewrite L0.
  unfold bind at 1. unfold lift. cbn [f_rest]. rewrite stacking_parse.
  unfold bind at 1. unfold fclose. cbn [f_name w_files w_locked w_open w_cout w_cerr fst].
  rewrite open_close_neutral.
  cbn [descriptor hi_fortran_order hi_shape dims_list].
  rewrite HF, Z.eqb_refl. cbn [negb].
  unfold bind at 1. unfold vec_at at 1. cbn [nth_error].
  unfold bind at 1. unfold vec_at at 1. cbn [nth_error].
  unfold bind at 1.
  unfold bind at 1.
  rewrite Hw, folder_files_length, length_map. fold n.
  rewrite C0.
  assert (Hrows : wrap (r * Z.of_nat n) = r * Z.of_nat n).
  { fold n chunk in Htotal. unfold chunk in Htotal.
    apply wrap_small. rewrite SIZE_MOD_val. unfold INT_MAX in *. fold n in Hcount. nia. }
  rewrite Hrows.
  change (wrap 0) with 0. rewrite Z.sub_0_r, Nat2Z.id.
  replace (repeat None (Z.to_nat (r * Z.of_nat n * c * sizeof T)))
    with (stacked payloads chunk 0).
  - unfold bind. rewrite D0. unfold ret.
    now rewrite stacked_all.
  - unfold stacked. cbn [firstn List.concat map app]. fold n.
    rewrite Nat.sub_0_r. f_equal. f_equal. unfold chunk. ring.
Qed.
End Stacking.

(** ** [load_npy_arr] *)

Lemma load_npy_arr_parsed fname w d info rest :
  fs_lookup fname (w_files w) = Some d ->
  parse_npy_header d = Ok (info, rest) ->
  let n := wrap (hi_word_size info * product (hi_shape info)) in
  load_npy_arr fname w
  = if size rest <? n then
      (Ok (map Some rest ++ repeat None (Z.to_nat n - List.length rest),
           n, hi_word_size info),
       add_cerr (with_open w (fname :: w_open w)) "load_the_npy_file: failed fread")
    else
      (Ok (map Some (firstn (Z.to_nat n) rest), n, hi_word_size info),
       with_open w (fname :: w_open w)).
Proof.
  intros Hf Hp n. assert (Hn : 0 <= n) by apply wrap_range.
  unfold load_npy_arr, bind, fopen_rb. rewrite Hf. unfold lift. cbn [f_rest].
  rewrite Hp. fold n. unfold store. rewrite skipn_repeat.
  destruct (size rest <? n) eqn:E.
  - apply Z.ltb_lt in E. rewrite size_firstn_short by assumption.
    rewrite (proj2 (Z.eqb_neq _ _)) by lia. reflexivity.
  - apply Z.ltb_ge in E. rewrite size_firstn_le by assumption.
    rewrite Z.eqb_refl. cbn [negb]. unfold ret.
    replace (Z.to_nat n - List.length (firstn (Z.to_nat n) rest))%nat with O.
    + cbn [repeat]. now rewrite app_nil_r.
    + rewrite length_firstn. unfold size in E. lia.
Qed.

(** [npy_load] gives what [load_the_npy_file] gives. *)
Lemma npy_load_ok_inv fname w arr w' :
  npy_load fname w = (Ok arr, w') ->
  w' = w /\ exists d, fs_lookup fname (w_files w) = Some d
                      /\ load_the_npy_file d = Ok arr.
Proof.
  rewrite npy_load_unfold. intros H.
  destruct (fs_lookup fname (w_files w)) as [d|]; [|discriminate].
  destruct (load_the_npy_file d) as [a| | |] eqn:E; try discriminate.
  injection H as <- <-. split; [reflexivity|]. now exists d.
Qed.

Lemma load_the_npy_file_ok_inv fp arr :
  load_the_npy_file fp = Ok arr ->
  exists info rest,
    parse_npy_header fp = Ok (info, rest)
    /\ let n := wrap (product (hi_shape info) * hi_word_size info) in
       n <= VECTOR_MAX_SIZE /\ n <= size rest
       /\ arr = mk_NpyArray (firstn (Z.to_nat n) rest) (hi_shape info)
                  (hi_word_size info) (hi_fortran_order info)
                  (product (hi_shape info)).
Proof.
  intros H.
  destruct (parse_npy_header fp) as [[info rest]| | |] eqn:Ep;
    try (unfold load_the_npy_file in H; rewrite Ep in H; discriminate H).
  exists info, rest. split; [reflexivity|].
  rewrite (load_the_npy_file_parsed _ _ _ Ep) in H. cbv zeta in *.
  destruct (VECTOR_MAX_SIZE <? _) eqn:E1; [discriminate|].
  destruct (size rest <? _) eqn:E2; [discriminate|].
  apply Z.ltb_ge in E1, E2. injection H as <-. repeat split; assumption.
Qed.

(** ** The reader, beyond the canonical layout *)

(** X1.  An exception that leaves [parse_npy_header] is a
    [std::runtime_error] with one of the six messages the function throws,
    or a [std::out_of_range] raised inside [substr] or [std::stoi]; it is
    never a [std::invalid_argument] ([std::stoi] is called on a run of
    digits only) nor a [std::length_error].  The statement is about the
    exceptions; calls that read outside the buffer or the string are no
    exception of the model, and nothing is said of what they end in. *)
Theorem parse_npy_header_exceptions fp e :
  parse_npy_header fp = Throw e -> parser_exception e.
Proof.
  intros H. pose proof (parse_npy_header_outcome fp) as Ho.
  rewrite H in Ho. cbn [parser_outcome] in Ho. unfold parser_exceptions in Ho.
  repeat (destruct Ho as [<- | Ho];
          [cbn [parser_exception parser_messages In]; auto 10 |]).
  destruct Ho.
Qed.

Lemma parse_npy_header_exceptions_witness :
  parser_exception (runtime_error "parse_npy_header: failed in fread").
Proof.
  apply (parse_npy_header_exceptions truncated_file). vm_compute. reflexivity.
Defined.

(** X2.  Every descriptor [parse_npy_header] returns has all its
    dimensions in [0, INT_MAX], and a word size that is an [int] converted
    to [size_t]: at most [INT_MAX], or at least [2^64 - 2^31] (a negative
    width in the file). *)
Theorem parse_npy_header_ranges fp info rest :
  parse_npy_header fp = Ok (info, rest) ->
  Forall (fun n => 0 <= n <= INT_MAX) (hi_shape info)
  /\ (0 <= hi_word_size info <= INT_MAX
      \/ SIZE_MOD + INT_MIN <= hi_word_size info < SIZE_MOD).
Proof.
  intros H. pose proof (parse_npy_header_outcome fp) as Ho.
  rewrite H in Ho. destruct Ho as [Hw Hs]. split; assumption.
Qed.

Lemma parse_npy_header_ranges_witness :
  Forall (fun n => 0 <= n <= INT_MAX) [8]
  /\ (0 <= 8 <= INT_MAX \/ SIZE_MOD + INT_MIN <= 8 < SIZE_MOD).
Proof.
  apply (parse_npy_header_ranges v1_f64_file (mk_header_info 8 [8] false) f64_payload).
  vm_compute. reflexivity.
Defined.

(** X3.  The loop over the numbers of the shape always ends: the bound the
    model gives it (one more than the length of the text between the
    parentheses) is never exhausted, on any stream. *)
Theorem parse_npy_header_terminates fp : parse_npy_header fp <> OutOfFuel.
Proof.
  intros H. pose proof (parse_npy_header_outcome fp) as Ho.
  rewrite H in Ho. exact Ho.
Qed.

(** X4.  [find_header_substring] raises nothing and always returns from
    its two scans: it ends in a string or in a read outside the buffer or
    of an indeterminate byte.  A string it returns is empty, or is a run
    without newline that starts with a non-NUL character, followed by one
    newline; it is no longer than the buffer. *)
Theorem find_header_substring_postcondition buffer :
  match find_header_substring buffer with
  | Ok header =>
      header = []
      \/ exists c run,
           header = (c :: run) ++ [LF]
           /\ Ascii.eqb c NUL = false
           /\ no_newline (c :: run) = true
           /\ (List.length header <= List.length buffer)%nat
  | Throw _ => False
  | Undefined _ => True
  | OutOfFuel => False
  end.
Proof.
  destruct (find_header_substring buffer) as [header|e|u|] eqn:E.
  - now apply find_header_substring_shape.
  - exact (find_header_substring_no_throw buffer e E).
  - exact I.
  - exact (find_header_substring_fuel buffer E).
Qed.

(** X5.  On a header line that holds only NUL characters before its
    newline (an empty line included) [find_header_substring] returns the
    empty string, and the test of line 51 evaluates
    [header[header.size() - 1]] at index [2^64 - 1] of an empty string: the
    call reaches a read outside the string, whatever the first 11 bytes and
    the rest of the file are.  The statement is that read; what a compiled
    program does after it (the byte it finds is no newline, and the [throw]
    of line 53 follows) is not part of it. *)
Theorem blank_header_line_is_undefined pre k rest :
  List.length pre = 11%nat -> (k < 255)%nat ->
  (forall tail,
     find_header_substring (map Some (repeat NUL k) ++ Some LF :: tail) = Ok [])
  /\ at_index [] (wrap (size (@nil ascii) - 1)) = Undefined OutOfBounds
  /\ parse_npy_header (pre ++ repeat NUL k ++ LF :: rest) = Undefined OutOfBounds.
Proof.
  intros Hpre Hk.
  assert (Hn : no_newline (repeat NUL k) = true).
  { clear. induction k; [reflexivity|]. simpl. exact IHk. }
  assert (E : line_header (repeat NUL k) = []).
  { unfold line_header. clear. induction k; [reflexivity|]. simpl. exact IHk. }
  split; [|split].
  - intros tail. rewrite find_header_substring_line by assumption. now rewrite E.
  - reflexivity.
  - rewrite parse_npy_header_line;
      [| assumption | assumption | now rewrite repeat_length].
    rewrite E. reflexivity.
Qed.

Lemma blank_header_line_is_undefined_witness :
  (forall tail,
     find_header_substring (map Some (repeat NUL 3) ++ Some LF :: tail) = Ok [])
  /\ at_index [] (wrap (size (@nil ascii) - 1)) = Undefined OutOfBounds
  /\ parse_npy_header (v1_preamble ++ repeat NUL 3 ++ LF :: f64_payload)
     = Undefined OutOfBounds.
Proof.
  apply (blank_header_line_is_undefined v1_preamble 3 f64_payload).
  - reflexivity.
  - lia.
Defined.

(** *** Missing keys *)

Lemma line_header_plain a :
  a <> [] -> Ascii.eqb (hd NUL a) NUL = false -> line_header a = a ++ [LF].
Proof.
  intros Ha Hc. destruct a as [|c a]; [contradiction|].
  cbn [hd] in Hc. unfold line_header. cbn [drop_while]. rewrite Hc. reflexivity.
Qed.

Lemma parse_plain_line pre a rest :
  List.length pre = 11%nat -> no_newline a = true -> (List.length a < 255)%nat ->
  a <> [] -> Ascii.eqb (hd NUL a) NUL = false ->
  parse_npy_header (pre ++ a ++ LF :: rest)
  = rbind (parse_header_fields (a ++ [LF])) (fun info => Ok (info, rest)).
Proof.
  intros Hpre Hn Hlen Ha Hc.
  rewrite parse_npy_header_line by assumption.
  now rewrite line_header_plain.
Qed.

(** X6.  A header line (at most 254 characters, starting with a non-NUL
    character) in which the text [fortran_order] does not occur is
    reported by the runtime error that names the keyword. *)
Theorem missing_fortran_order_reported pre a rest :
  List.length pre = 11%nat -> no_newline a = true -> (List.length a < 255)%nat ->
  a <> [] -> Ascii.eqb (hd NUL a) NUL = false ->
  index_of (str "fortran_order") (a ++ [LF]) = None ->
  parse_npy_header (pre ++ a ++ LF :: rest)
  = Throw (runtime_error
      "parse_npy_header: failed to find header keyword: 'fortran_order'").
Proof.
  intros Hpre Hn Hlen Ha Hc Hk.
  rewrite parse_plain_line by assumption.
  rewrite (fields_missing_fortran_order (a ++ [LF]) a eq_refl Hlen Hk).
  reflexivity.
Qed.

Lemma missing_fortran_order_reported_witness :
  parse_npy_header (v1_preamble ++ no_order_line ++ LF :: f64_payload)
  = Throw (runtime_error
      "parse_npy_header: failed to find header keyword: 'fortran_order'").
Proof.
  apply (missing_fortran_order_reported v1_preamble no_order_line f64_payload);
    first [reflexivity | vm_compute; lia | discriminate].
Defined.

(** X7.  When [fortran_order] is there, with the 4 characters of its value
    inside the line, and the line has no ['('] or no [')'], the runtime
    error for the parentheses is raised. *)
Theorem missing_parenthesis_reported pre a rest k :
  List.length pre = 11%nat -> no_newline a = true -> (List.length a < 255)%nat ->
  a <> [] -> Ascii.eqb (hd NUL a) NUL = false ->
  index_of (str "fortran_order") (a ++ [LF]) = Some k ->
  (k + 16 <= List.length (a ++ [LF]))%nat ->
  index_of ["("%char] (a ++ [LF]) = None \/ index_of [")"%char] (a ++ [LF]) = None ->
  parse_npy_header (pre ++ a ++ LF :: rest)
  = Throw (runtime_error
      "parse_npy_header: failed to find header keyword: '(' or ')'").
Proof.
  intros Hpre Hn Hlen Ha Hc Hk Hk16 Hp.
  rewrite parse_plain_line by assumption.
  rewrite (fields_missing_parenthesis (a ++ [LF]) a eq_refl Hlen k Hk Hk16 Hp).
  reflexivity.
Qed.

Lemma missing_parenthesis_reported_witness :
  parse_npy_header (v1_preamble ++ no_paren_line ++ LF :: f64_payload)
  = Throw (runtime_error
      "parse_npy_header: failed to find header keyword: '(' or ')'").
Proof.
  apply (missing_parenthesis_reported v1_preamble no_paren_line f64_payload 17%nat);
    first [reflexivity | vm_compute; lia | discriminate | left; reflexivity].
Defined.

(** X8.  A header line (at most 254 characters, starting with a non-NUL
    character) that has [fortran_order] with the 4 characters of its value
    inside the line, a ['('] and a [')'], and not the text [descr].  The
    shape text is [header.substr(i + 1, j - i - 1)] for the first ['('] at
    [i] and the first [')'] at [j] (up to the end of the line when the
    [')'] comes first).  The loop of lines 74-77 runs on it before [descr]
    is looked for: the call ends in the exception of that loop when it
    throws, which can only be the [out_of_range] of [std::stoi], and in the
    runtime error for [descr] when the loop completes. *)
Theorem missing_descr_reported pre a rest k i j :
  List.length pre = 11%nat -> no_newline a = true -> (List.length a < 255)%nat ->
  a <> [] -> Ascii.eqb (hd NUL a) NUL = false ->
  index_of (str "fortran_order") (a ++ [LF]) = Some k ->
  (k + 16 <= List.length (a ++ [LF]))%nat ->
  index_of ["("%char] (a ++ [LF]) = Some i ->
  index_of [")"%char] (a ++ [LF]) = Some j ->
  index_of (str "descr") (a ++ [LF]) = None ->
  exists str_shape,
    substr (a ++ [LF]) (Z.of_nat i + 1) (wrap (Z.of_nat j - Z.of_nat i - 1))
    = Ok str_shape
    /\ parse_npy_header (pre ++ a ++ LF :: rest)
       = match shape_loop (S (List.length str_shape)) str_shape [] with
         | Ok _ => Throw (runtime_error
                     "parse_npy_header: failed to find header keyword: 'descr'")
         | Throw e => Throw e
         | Undefined u => Undefined u
         | OutOfFuel => OutOfFuel
         end
    /\ ((exists shape, shape_loop (S (List.length str_shape)) str_shape [] = Ok shape)
        \/ shape_loop (S (List.length str_shape)) str_shape []
           = Throw (out_of_range "stoi")).
Proof.
  intros Hpre Hn Hlen Ha Hc Hk Hk16 Hi Hj Hd.
  destruct (fields_missing_descr (a ++ [LF]) a eq_refl Hlen k i j Hk Hk16 Hi Hj Hd)
    as (str_shape & Hs & Hp).
  exists str_shape. split; [exact Hs|]. split.
  - rewrite parse_plain_line by assumption. rewrite Hp.
    now destruct (shape_loop (S (List.length str_shape)) str_shape []).
  - apply shape_loop_cases. lia.
Qed.

(** A line without [descr] whose shape fits, and one whose shape has a
    number above [INT_MAX]. *)
Lemma missing_descr_reported_witness :
  parse_npy_header (v1_preamble ++ no_descr_line ++ LF :: f64_payload)
  = Throw (runtime_error
      "parse_npy_header: failed to find header keyword: 'descr'")
  /\ parse_npy_header (v1_preamble ++ no_descr_big_line ++ LF :: f64_payload)
     = Throw (out_of_range "stoi").
Proof.
  split.
  - destruct (missing_descr_reported v1_preamble no_descr_line f64_payload
                1%nat 33%nat 36%nat eq_refl eq_refl ltac:(vm_compute; lia)
                ltac:(discriminate) eq_refl eq_refl ltac:(vm_compute; lia)
                eq_refl eq_refl eq_refl) as (str_shape & Hs & Hp & _).
    vm_compute in Hs. injection Hs as <-. rewrite Hp. vm_compute. reflexivity.
  - destruct (missing_descr_reported v1_preamble no_descr_big_line f64_payload
                1%nat 33%nat 46%nat eq_refl eq_refl ltac:(vm_compute; lia)
                ltac:(discriminate) eq_refl eq_refl ltac:(vm_compute; lia)
                eq_refl eq_refl eq_refl) as (str_shape & Hs & Hp & _).
    vm_compute in Hs. injection Hs as <-. rewrite Hp. vm_compute. reflexivity.
Defined.

(** X9.  A file in the layout of the writers whose descr starts with ['>']
    instead of ['<'] or ['|'] is refused with "only little endian data is
    supported", for every registry type, version, order flag and shape of
    rank 1 or 2 with dimensions up to [INT_MAX]. *)
Theorem big_endian_is_rejected v minor T ds fo d pad payload :
  descr_of T = Some ds ->
  dims_in_int_range d ->
  size (dict_text (with_endianness ">"%char ds) fo d pad) <= 254 ->
  parse_npy_header
    (npy_file v minor (dict_text (with_endianness ">"%char ds) fo d pad) payload)
  = Throw (runtime_error
      "parse_npy_header: only little endian data is supported").
Proof.
  intros HT Hd Hsz.
  destruct (big_endian_prefix_rejected v T ds fo HT) as [Hok Hnl].
  rewrite parse_npy_header_layout_fields;
    [| assumption | now apply dims_in_int_range_nonneg | assumption].
  rewrite parse_fields_prefix_rejected; [| assumption | |].
  - now rewrite shape_loop_dims.
  - apply dims_text_no_paren. now apply dims_in_int_range_nonneg.
  - rewrite dict_text_split in Hsz. unfold size in Hsz.
    destruct v; cbn [header_prefix]; cbn [List.length app] in *; lia.
Qed.

Lemma big_endian_is_rejected_witness :
  parse_npy_header
    (npy_file V1 "000"%char (dict_text (str ">f8") false (Rank1 8) 60) f64_payload)
  = Throw (runtime_error
      "parse_npy_header: only little endian data is supported").
Proof.
  apply (big_endian_is_rejected V1 "000"%char T_double (str "<f8") false (Rank1 8)
           60%nat f64_payload).
  - reflexivity.
  - repeat constructor; vm_compute; discriminate.
  - vm_compute. discriminate.
Defined.

(** ** Loading what the writers wrote *)

Lemma emit_supported T ds fo d :
  descr_of T = Some ds -> exists pre, emit T fo d = Some pre.
Proof. intros H. unfold emit. rewrite H. eexists. reflexivity. Qed.

Lemma count_sizeof_rank1 T ds n :
  descr_of T = Some ds -> 0 <= n <= INT_MAX ->
  0 <= n * sizeof T <= VECTOR_MAX_SIZE.
Proof.
  intros HT Hn. pose proof (sizeof_supported T ds HT) as Hs.
  unfold VECTOR_MAX_SIZE. change (2 ^ 63 - 1) with 9223372036854775807.
  unfold INT_MAX in *. nia.
Qed.

(** X10.  [npy_load] on a file that starts with what the writers put
    before the payload (registry type [T], dimensions up to [INT_MAX],
    [count * sizeof(T)] within [max_size()]):
    when fewer than [count * sizeof(T)] bytes follow, "failed fread" is
    thrown and the handle stays open; otherwise the container holds exactly
    the first [count * sizeof(T)] bytes, bytes after them are ignored
    without notice, and the world of files and handles is as before the
    call. *)
Theorem npy_load_payload_length T ds fo d pre bytes fname w :
  descr_of T = Some ds ->
  emit T fo d = Some pre ->
  dims_in_int_range d ->
  count d * sizeof T <= VECTOR_MAX_SIZE ->
  fs_lookup fname (w_files w) = Some (pre ++ bytes) ->
  npy_load fname w
  = if size bytes <? count d * sizeof T then
      (Throw (runtime_error "load_the_npy_file: failed fread"),
       with_open w (fname :: w_open w))
    else
      (Ok (mk_NpyArray (firstn (Z.to_nat (count d * sizeof T)) bytes)
             (dims_list d) (sizeof T) fo (count d)), w).
Proof.
  intros HT He Hd Hmax Hf. rewrite npy_load_unfold, Hf.
  rewrite (load_written T fo d pre bytes ds He HT Hd Hmax).
  now destruct (size bytes <? count d * sizeof T).
Qed.

Lemma npy_load_payload_length_witness :
  npy_load "d/a0.npy" stack_world
  = if size (bytes [11; 12]) <? count (Rank2 1 2) * sizeof T_uint8 then
      (Throw (runtime_error "load_the_npy_file: failed fread"),
       with_open stack_world ("d/a0.npy"%string :: w_open stack_world))
    else
      (Ok (mk_NpyArray
             (firstn (Z.to_nat (count (Rank2 1 2) * sizeof T_uint8)) (bytes [11; 12]))
             (dims_list (Rank2 1 2)) (sizeof T_uint8) false (count (Rank2 1 2))),
       stack_world).
Proof.
  apply (npy_load_payload_length T_uint8 (str "|u1") false (Rank2 1 2) u1_1x2_prefix).
  - reflexivity.
  - vm_compute. reflexivity.
  - repeat constructor; vm_compute; discriminate.
  - vm_compute. discriminate.
  - vm_compute. reflexivity.
Defined.

(** X11.  A successful [npy_load] closes the file and changes nothing in
    the world; the buffer of the container has [num_vals * word_size] bytes
    (modulo [2^64]), at most [max_size()] of [std::vector<char>];
    [num_vals] is the product of the dimensions, each of them in
    [0, INT_MAX]. *)
Theorem npy_load_success fname w arr w' :
  npy_load fname w = (Ok arr, w') ->
  w' = w
  /\ num_vals arr = product (shape arr)
  /\ num_bytes arr = wrap (num_vals arr * word_size arr)
  /\ num_bytes arr <= VECTOR_MAX_SIZE
  /\ Forall (fun n => 0 <= n <= INT_MAX) (shape arr).
Proof.
  intros H. destruct (npy_load_ok_inv _ _ _ _ H) as (-> & d & Hf & Hl).
  destruct (load_the_npy_file_ok_inv _ _ Hl) as (info & rest & Hp & Hmax & Hsz & ->).
  pose proof (parse_npy_header_outcome d) as Ho. rewrite Hp in Ho.
  destruct Ho as [_ Hs]. cbn [fst] in Hs.
  pose proof (wrap_range (product (hi_shape info) * hi_word_size info)) as Hr.
  unfold num_bytes. cbn [data_holder shape word_size num_vals].
  rewrite size_firstn_le by lia.
  repeat split; try assumption; reflexivity.
Qed.

Lemma npy_load_success_witness :
  s6_world = s6_world
  /\ 8 = product [8]
  /\ 64 = wrap (8 * 8)
  /\ 64 <= VECTOR_MAX_SIZE
  /\ Forall (fun n => 0 <= n <= INT_MAX) [8].
Proof.
  apply (npy_load_success "s6.npy" s6_world
           (mk_NpyArray f64_payload [8] 8 false 8) s6_world).
  vm_compute. reflexivity.
Defined.

(** ** [as_vec] *)

Lemma for_range_overrun sz data n : forall i,
  0 < sz -> 0 <= i -> size data < (i + Z.of_nat n) * sz -> (0 < n)%nat ->
  for_range i n (read_elem sz data) = Undefined OutOfBounds.
Proof.
  induction n as [|n IH]; intros i Hsz Hi Hover Hn; [lia|].
  cbn [for_range]. unfold read_elem at 1.
  destruct ((i + 1) * sz <=? size data) eqn:E.
  - apply Z.leb_le in E. cbn [rbind].
    destruct n as [|n'].
    + exfalso. change (Z.of_nat 1) with 1 in Hover. lia.
    + rewrite IH; [reflexivity | assumption | lia | | lia].
      replace (i + 1 + Z.of_nat (S n')) with (i + Z.of_nat (S (S n'))) by lia.
      exact Hover.
  - reflexivity.
Qed.

(** X12.  [as_vec<T>] copies [num_vals] elements of [sizeof(T)] bytes from
    the start of the buffer, whatever the word size of the file is: when
    [num_vals * sizeof(T)] bytes are there, element [k] of the vector is
    bytes [k * sizeof(T) .. (k + 1) * sizeof(T) - 1] and the elements
    together are the first [num_vals * sizeof(T)] bytes of the buffer;
    when they are not, the copy reads past the end of the buffer. *)
Theorem as_vec_spec sz arr :
  0 < sz -> 0 <= num_vals arr ->
  as_vec sz arr
  = (if num_vals arr * sz <=? size (data_holder arr) then
       Ok (map (elem_at sz (data_holder arr)) (zrange 0 (Z.to_nat (num_vals arr))))
     else Undefined OutOfBounds)
  /\ List.concat (map (elem_at sz (data_holder arr))
                    (zrange 0 (Z.to_nat (num_vals arr))))
     = firstn (Z.to_nat (num_vals arr * sz)) (data_holder arr).
Proof.
  intros Hsz Hn. split.
  - destruct (num_vals arr * sz <=? size (data_holder arr)) eqn:E.
    + apply Z.leb_le in E. now apply as_vec_ok.
    + apply Z.leb_gt in E. unfold as_vec.
      pose proof (size_nonneg (data_holder arr)) as H0.
      apply for_range_overrun; [lia | lia | rewrite Z2Nat.id by lia; lia | nia].
  - rewrite elements_concat by lia. f_equal. nia.
Qed.

Lemma as_vec_spec_witness :
  as_vec 4 (mk_NpyArray f64_payload [8] 8 false 8)
  = (if 8 * 4 <=? size f64_payload then
       Ok (map (elem_at 4 f64_payload) (zrange 0 (Z.to_nat 8)))
     else Undefined OutOfBounds)
  /\ List.concat (map (elem_at 4 f64_payload) (zrange 0 (Z.to_nat 8)))
     = firstn (Z.to_nat (8 * 4)) f64_payload.
Proof.
  apply (as_vec_spec 4 (mk_NpyArray f64_payload [8] 8 false 8)).
  - lia.
  - cbn. lia.
Defined.

(** ** [load_npy_arr] *)

(** X13.  Where [npy_load] throws "failed fread", [load_npy_arr] returns
    normally: on a file whose payload is shorter than [n_bytes] it writes
    one line to [std::cerr] and returns the buffer of [n_bytes] bytes, the
    bytes read first and the rest indeterminate.  It has no [fclose]: the
    handle stays open. *)
Theorem load_npy_arr_short_read fname w d info rest :
  fs_lookup fname (w_files w) = Some d ->
  parse_npy_header d = Ok (info, rest) ->
  size rest < wrap (hi_word_size info * product (hi_shape info)) ->
  load_npy_arr fname w
  = (Ok (map Some rest
           ++ repeat None
                (Z.to_nat (wrap (hi_word_size info * product (hi_shape info)))
                 - List.length rest),
         wrap (hi_word_size info * product (hi_shape info)),
         hi_word_size info),
     add_cerr (with_open w (fname :: w_open w)) "load_the_npy_file: failed fread").
Proof.
  intros Hf Hp Hs. rewrite (load_npy_arr_parsed fname w d info rest Hf Hp).
  cbv zeta. now rewrite (proj2 (Z.ltb_lt _ _) Hs).
Qed.

Lemma load_npy_arr_short_read_witness :
  load_npy_arr "s.npy" short_payload_world
  = (Ok (map Some (bytes [1; 2])
           ++ repeat None (Z.to_nat (wrap (1 * product [1; 4]))
                           - List.length (bytes [1; 2])),
         wrap (1 * product [1; 4]), 1),
     add_cerr (with_open short_payload_world
                 ("s.npy"%string :: w_open short_payload_world))
       "load_the_npy_file: failed fread").
Proof.
  apply (load_npy_arr_short_read "s.npy" short_payload_world short_payload_file
           (mk_header_info 1 [1; 4] false) (bytes [1; 2])).
  - reflexivity.
  - vm_compute. reflexivity.
  - vm_compute. reflexivity.
Defined.

(** X14.  On every file [npy_load] loads, [load_npy_arr] returns the same
    bytes, the same byte count and the same word size; but it leaves the
    file open where [npy_load] closes it. *)
Theorem load_npy_arr_agrees_with_npy_load fname w arr w' :
  npy_load fname w = (Ok arr, w') ->
  load_npy_arr fname w
  = (Ok (map Some (data_holder arr), num_bytes arr, word_size arr),
     with_open w (fname :: w_open w)).
Proof.
  intros H. destruct (npy_load_ok_inv _ _ _ _ H) as (-> & d & Hf & Hl).
  destruct (load_the_npy_file_ok_inv _ _ Hl) as (info & rest & Hp & Hmax & Hsz & ->).
  rewrite (load_npy_arr_parsed fname w d info rest Hf Hp). cbv zeta.
  rewrite (Z.mul_comm (hi_word_size info)).
  rewrite (proj2 (Z.ltb_ge _ _) Hsz).
  unfold num_bytes. cbn [data_holder word_size].
  rewrite size_firstn_le by (pose proof (wrap_range (product (hi_shape info)
                                                      * hi_word_size info)); lia).
  reflexivity.
Qed.

Lemma load_npy_arr_agrees_with_npy_load_witness :
  load_npy_arr "s6.npy" s6_world
  = (Ok (map Some f64_payload, num_bytes (mk_NpyArray f64_payload [8] 8 false 8), 8),
     with_open s6_world ("s6.npy"%string :: w_open s6_world)).
Proof.
  apply (load_npy_arr_agrees_with_npy_load "s6.npy" s6_world
           (mk_NpyArray f64_payload [8] 8 false 8) s6_world).
  vm_compute. reflexivity.
Defined.

(** X15.  [load_npy_arr] never closes the file: whenever the file can be
    opened, whatever the call ends in (a value, an exception of the
    parser, undefined behaviour), the handle is open afterwards, and
    neither the files nor [std::cout] have changed. *)
Theorem load_npy_arr_never_closes fname w d :
  fs_lookup fname (w_files w) = Some d ->
  w_open (snd (load_npy_arr fname w)) = fname :: w_open w
  /\ w_files (snd (load_npy_arr fname w)) = w_files w
  /\ w_cout (snd (load_npy_arr fname w)) = w_cout w.
Proof.
  intros Hf.
  destruct (parse_npy_header d) as [[info rest]|e|u|] eqn:Hp.
  - rewrite (load_npy_arr_parsed fname w d info rest Hf Hp). cbv zeta.
    destruct (size rest <? _); repeat split.
  - unfold load_npy_arr, bind, fopen_rb. rewrite Hf. unfold lift. cbn [f_rest].
    rewrite Hp. repeat split.
  - unfold load_npy_arr, bind, fopen_rb. rewrite Hf. unfold lift. cbn [f_rest].
    rewrite Hp. repeat split.
  - unfold load_npy_arr, bind, fopen_rb. rewrite Hf. unfold lift. cbn [f_rest].
    rewrite Hp. repeat split.
Qed.

Lemma load_npy_arr_never_closes_witness :
  w_open (snd (load_npy_arr "t.npy" truncated_world))
  = "t.npy"%string :: w_open truncated_world
  /\ w_files (snd (load_npy_arr "t.npy" truncated_world)) = w_files truncated_world
  /\ w_cout (snd (load_npy_arr "t.npy" truncated_world)) = w_cout truncated_world.
Proof.
  apply (load_npy_arr_never_closes "t.npy" truncated_world truncated_file).
  reflexivity.
Defined.

(** ** [_map_data] *)

(** X16.  [_map_data] on a file whose header parses and whose payload is
    complete writes the [n_bytes] payload bytes at the destination and
    nothing else: the storage before and after them is untouched, and the
    file is closed again. *)
Theorem _map_data_copies_payload fname mem off w d info rest :
  fs_lookup fname (w_files w) = Some d ->
  parse_npy_header d = Ok (info, rest) ->
  wrap (hi_word_size info * product (hi_shape info)) <= size rest ->
  0 <= off ->
  off + wrap (hi_word_size info * product (hi_shape info))
    <= Z.of_nat (List.length mem) ->
  _map_data fname mem off w
  = (Ok (firstn (Z.to_nat off) mem
           ++ map Some (firstn (Z.to_nat (wrap (hi_word_size info
                                                * product (hi_shape info)))) rest)
           ++ skipn (Z.to_nat (off + wrap (hi_word_size info
                                           * product (hi_shape info)))) mem), w).
Proof. intros Hf Hp Hs Ho Hm. now apply (_map_data_parsed fname mem off w d info rest). Qed.

Lemma _map_data_copies_payload_witness :
  _map_data "d/a1.npy" (repeat None 3) 1 folder_world
  = (Ok (firstn (Z.to_nat 1) (repeat None 3)
           ++ map Some (firstn (Z.to_nat (wrap (1 * product [1; 1]))) (bytes [11]))
           ++ skipn (Z.to_nat (1 + wrap (1 * product [1; 1]))) (repeat None 3)),
     folder_world).
Proof.
  apply (_map_data_copies_payload "d/a1.npy" (repeat None 3) 1 folder_world
           (u1_file 11) (mk_header_info 1 [1; 1] false) (bytes [11])).
  - reflexivity.
  - vm_compute. reflexivity.
  - vm_compute. discriminate.
  - lia.
  - vm_compute. discriminate.
Defined.

(** ** Writing, then loading *)

Lemma payload_bytes_size T ds n data :
  descr_of T = Some ds -> 0 <= n -> n * sizeof T <= size data ->
  size (payload_bytes T n data) = n * sizeof T.
Proof.
  intros HT Hn Hd. pose proof (sizeof_supported T ds HT).
  unfold payload_bytes. apply size_firstn_le; [nia | assumption].
Qed.

Lemma firstn_payload_bytes T n data :
  firstn (Z.to_nat (n * sizeof T)) (payload_bytes T n data) = payload_bytes T n data.
Proof. unfold payload_bytes. rewrite firstn_firstn. now rewrite Nat.min_id. Qed.

Lemma npy_load_after_write T ds fo d pre n data filename w w' lines :
  descr_of T = Some ds ->
  emit T fo d = Some pre ->
  dims_in_int_range d ->
  count d = n ->
  n * sizeof T <= VECTOR_MAX_SIZE ->
  n * sizeof T <= size data ->
  file_written w w' filename (pre ++ payload_bytes T n data) lines ->
  npy_load filename w' = (Ok (container T fo d (payload_bytes T n data)), w').
Proof.
  intros HT He Hd Hc Hmax Hdata (Hf & _).
  destruct (product_dims d Hd) as [_ H0]. rewrite Hc in H0.
  rewrite npy_load_unfold, Hf.
  rewrite (load_written T fo d pre (payload_bytes T n data) ds He HT Hd)
    by (rewrite ?Hc; assumption).
  rewrite Hc, (payload_bytes_size T ds n data HT H0 Hdata), Z.ltb_irrefl.
  now rewrite firstn_payload_bytes.
Qed.

(** X17.  [save_arr], then [npy_load] of the same path: for a registry
    type, a length up to [INT_MAX] and a path that can be opened, the file
    is written ([std::cout] and [std::cerr] get nothing, other files and
    the open handles are untouched) and loading it gives back the shape
    [[size_v]], the word size [sizeof(T)], C order and the
    [size_v * sizeof(T)] bytes that were saved. *)
Theorem save_arr_then_npy_load T ds filename data size_v w :
  writable w filename ->
  descr_of T = Some ds ->
  0 <= size_v <= INT_MAX ->
  size_v * sizeof T <= size data ->
  exists pre w',
    emit T false (Rank1 size_v) = Some pre
    /\ save_arr T filename data size_v w = (Ok tt, w')
    /\ file_written w w' filename (pre ++ payload_bytes T size_v data) []
    /\ npy_load filename w'
       = (Ok (mk_NpyArray (payload_bytes T size_v data) [size_v] (sizeof T) false
                size_v), w').
Proof.
  intros Hl HT Hn Hd.
  destruct (emit_supported T ds false (Rank1 size_v) HT) as [pre He].
  destruct (save_arr_world T filename data size_v w pre ds Hl He HT Hn Hd)
    as (w' & Hs & Hw).
  exists pre, w'. split; [exact He|]. split; [exact Hs|]. split; [exact Hw|].
  apply (npy_load_after_write T ds false (Rank1 size_v) pre size_v data filename w w' []);
    try assumption.
  - repeat constructor; lia.
  - reflexivity.
  - apply (count_sizeof_rank1 T ds size_v HT Hn).
Qed.

Lemma save_arr_then_npy_load_witness :
  exists pre w',
    emit T_int16 false (Rank1 3) = Some pre
    /\ save_arr T_int16 "v.npy" i16_data 3 empty_world = (Ok tt, w')
    /\ file_written empty_world w' "v.npy" (pre ++ payload_bytes T_int16 3 i16_data) []
    /\ npy_load "v.npy" w'
       = (Ok (mk_NpyArray (payload_bytes T_int16 3 i16_data) [3] (sizeof T_int16) false
                3), w').
Proof.
  apply (save_arr_then_npy_load T_int16 (str "<i2") "v.npy" i16_data 3 empty_world).
  - reflexivity.
  - reflexivity.
  - vm_compute. split; discriminate.
  - vm_compute. discriminate.
Defined.

(** X18.  [save_arr], then [load_npy_mat] of the same path: the file
    written is one-dimensional, so the matrix loader refuses it with "Only
    2D arrays can be converted to Eigen matrices."; the file has been
    closed by then. *)
Theorem save_arr_then_load_npy_mat T T' ds filename data size_v w :
  writable w filename ->
  descr_of T = Some ds ->
  0 <= size_v <= INT_MAX ->
  size_v * sizeof T <= size data ->
  exists w',
    save_arr T filename data size_v w = (Ok tt, w')
    /\ load_npy_mat T' filename w'
       = (Throw (runtime_error "Only 2D arrays can be converted to Eigen matrices."),
          w').
Proof.
  intros Hl HT Hn Hd.
  destruct (emit_supported T ds false (Rank1 size_v) HT) as [pre He].
  destruct (save_arr_world T filename data size_v w pre ds Hl He HT Hn Hd)
    as (w' & Hs & Hw).
  exists w'. split; [exact Hs|].
  rewrite (load_npy_mat_unfold T' filename w'
             (container T false (Rank1 size_v) (payload_bytes T size_v data)) w').
  - reflexivity.
  - apply (npy_load_after_write T ds false (Rank1 size_v) pre size_v data filename w w' []);
      try assumption.
    + repeat constructor; lia.
    + reflexivity.
    + apply (count_sizeof_rank1 T ds size_v HT Hn).
Qed.

Lemma save_arr_then_load_npy_mat_witness :
  exists w',
    save_arr T_int16 "v.npy" i16_data 3 empty_world = (Ok tt, w')
    /\ load_npy_mat T_int16 "v.npy" w'
       = (Throw (runtime_error "Only 2D arrays can be converted to Eigen matrices."),
          w').
Proof.
  apply (save_arr_then_load_npy_mat T_int16 T_int16 (str "<i2") "v.npy" i16_data 3
           empty_world).
  - reflexivity.
  - reflexivity.
  - vm_compute. split; discriminate.
  - vm_compute. discriminate.
Defined.

(** X19.  [save_mat], then [load_npy_mat] of the same path and element
    type: for a matrix of either storage order, with at most [INT_MAX]
    rows and columns, the matrix loaded has the same numbers of rows and
    columns, is row-major, and its coefficient [(i, j)] is the coefficient
    [(i, j)] of the matrix saved, for all [i] and [j]: the order flag
    written by [save_mat] is undone by [load_npy_mat]. *)
Theorem save_mat_then_load_npy_mat T ds filename (matrix : Matrix ascii) w :
  writable w filename ->
  descr_of T = Some ds ->
  0 <= m_rows matrix <= INT_MAX -> 0 <= m_cols matrix <= INT_MAX ->
  m_rows matrix * m_cols matrix * sizeof T <= size (m_storage matrix) ->
  m_rows matrix * m_cols matrix * sizeof T <= VECTOR_MAX_SIZE ->
  exists w' loaded,
    save_mat T filename matrix w = (Ok tt, w')
    /\ load_npy_mat T filename w' = (Ok loaded, w')
    /\ m_rows loaded = m_rows matrix
    /\ m_cols loaded = m_cols matrix
    /\ IsRowMajor loaded = true
    /\ forall i j, 0 <= i < m_rows matrix -> 0 <= j < m_cols matrix ->
         nth_error (m_storage loaded) (Z.to_nat (coeff_index loaded i j))
         = Some (elem_at (sizeof T) (m_storage matrix) (coeff_index matrix i j)).
Proof.
  intros Hl HT Hr Hc Hd Hmax.
  set (r := m_rows matrix) in *. set (c := m_cols matrix) in *.
  set (fo := negb (IsRowMajor matrix)).
  pose proof (sizeof_supported T ds HT) as Hsz.
  destruct (emit_supported T ds fo (Rank2 r c) HT) as [pre He].
  destruct (save_mat_world T filename matrix w pre ds Hl He HT Hr Hc Hd Hmax)
    as (w' & Hs & Hw).
  fold r c in Hw.
  set (P := payload_bytes T (r * c) (m_storage matrix)) in *.
  assert (Hload : npy_load filename w' = (Ok (container T fo (Rank2 r c) P), w')).
  { apply (npy_load_after_write T ds fo (Rank2 r c) pre (r * c) (m_storage matrix)
             filename w w' ["START"%string; filename_msg "Saved matrix to: " filename]);
      try assumption.
    - repeat constructor; lia.
    - reflexivity. }
  assert (HP : size P = r * c * sizeof T).
  { apply (payload_bytes_size T ds); [assumption | nia | assumption]. }
  exists w', (mk_Matrix r c RowMajor
                (reinterpret (sizeof T) (container T fo (Rank2 r c) P) r c)).
  split; [exact Hs|]. split.
  - rewrite (load_npy_mat_unfold T filename w' _ w' Hload).
    cbn [container shape dims_list].
    rewrite fill_matrix_ok; [reflexivity | lia | lia | lia | |].
    + cbn [container data_holder]. lia.
    + rewrite SIZE_MOD_val. unfold VECTOR_MAX_SIZE in Hmax.
      change (2 ^ 63 - 1) with 9223372036854775807 in Hmax. lia.
  - cbn [m_rows m_cols m_storage]. repeat split.
    intros i j Hi Hj. unfold coeff_index at 1.
    change (IsRowMajor (mk_Matrix r c RowMajor _)) with true. cbv iota.
    cbn [m_cols].
    rewrite (reinterpret_nth (sizeof T) _ r c i j Hi Hj).
    cbn [container data_holder fortran_order]. f_equal.
    unfold coeff_index. fold r c. unfold fo.
    assert (B1 : 0 <= i * c + j /\ i * c + j + 1 <= r * c) by nia.
    assert (B2 : 0 <= j * r + i /\ j * r + i + 1 <= r * c) by nia.
    destruct (IsRowMajor matrix); cbn [negb]; unfold P, payload_bytes;
      apply elem_at_firstn; try lia; apply Z.mul_le_mono_nonneg_r; lia.
Qed.

Lemma save_mat_then_load_npy_mat_witness :
  exists w' loaded,
    save_mat T_uint8 "m.npy" u1_colmajor empty_world = (Ok tt, w')
    /\ load_npy_mat T_uint8 "m.npy" w' = (Ok loaded, w')
    /\ m_rows loaded = m_rows u1_colmajor
    /\ m_cols loaded = m_cols u1_colmajor
    /\ IsRowMajor loaded = true
    /\ forall i j, 0 <= i < m_rows u1_colmajor -> 0 <= j < m_cols u1_colmajor ->
         nth_error (m_storage loaded) (Z.to_nat (coeff_index loaded i j))
         = Some (elem_at (sizeof T_uint8) (m_storage u1_colmajor)
                   (coeff_index u1_colmajor i j)).
Proof.
  apply (save_mat_then_load_npy_mat T_uint8 (str "|u1") "m.npy" u1_colmajor empty_world).
  - reflexivity.
  - reflexivity.
  - vm_compute. split; discriminate.
  - vm_compute. split; discriminate.
  - vm_compute. discriminate.
  - vm_compute. discriminate.
Defined.

(** X20.  [save_arr_as_matrix] on raw data and [save_mat] on the
    row-major matrix with the same storage write the same file; the only
    difference is on [std::cout], where [save_mat] prints "START" before
    the "Saved matrix to: ..." line both print. *)
Theorem save_arr_as_matrix_like_save_mat T ds filename data size_h size_w w :
  writable w filename ->
  descr_of T = Some ds ->
  0 <= size_h <= INT_MAX -> 0 <= size_w <= INT_MAX ->
  size_h * size_w * sizeof T <= size data ->
  size_h * size_w * sizeof T <= VECTOR_MAX_SIZE ->
  exists content w1 w2,
    save_arr_as_matrix T filename data size_h size_w w = (Ok tt, w1)
    /\ save_mat T filename (mk_Matrix size_h size_w RowMajor data) w = (Ok tt, w2)
    /\ file_written w w1 filename content
         [filename_msg "Saved matrix to: " filename]
    /\ file_written w w2 filename content
         ["START"%string; filename_msg "Saved matrix to: " filename].
Proof.
  intros Hl HT Hh Hw Hd Hmax.
  destruct (emit_supported T ds false (Rank2 size_h size_w) HT) as [pre He].
  destruct (save_arr_as_matrix_world T filename data size_h size_w w pre ds
              Hl He HT Hh Hw Hd Hmax) as (w1 & H1 & F1).
  destruct (save_mat_world T filename (mk_Matrix size_h size_w RowMajor data) w pre ds
              Hl He HT Hh Hw Hd Hmax) as (w2 & H2 & F2).
  exists (pre ++ payload_bytes T (size_h * size_w) data), w1, w2.
  split; [exact H1|]. split; [exact H2|]. split; [exact F1 | exact F2].
Qed.

Lemma save_arr_as_matrix_like_save_mat_witness :
  exists content w1 w2,
    save_arr_as_matrix T_int16 "m.npy" i16_data 1 3 empty_world = (Ok tt, w1)
    /\ save_mat T_int16 "m.npy" (mk_Matrix 1 3 RowMajor i16_data) empty_world
       = (Ok tt, w2)
    /\ file_written empty_world w1 "m.npy" content
         [filename_msg "Saved matrix to: " "m.npy"]
    /\ file_written empty_world w2 "m.npy" content
         ["START"%string; filename_msg "Saved matrix to: " "m.npy"].
Proof.
  apply (save_arr_as_matrix_like_save_mat T_int16 (str "<i2") "m.npy" i16_data 1 3
           empty_world).
  - reflexivity.
  - reflexivity.
  - vm_compute. split; discriminate.
  - vm_compute. split; discriminate.
  - vm_compute. discriminate.
  - vm_compute. discriminate.
Defined.

(** ** What the writers put before the payload *)

Lemma byte_value x :
  0 <= x < 256 -> Z.of_nat (nat_of_ascii (ascii_of_nat (Z.to_nat x))) = x.
Proof. intros H. rewrite nat_ascii_embedding by lia. lia. Qed.

Lemma le_value_le32 n : 0 <= n < 2 ^ 32 -> le_value (le32 n) = n.
Proof.
  intros Hn. change (2 ^ 32) with 4294967296 in Hn.
  unfold le32, le_value. cbn [map fold_right].
  change (2 ^ (8 * 0)) with 1. change (2 ^ (8 * 1)) with 256.
  change (2 ^ (8 * 2)) with 65536. change (2 ^ (8 * 3)) with 16777216.
  rewrite !byte_value by (apply Z.mod_pos_bound; lia).
  Z.div_mod_to_equations. lia.
Qed.

(** X21.  What [save_mat] and [save_arr] put before the payload is the
    6 magic bytes, the version bytes 2 and 0, a 4-byte field and the
    header text; the field, read as a little-endian number, is the length
    of the header text (the cast to [uint32_t] loses nothing, the text has
    at most 254 bytes), and the text ends with a newline.  So the payload
    starts at offset 12 plus the value of the field. *)
Theorem emitted_length_field T fo d pre :
  emit T fo d = Some pre ->
  exists header line,
    pre = magic_string ++ [major_version; minor_version]
            ++ le32 (size header) ++ header
    /\ header = line ++ [LF]
    /\ le_value (le32 (size header)) = size header
    /\ size header <= 254
    /\ size pre = 12 + size header.
Proof.
  intros He.
  destruct (emit_npy_file T fo d pre He) as (ds & pad & HT & Hsz & _ & Hfile).
  specialize (Hfile []). rewrite app_nil_r in Hfile.
  exists (dict_text ds fo d pad), (dict_body ds fo d ++ repeat SPACE pad).
  pose proof (size_nonneg (dict_text ds fo d pad)) as H0.
  assert (E : pre = magic_string ++ [major_version; minor_version]
                      ++ le32 (size (dict_text ds fo d pad)) ++ dict_text ds fo d pad).
  { rewrite Hfile. unfold npy_file. cbn [length_field major_of].
    now rewrite app_nil_r. }
  split; [exact E|]. split.
  { unfold dict_text. now rewrite <- app_assoc. }
  split.
  { apply le_value_le32. change (2 ^ 32) with 4294967296. lia. }
  split; [exact Hsz|].
  rewrite E at 1. rewrite !size_app. unfold size at 1 2 3.
  rewrite le32_length. cbn [List.length magic_string str list_ascii_of_string]. lia.
Qed.

Lemma emitted_length_field_witness :
  exists header line,
    u1_1x2_prefix = magic_string ++ [major_version; minor_version]
            ++ le32 (size header) ++ header
    /\ header = line ++ [LF]
    /\ le_value (le32 (size header)) = size header
    /\ size header <= 254
    /\ size u1_1x2_prefix = 12 + size header.
Proof.
  apply (emitted_length_field T_uint8 false (Rank2 1 2) u1_1x2_prefix).
  vm_compute. reflexivity.
Defined.

(** X22.  The reader on the writers' output, within the range of [int]:
    for every registry type, order flag and shape of rank 1 or 2 with
    dimensions up to [INT_MAX], parsing what the writer put before the
    payload returns the word size [sizeof(T)], the shape and the flag that
    were written, and leaves the stream at the first byte of the
    payload. *)
Theorem written_header_parses_back T fo d pre payload :
  emit T fo d = Some pre ->
  dims_in_int_range d ->
  parse_npy_header (pre ++ payload)
  = Ok (mk_header_info (sizeof T) (dims_list d) fo, payload).
Proof. intros He Hd. now apply header_round_trip_int_range. Qed.

Lemma written_header_parses_back_witness :
  parse_npy_header (u1_1x2_prefix ++ bytes [11; 12])
  = Ok (mk_header_info (sizeof T_uint8) (dims_list (Rank2 1 2)) false, bytes [11; 12]).
Proof.
  apply (written_header_parses_back T_uint8 false (Rank2 1 2) u1_1x2_prefix).
  - vm_compute. reflexivity.
  - repeat constructor; vm_compute; discriminate.
Defined.

(** ** Folder stacking from index 0 *)

(** X23.  [npy_folder2mat] called with [start_i = 0] on a folder that
    holds exactly the files [prefix0suffix] .. [prefix(n-1)suffix], each
    written by [save_mat] for an [r] x [c] matrix of type [T] in the
    storage order of the template parameter and with a complete payload:
    every file is read, the result has [r * n] rows and [c] columns, its
    storage is the payloads of the files one after the other in index
    order, no coefficient is left uninitialised, and every file is closed
    again. *)
Theorem npy_folder2mat_stacks_from_zero T ds fo r c pre payloads
  folder_name prefix suffix w FORTRAN_ORDER :
  descr_of T = Some ds ->
  emit T fo (Rank2 r c) = Some pre ->
  0 <= r <= INT_MAX -> 0 <= c <= INT_MAX ->
  Forall (fun p => size p = r * c * sizeof T) payloads ->
  Z.of_nat (List.length payloads) <= INT_MAX ->
  Z.of_nat (List.length payloads) * (r * c * sizeof T) <= VECTOR_MAX_SIZE ->
  w_files w = folder_files folder_name prefix suffix (map (app pre) payloads) ->
  payloads <> [] ->
  FORTRAN_ORDER = (if fo then ColMajor else RowMajor) ->
  npy_folder2mat T FORTRAN_ORDER folder_name prefix 0 suffix w
  = (Ok (mk_Matrix (r * Z.of_nat (List.length payloads)) c FORTRAN_ORDER
           (map Some (List.concat payloads))), w).
Proof.
  intros HT He Hr Hc Hp Hn Ht Hw Hne Ho.
  now apply (stacking_result T ds fo r c pre payloads folder_name prefix suffix w).
Qed.

Lemma npy_folder2mat_stacks_from_zero_witness :
  npy_folder2mat T_uint8 RowMajor "d" "a" 0 ".npy" stack_world
  = (Ok (mk_Matrix (1 * Z.of_nat (List.length [bytes [11; 12]; bytes [21; 22]])) 2
           RowMajor
           (map Some (List.concat [bytes [11; 12]; bytes [21; 22]]))), stack_world).
Proof.
  apply (npy_folder2mat_stacks_from_zero T_uint8 (str "|u1") false 1 2 u1_1x2_prefix
           [bytes [11; 12]; bytes [21; 22]] "d" "a" ".npy" stack_world RowMajor).
  - reflexivity.
  - vm_compute. reflexivity.
  - vm_compute. split; discriminate.
  - vm_compute. split; discriminate.
  - repeat constructor.
  - vm_compute. discriminate.
  - vm_compute. discriminate.
  - reflexivity.
  - discriminate.
  - reflexivity.
Defined.

(** ** Folder stacking: the first file *)

(** X24.  When the order flag of the first file does not match the
    template parameter ([FORTRAN_ORDER] must be 1, [Eigen::RowMajor], for
    a C-order file and 0 for a Fortran-order one), [npy_folder2mat] throws
    the order-mismatch error before it counts or reads any file; the first
    file has been closed. *)
Theorem npy_folder2mat_order_mismatch T FORTRAN_ORDER folder_name prefix start_i suffix
  w d info rest :
  fs_lookup (numbered_name folder_name prefix start_i suffix) (w_files w) = Some d ->
  parse_npy_header d = Ok (info, rest) ->
  (if hi_fortran_order info then 0 else 1) <> FORTRAN_ORDER ->
  npy_folder2mat T FORTRAN_ORDER folder_name prefix start_i suffix w
  = (Throw (runtime_error
       "npy_folder2mat: Matrix order mismatch. Expected fortran order does not match file order."),
     w).
Proof.
  intros Hf Hp Hne.
  unfold npy_folder2mat; unfold bind at 1; unfold fopen_rb; rewrite Hf;
    unfold bind at 1; unfold lift; cbn [f_rest]; rewrite Hp;
    unfold bind at 1; unfold fclose;
    cbn [f_name w_files w_locked w_open w_cout w_cerr fst];
    rewrite open_close_neutral.
  rewrite (proj2 (Z.eqb_neq _ _) Hne). reflexivity.
Qed.

Lemma npy_folder2mat_order_mismatch_witness :
  npy_folder2mat T_uint8 ColMajor "d" "a" 1 ".npy" folder_world
  = (Throw (runtime_error
       "npy_folder2mat: Matrix order mismatch. Expected fortran order does not match file order."),
     folder_world).
Proof.
  apply (npy_folder2mat_order_mismatch T_uint8 ColMajor "d" "a" 1 ".npy" folder_world
           (u1_file 11) (mk_header_info 1 [1; 1] false) (bytes [11])).
  - reflexivity.
  - vm_compute. reflexivity.
  - vm_compute. discriminate.
Defined.

(** X25.  The rank of the first file is not checked: when its order flag
    matches and its shape has fewer than two dimensions, [shape[0]] or
    [shape[1]] is read outside the vector. *)
Theorem npy_folder2mat_rank_not_checked T FORTRAN_ORDER folder_name prefix start_i suffix
  w d info rest :
  fs_lookup (numbered_name folder_name prefix start_i suffix) (w_files w) = Some d ->
  parse_npy_header d = Ok (info, rest) ->
  (if hi_fortran_order info then 0 else 1) = FORTRAN_ORDER ->
  (List.length (hi_shape info) < 2)%nat ->
  npy_folder2mat T FORTRAN_ORDER folder_name prefix start_i suffix w
  = (Undefined OutOfBounds, w).
Proof.
  intros Hf Hp He Hrank.
  unfold npy_folder2mat; unfold bind at 1; unfold fopen_rb; rewrite Hf;
    unfold bind at 1; unfold lift; cbn [f_rest]; rewrite Hp;
    unfold bind at 1; unfold fclose;
    cbn [f_name w_files w_locked w_open w_cout w_cerr fst];
    rewrite open_close_neutral.
  apply Z.eqb_eq in He. rewrite He. cbn [negb].
  destruct (hi_shape info) as [|x [|y l]]; cbn [List.length] in Hrank; try lia;
    reflexivity.
Qed.

Lemma npy_folder2mat_rank_not_checked_witness :
  npy_folder2mat T_double RowMajor "d" "a" 0 ".npy" rank1_folder_world
  = (Undefined OutOfBounds, rank1_folder_world).
Proof.
  apply (npy_folder2mat_rank_not_checked T_double RowMajor "d" "a" 0 ".npy"
           rank1_folder_world v1_f64_file (mk_header_info 8 [8] false) f64_payload).
  - reflexivity.
  - vm_compute. reflexivity.
  - reflexivity.
  - vm_compute. lia.
Defined.
